(** * llmfoundry/models/layers/norm.py: normalization layers

    A shallow embedding of the precision-casting helper, the low-precision
    LayerNorm wrapper, the RMSNorm core function, the two RMSNorm modules and
    the normalization registry, followed by the properties the specification
    states about them.

    The tensor runtime (torch), its autocast state and the accelerator
    bridge (torch_xla's pjrt) are collaborators of the file: they are an
    interface here ([Torch]), the source is written once against that
    interface, and a reference runtime with IEEE-754 arithmetic ([Ref])
    implements it so that every definition can be run. *)

From Stdlib Require Import ZArith QArith Qabs Lia.
From Stdlib Require Import Floats.SpecFloat.
From stdpp Require Import gmap strings list.

Open Scope Z_scope.
Open Scope string_scope.
Open Scope list_scope.

(** ** Data types of the host runtime *)

(** [torch.dtype], restricted to the floating-point types a normalization
    layer of a language model sees. *)
Inductive dtype : Set := float16 | bfloat16 | float32 | float64.

Definition dtype_eqb (a b : dtype) : bool :=
  match a, b with
  | float16, float16 | bfloat16, bfloat16
  | float32, float32 | float64, float64 => true
  | _, _ => false
  end.

(** A Python [float]: an IEEE-754 binary64 number. *)
Definition pyfloat : Type := spec_float.

(** The exceptions that can leave this file: the helper's own
    [NotImplementedError], and whatever the host raises (a shape or device
    mismatch, a device type [torch.autocast] has no support for, a dimension
    out of range), which this file never catches. *)
Inductive exn : Set := NotImplementedError | RuntimeError | IndexError.

Inductive result (A : Type) : Type :=
| Ok (a : A)
| Raise (e : exn).
Arguments Ok {A} a.
Arguments Raise {A} e.

(** [normalized_shape: Union[int, List[int], torch.Size]] *)
Inductive shape_arg : Type :=
| ShapeInt (n : nat)
| ShapeList (l : list nat).

(** What [torch.ones] and [torch.zeros] make of such an argument. *)
Definition shape_of_arg (a : shape_arg) : list nat :=
  match a with
  | ShapeInt n => [n]
  | ShapeList l => l
  end.

(** ** The host runtime as an interface

    Every call the source makes into torch or torch_xla is one field.  A
    primitive runs in a [world] (the autocast state, the pjrt mode and
    whatever else the runtime keeps, such as its allocator), may change it
    and may raise. *)
Class Torch : Type := {
  world : Type;
  Tensor : Type;
  (** the object [torch.autocast(...)] builds, which remembers what to
      restore on [__exit__] *)
  autocast_ctx : Type;

  (** [t.dtype], [t.device.type], [t.shape] *)
  t_dtype : Tensor -> dtype;
  t_device_type : Tensor -> string;
  t_shape : Tensor -> list nat;

  (** [torch.is_autocast_enabled()], [torch.get_autocast_gpu_dtype()],
      [torch.get_autocast_cpu_dtype()], [pjrt.using_pjrt()] *)
  is_autocast_enabled : world -> bool;
  get_autocast_gpu_dtype : world -> dtype;
  get_autocast_cpu_dtype : world -> dtype;
  using_pjrt : world -> bool;

  (** [torch.autocast(enabled=, device_type=)] up to the end of [__enter__]:
      the constructor raises for a device type autocast has no support for,
      whatever [enabled] is, and then nothing is entered; and [__exit__] *)
  autocast_enter : bool -> string -> world -> result autocast_ctx * world;
  autocast_exit : autocast_ctx -> world -> world;

  (** [t.to(dtype=d)] *)
  to : Tensor -> dtype -> world -> result Tensor * world;
  (** [t.pow(n)] *)
  pow : Tensor -> Z -> world -> result Tensor * world;
  (** [t.mean(dim, keepdim=k)] *)
  mean : Tensor -> Z -> bool -> world -> result Tensor * world;
  (** [t + s] for a Python float [s] *)
  add_scalar : Tensor -> pyfloat -> world -> result Tensor * world;
  (** [torch.rsqrt(t)] *)
  rsqrt : Tensor -> world -> result Tensor * world;
  (** [a * b] *)
  mul : Tensor -> Tensor -> world -> result Tensor * world;
  (** [torch.nn.functional.layer_norm(x, normalized_shape, weight, bias, eps)] *)
  layer_norm : Tensor -> list nat -> option Tensor -> option Tensor ->
               pyfloat -> world -> result Tensor * world;
  (** [torch.ones(shape, dtype=, device=)], [torch.zeros(...)]; the device is
      kept as its type *)
  ones : shape_arg -> option dtype -> option string ->
         world -> result Tensor * world;
  zeros : shape_arg -> option dtype -> option string ->
          world -> result Tensor * world
}.

(** ** The monad the source runs in: state (the world) and exceptions *)

Definition M `{Torch} (A : Type) : Type := world -> result A * world.

Definition ret `{Torch} {A : Type} (a : A) : M A := fun w => (Ok a, w).

Definition bind `{Torch} {A B : Type} (m : M A) (k : A -> M B) : M B :=
  fun w =>
    match m w with
    | (Ok a, w') => k a w'
    | (Raise e, w') => (Raise e, w')
    end.

Definition raise `{Torch} {A : Type} (e : exn) : M A := fun w => (Raise e, w).

(** Reading the world: the queries of the autocast and pjrt bridges. *)
Definition gets `{Torch} {A : Type} (f : world -> A) : M A :=
  fun w => (Ok (f w), w).

Declare Scope torch_scope.
Delimit Scope torch_scope with torch.
Notation "x <- c ;; k" := (bind c (fun x => k))
  (at level 100, c at next level, right associativity) : torch_scope.
Open Scope torch_scope.

(** [with torch.autocast(enabled=e, device_type=d): body].  When the
    context manager cannot be built the body does not run and there is
    nothing to leave; otherwise [__exit__] runs whether the body returns or
    raises, and the exception goes on. *)
Definition with_autocast `{Torch} {A : Type}
    (enabled : bool) (device_type : string) (body : M A) : M A :=
  fun w =>
    match autocast_enter enabled device_type w with
    | (Raise e, w1) => (Raise e, w1)
    | (Ok ctx, w1) =>
        let (r, w2) := body w1 in
        (r, autocast_exit ctx w2)
    end.

(** [t.float()] is [t.to(torch.float32)]. *)
Definition float `{Torch} (t : Tensor) : M Tensor := to t float32.

(** The value of [f(v) if v is not None else v]. *)
Definition if_not_None `{Torch} (f : Tensor -> M Tensor) (v : option Tensor)
    : M (option Tensor) :=
  match v with
  | Some t => t' <- f t ;; ret (Some t')
  | None => ret None
  end.

(** ** The source *)

(** [_cast_if_autocast_enabled], norm.py lines 10-19 *)
Definition _cast_if_autocast_enabled `{Torch} (tensor : Tensor) : M Tensor :=
  autocast <- gets is_autocast_enabled ;;
  if autocast then
    dtype <- (if String.eqb (t_device_type tensor) "cuda" then
                gets get_autocast_gpu_dtype
              else if String.eqb (t_device_type tensor) "cpu" then
                gets get_autocast_cpu_dtype
              else raise NotImplementedError) ;;
    to tensor dtype
  else ret tensor.

(** [torch.nn.LayerNorm]: the host runtime's own class, which
    [LPLayerNorm] extends and the registry lists.  Its constructor keeps the
    shape as a tuple and makes an all-ones weight and an all-zeros bias when
    [elementwise_affine]; its [forward] hands everything to the primitive. *)
Module LayerNorm.
Record t `{Torch} : Type := {
  normalized_shape : list nat;
  eps : pyfloat;
  weight : option Tensor;
  bias : option Tensor
}.

Definition __init__ `{Torch} (normalized_shape : shape_arg) (eps : pyfloat)
    (elementwise_affine : bool)
    (device : option string) (dtype : option dtype) : M t :=
  if elementwise_affine then
    w <- ones normalized_shape dtype device ;;
    b <- zeros normalized_shape dtype device ;;
    ret {| normalized_shape := shape_of_arg normalized_shape; eps := eps;
           weight := Some w; bias := Some b |}
  else
    ret {| normalized_shape := shape_of_arg normalized_shape; eps := eps;
           weight := None; bias := None |}.

Definition forward `{Torch} (self : t) (x : Tensor) : M Tensor :=
  layer_norm x (normalized_shape self) (weight self) (bias self) (eps self).
End LayerNorm.

(** [class LPLayerNorm(torch.nn.LayerNorm)], norm.py lines 22-56 *)
Module LPLayerNorm.
Definition __init__ `{Torch} (normalized_shape : shape_arg) (eps : pyfloat)
    (elementwise_affine : bool)
    (device : option string) (dtype : option dtype) : M LayerNorm.t :=
  LayerNorm.__init__ normalized_shape eps elementwise_affine device dtype.

Definition forward `{Torch} (self : LayerNorm.t) (x : Tensor) : M Tensor :=
  pjrt <- gets using_pjrt ;;
  if pjrt then
    layer_norm x (LayerNorm.normalized_shape self) (LayerNorm.weight self)
               (LayerNorm.bias self) (LayerNorm.eps self)
  else
    let module_device := t_device_type x in
    downcast_x <- _cast_if_autocast_enabled x ;;
    downcast_weight <-
      if_not_None _cast_if_autocast_enabled (LayerNorm.weight self) ;;
    downcast_bias <-
      if_not_None _cast_if_autocast_enabled (LayerNorm.bias self) ;;
    with_autocast false module_device
      (layer_norm downcast_x (LayerNorm.normalized_shape self)
                  downcast_weight downcast_bias (LayerNorm.eps self)).
End LPLayerNorm.

(** [rms_norm], norm.py lines 59-65 *)
Definition rms_norm `{Torch} (x : Tensor) (weight : option Tensor)
    (eps : pyfloat) : M Tensor :=
  x2 <- pow x 2 ;;
  ms <- mean x2 (-1) true ;;
  s <- add_scalar ms eps ;;
  r <- rsqrt s ;;
  output <- mul x r ;;
  match weight with
  | Some weight => mul output weight
  | None => ret output
  end.

(** [class RMSNorm(torch.nn.Module)], norm.py lines 68-89 *)
Module RMSNorm.
Record t `{Torch} : Type := {
  eps : pyfloat;
  weight : option Tensor
}.

Definition __init__ `{Torch} (normalized_shape : shape_arg) (eps : pyfloat)
    (weight : bool) (dtype : option dtype) (device : option string) : M t :=
  if weight then
    w <- ones normalized_shape dtype device ;;
    ret {| eps := eps; weight := Some w |}
  else
    ret {| eps := eps; weight := None |}.

Definition forward `{Torch} (self : t) (x : Tensor) : M Tensor :=
  pjrt <- gets using_pjrt ;;
  if pjrt then
    y <- rms_norm x (weight self) (eps self) ;;
    to y (t_dtype x)
  else
    xf <- float x ;;
    y <- rms_norm xf (weight self) (eps self) ;;
    to y (t_dtype x).
End RMSNorm.

(** [class LPRMSNorm(RMSNorm)], norm.py lines 92-118 *)
Module LPRMSNorm.
Definition __init__ `{Torch} (normalized_shape : shape_arg) (eps : pyfloat)
    (weight : bool) (dtype : option dtype) (device : option string)
    : M RMSNorm.t :=
  RMSNorm.__init__ normalized_shape eps weight dtype device.

Definition forward `{Torch} (self : RMSNorm.t) (x : Tensor) : M Tensor :=
  pjrt <- gets using_pjrt ;;
  if pjrt then
    y <- rms_norm x (RMSNorm.weight self) (RMSNorm.eps self) ;;
    to y (t_dtype x)
  else
    downcast_x <- _cast_if_autocast_enabled x ;;
    downcast_weight <-
      if_not_None _cast_if_autocast_enabled (RMSNorm.weight self) ;;
    with_autocast false (t_device_type x)
      (y <- rms_norm downcast_x downcast_weight (RMSNorm.eps self) ;;
       to y (t_dtype x)).
End LPRMSNorm.

(** [NORM_CLASS_REGISTRY], norm.py lines 121-126: the four classes by name. *)
Inductive norm_class : Set :=
| class_LayerNorm
| class_LPLayerNorm
| class_RMSNorm
| class_LPRMSNorm.

Definition NORM_CLASS_REGISTRY : gmap string norm_class :=
  <["layernorm" := class_LayerNorm]>
  (<["low_precision_layernorm" := class_LPLayerNorm]>
  (<["rmsnorm" := class_RMSNorm]>
  (<["low_precision_rmsnorm" := class_LPRMSNorm]> ∅))).

(** An instance of one of the four classes. *)
Inductive norm_module `{Torch} : Type :=
| obj_LayerNorm (self : LayerNorm.t)
| obj_LPLayerNorm (self : LayerNorm.t)
| obj_RMSNorm (self : RMSNorm.t)
| obj_LPRMSNorm (self : RMSNorm.t).

(** What the consumer of the registry does with an entry: it calls the class
    with a normalized shape and keyword arguments.  The affine flag is
    [elementwise_affine] for the two LayerNorm classes and [weight] for the
    two RMSNorm classes. *)
Definition construct `{Torch} (cls : norm_class) (normalized_shape : shape_arg)
    (eps : pyfloat) (affine : bool)
    (dtype : option dtype) (device : option string) : M norm_module :=
  match cls with
  | class_LayerNorm =>
      m <- LayerNorm.__init__ normalized_shape eps affine device dtype ;;
      ret (obj_LayerNorm m)
  | class_LPLayerNorm =>
      m <- LPLayerNorm.__init__ normalized_shape eps affine device dtype ;;
      ret (obj_LPLayerNorm m)
  | class_RMSNorm =>
      m <- RMSNorm.__init__ normalized_shape eps affine dtype device ;;
      ret (obj_RMSNorm m)
  | class_LPRMSNorm =>
      m <- LPRMSNorm.__init__ normalized_shape eps affine dtype device ;;
      ret (obj_LPRMSNorm m)
  end.

(** [module(x)]: the method the object's class defines. *)
Definition forward `{Torch} (m : norm_module) (x : Tensor) : M Tensor :=
  match m with
  | obj_LayerNorm self => LayerNorm.forward self x
  | obj_LPLayerNorm self => LPLayerNorm.forward self x
  | obj_RMSNorm self => RMSNorm.forward self x
  | obj_LPRMSNorm self => LPRMSNorm.forward self x
  end.

(** ** Shapes and broadcasting *)

(** Number of elements of a shape. *)
Definition numel (s : list nat) : nat := foldr Nat.mul 1%nat s.

(** Broadcasting of two shapes, innermost dimension first. *)
Fixpoint broadcast_rev (a b : list nat) : option (list nat) :=
  match a, b with
  | [], _ => Some b
  | _, [] => Some a
  | x :: a', y :: b' =>
      match broadcast_rev a' b' with
      | Some r =>
          if Nat.eqb x y then Some (x :: r)
          else if Nat.eqb x 1 then Some (y :: r)
          else if Nat.eqb y 1 then Some (x :: r)
          else None
      | None => None
      end
  end.

(** [torch.broadcast_shapes(a, b)]: the shapes are aligned at their last
    dimension; two dimensions agree when they are equal or one of them
    is 1. *)
Definition broadcast_shapes (a b : list nat) : option (list nat) :=
  match broadcast_rev (rev a) (rev b) with
  | Some r => Some (rev r)
  | None => None
  end.

(** The shape [t.mean(-1, keepdim=True)] has: the last dimension becomes 1;
    a zero-dimensional tensor stays as it is. *)
Definition keepdim_last (s : list nat) : list nat :=
  match s with
  | [] => []
  | _ => removelast s ++ [1%nat]
  end.

(** The dtype of [a * b] for floating tensors ([torch.result_type]): the
    promoted dtype, except that a zero-dimensional tensor does not raise the
    dtype of a tensor with dimensions. *)
Definition promote_types (a b : dtype) : dtype :=
  match a, b with
  | float64, _ | _, float64 => float64
  | float32, _ | _, float32 => float32
  | float16, float16 => float16
  | bfloat16, bfloat16 => bfloat16
  | _, _ => float32
  end.

Definition result_type (sa : list nat) (da : dtype)
    (sb : list nat) (db : dtype) : dtype :=
  match sa, sb with
  | [], _ :: _ => db
  | _ :: _, [] => da
  | _, _ => promote_types da db
  end.

(** [k] consecutive blocks of [n] elements of a row-major buffer. *)
Fixpoint chunks {A : Type} (k n : nat) (l : list A) : list (list A) :=
  match k with
  | O => []
  | S k' => take n l :: chunks k' n (drop n l)
  end.

(** The buffer of a tensor of shape [s] (padded with leading ones to the
    length of [t]) expanded to the shape [t]. *)
Fixpoint expand {A : Type} (s t : list nat) (d : list A) : list A :=
  match s, t with
  | a :: s', b :: t' =>
      if Nat.eqb a b then
        concat (map (expand s' t') (chunks a (numel s') d))
      else
        concat (replicate b (expand s' t' d))
  | _, _ => d
  end.

Definition expand_to {A : Type} (s t : list nat) (d : list A) : list A :=
  expand (replicate (length t - length s) 1%nat ++ s) t d.

(** ** IEEE-754 arithmetic of the four dtypes *)

Definition prec_of (d : dtype) : Z :=
  match d with
  | float16 => 11 | bfloat16 => 8 | float32 => 24 | float64 => 53
  end.

Definition emax_of (d : dtype) : Z :=
  match d with
  | float16 => 16 | bfloat16 => 128 | float32 => 128 | float64 => 1024
  end.

(** Conversion to a dtype, rounding to nearest even. *)
Definition round_to (d : dtype) (x : spec_float) : spec_float :=
  match x with
  | S754_finite s m e =>
      binary_normalize (prec_of d) (emax_of d) (cond_Zopp s (Zpos m)) e s
  | _ => x
  end.

(** The integer [z] as a number of dtype [d]. *)
Definition of_Z (d : dtype) (z : Z) : spec_float :=
  binary_normalize (prec_of d) (emax_of d) z 0 false.

(** The type a kernel computes in: float32 for the 16-bit types. *)
Definition opmath (d : dtype) : dtype :=
  match d with
  | float64 => float64
  | _ => float32
  end.

Definition fadd (d : dtype) (a b : spec_float) : spec_float :=
  SFadd (prec_of d) (emax_of d) a b.
Definition fsub (d : dtype) (a b : spec_float) : spec_float :=
  SFsub (prec_of d) (emax_of d) a b.
Definition fmul (d : dtype) (a b : spec_float) : spec_float :=
  SFmul (prec_of d) (emax_of d) a b.
Definition fdiv (d : dtype) (a b : spec_float) : spec_float :=
  SFdiv (prec_of d) (emax_of d) a b.
Definition fsqrt (d : dtype) (a : spec_float) : spec_float :=
  SFsqrt (prec_of d) (emax_of d) a.

(** An operation on numbers of dtype [d]: the operands go to the compute
    type, the result comes back rounded to [d]. *)
Definition lift1 (d : dtype) (f : dtype -> spec_float -> spec_float)
    (a : spec_float) : spec_float :=
  round_to d (f (opmath d) (round_to (opmath d) a)).

Definition lift2 (d : dtype)
    (f : dtype -> spec_float -> spec_float -> spec_float)
    (a b : spec_float) : spec_float :=
  round_to d (f (opmath d) (round_to (opmath d) a) (round_to (opmath d) b)).

Definition frsqrt (d : dtype) (a : spec_float) : spec_float :=
  fdiv d (of_Z d 1) (fsqrt d a).

(** Sum from left to right, then division by the count. *)
Definition fmean (d : dtype) (l : list spec_float) : spec_float :=
  fdiv d (foldl (fadd d) (S754_zero false) l) (of_Z d (Z.of_nat (length l))).

(** [a ** n] by repeated multiplication; [a ** 2] is [a * a]. *)
Fixpoint fpow_nat (d : dtype) (a : spec_float) (n : nat) : spec_float :=
  match n with
  | O => of_Z d 1
  | 1%nat => a
  | S n' => fmul d (fpow_nat d a n') a
  end.

Definition fpow (n : Z) (d : dtype) (a : spec_float) : spec_float :=
  if Z.ltb n 0 then fdiv d (of_Z d 1) (fpow_nat d a (Z.to_nat (- n)))
  else fpow_nat d a (Z.to_nat n).

(** The rational a finite number stands for; infinities and NaN have
    none. *)
Definition SF2Q (x : spec_float) : option Q :=
  match x with
  | S754_zero _ => Some 0%Q
  | S754_finite s m e => Some (inject_Z (cond_Zopp s (Zpos m)) * 2 ^ e)%Q
  | _ => None
  end.

(** [torch.isclose(a, b, rtol, atol)] on one pair of numbers: finite numbers
    are close when [|a - b| <= atol + rtol * |b|]; an infinity is close only
    to itself, NaN to nothing. *)
Definition isclose (rtol atol : Q) (a b : spec_float) : bool :=
  match SF2Q a, SF2Q b with
  | Some p, Some q => Qle_bool (Qabs (p - q)) (atol + rtol * Qabs q)
  | _, _ => SFeqb a b
  end.

(** [torch.allclose] on two buffers. *)
Definition allclose (rtol atol : Q) (a b : list spec_float) : bool :=
  Nat.eqb (length a) (length b)
  && forallb (fun p => isclose rtol atol p.1 p.2) (zip a b).

(** ** A reference runtime

    Tensors are a dtype, a device type, a shape and a row-major buffer of
    IEEE-754 numbers.  The world is the set of device types autocast is
    enabled for, the two autocast dtypes and the pjrt mode.  Kernels compute
    in [opmath] and round once to the result dtype; reductions sum from left
    to right.  Under CUDA autocast, [pow], [rsqrt] and [layer_norm] are the
    operations of this file that torch runs in float32. *)
Module Ref.

Record tensor : Type := {
  dtype_of : dtype;
  device_type : string;
  shape : list nat;
  data : list spec_float
}.

Record world : Type := {
  autocast_on : gset string;
  autocast_gpu_dtype : dtype;
  autocast_cpu_dtype : dtype;
  (** the device types [torch.autocast] accepts: ['cuda'] and ['cpu'] in
      every version of torch, others (['xpu'], ['hpu'], ['xla'], ...) with
      the version and the build *)
  autocast_devices : gset string;
  pjrt : bool
}.

Definition set_autocast (dev : string) (b : bool) (w : world) : world :=
  {| autocast_on := if b then autocast_on w ∪ {[dev]}
                    else autocast_on w ∖ {[dev]};
     autocast_gpu_dtype := autocast_gpu_dtype w;
     autocast_cpu_dtype := autocast_cpu_dtype w;
     autocast_devices := autocast_devices w;
     pjrt := pjrt w |}.

Definition set_pjrt (b : bool) (w : world) : world :=
  {| autocast_on := autocast_on w;
     autocast_gpu_dtype := autocast_gpu_dtype w;
     autocast_cpu_dtype := autocast_cpu_dtype w;
     autocast_devices := autocast_devices w;
     pjrt := b |}.

(** [torch.is_autocast_enabled()] reports the CUDA flag. *)
Definition is_autocast_enabled (w : world) : bool :=
  bool_decide ("cuda" ∈ autocast_on w).

(** The constructor of [torch.autocast] raises [RuntimeError] ("User
    specified an unsupported autocast device_type") before anything is
    entered; [__enter__] remembers the flag of the device type and sets
    it. *)
Definition autocast_enter (enabled : bool) (dev : string) (w : world)
    : result (string * bool) * world :=
  if bool_decide (dev ∈ autocast_devices w) then
    (Ok (dev, bool_decide (dev ∈ autocast_on w)), set_autocast dev enabled w)
  else (Raise RuntimeError, w).

Definition autocast_exit (ctx : string * bool) (w : world) : world :=
  set_autocast ctx.1 ctx.2 w.

Definition with_data (t : tensor) (d : dtype) (l : list spec_float) : tensor :=
  {| dtype_of := d; device_type := device_type t; shape := shape t;
     data := l |}.

(** [t.to(dtype=d)] returns [t] itself when it already has the dtype. *)
Definition cast (t : tensor) (d : dtype) : tensor :=
  if dtype_eqb (dtype_of t) d then t
  else with_data t d (map (round_to d) (data t)).

(** What CUDA autocast does to the input of a float32-listed operation. *)
Definition autocast_fp32 (w : world) (t : tensor) : tensor :=
  if String.eqb (device_type t) "cuda" && is_autocast_enabled w then
    match dtype_of t with
    | float16 | bfloat16 => cast t float32
    | _ => t
    end
  else t.

Definition to (t : tensor) (d : dtype) (w : world) : result tensor * world :=
  (Ok (cast t d), w).

Definition pow (t : tensor) (n : Z) (w : world) : result tensor * world :=
  let t := autocast_fp32 w t in
  (Ok (with_data t (dtype_of t) (map (lift1 (dtype_of t) (fpow n)) (data t))),
   w).

Definition mean (t : tensor) (dim : Z) (keepdim : bool) (w : world)
    : result tensor * world :=
  let R := Z.of_nat (Nat.max (length (shape t)) 1) in
  if Z.ltb dim (- R) || Z.leb R dim then (Raise IndexError, w)
  else
    let k := Z.to_nat (if Z.ltb dim 0 then dim + R else dim) in
    let pre := take k (shape t) in
    let n := nth k (shape t) 1%nat in
    let post := drop (S k) (shape t) in
    let inner := numel post in
    let d := dtype_of t in
    let column (blk : list spec_float) (i : nat) :=
      map (fun j => nth (j * inner + i)%nat blk (S754_zero false)) (seq 0 n) in
    let reduce (blk : list spec_float) :=
      map (fun i => round_to d
                      (fmean (opmath d)
                             (map (round_to (opmath d)) (column blk i))))
          (seq 0 inner) in
    (Ok {| dtype_of := d; device_type := device_type t;
           shape := match shape t with
                    | [] => []
                    | _ => pre ++ (if keepdim then [1%nat] else []) ++ post
                    end;
           data := concat (map reduce
                             (chunks (numel pre) (n * inner) (data t))) |},
     w).

Definition add_scalar (t : tensor) (s : pyfloat) (w : world)
    : result tensor * world :=
  (Ok (with_data t (dtype_of t)
         (map (fun a => lift2 (dtype_of t) fadd a s) (data t))),
   w).

Definition rsqrt (t : tensor) (w : world) : result tensor * world :=
  let t := autocast_fp32 w t in
  (Ok (with_data t (dtype_of t) (map (lift1 (dtype_of t) frsqrt) (data t))),
   w).

(** The device of [a * b]: both on one device, or one of them a
    zero-dimensional CPU tensor. *)
Definition common_device (a b : tensor) : option string :=
  if String.eqb (device_type a) (device_type b) then Some (device_type a)
  else if String.eqb (device_type a) "cpu" && Nat.eqb (length (shape a)) 0
       then Some (device_type b)
  else if String.eqb (device_type b) "cpu" && Nat.eqb (length (shape b)) 0
       then Some (device_type a)
  else None.

Definition mul (a b : tensor) (w : world) : result tensor * world :=
  match common_device a b, broadcast_shapes (shape a) (shape b) with
  | Some dev, Some s =>
      let d := result_type (shape a) (dtype_of a) (shape b) (dtype_of b) in
      (Ok {| dtype_of := d; device_type := dev; shape := s;
             data := zip_with (lift2 d fmul)
                       (expand_to (shape a) s (data a))
                       (expand_to (shape b) s (data b)) |},
       w)
  | _, _ => (Raise RuntimeError, w)
  end.

(** A weight or bias of [layer_norm] has the normalized shape and sits on
    the device of the input. *)
Definition affine_ok (ns : list nat) (x : tensor) (p : option tensor) : bool :=
  match p with
  | None => true
  | Some t =>
      bool_decide (shape t = ns) && String.eqb (device_type t) (device_type x)
  end.

(** One normalized group, in the compute type [o]: centred, scaled by the
    reciprocal standard deviation, then by the weight, then shifted by the
    bias. *)
Definition normalize_row (o : dtype) (eps : pyfloat)
    (weight bias : option (list spec_float)) (row : list spec_float)
    : list spec_float :=
  let xs := map (round_to o) row in
  let mu := fmean o xs in
  let centred := map (fun v => fsub o v mu) xs in
  let var := fmean o (map (fun c => fmul o c c) centred) in
  let rstd := frsqrt o (fadd o var (round_to o eps)) in
  let y := map (fun c => fmul o c rstd) centred in
  let y := match weight with
           | Some g => zip_with (fmul o) y g
           | None => y
           end in
  match bias with
  | Some b => zip_with (fadd o) y b
  | None => y
  end.

(** [layer_norm] wants a normalized shape of at least one dimension, which
    the input's shape ends with and the weight and the bias have; it raises
    [RuntimeError] otherwise. *)
Definition layer_norm (x : tensor) (ns : list nat)
    (weight bias : option tensor) (eps : pyfloat) (w : world)
    : result tensor * world :=
  let x := autocast_fp32 w x in
  let weight := option_map (autocast_fp32 w) weight in
  let bias := option_map (autocast_fp32 w) bias in
  if negb (Nat.eqb (length ns) 0)
     && bool_decide (ns `suffix_of` shape x)
     && affine_ok ns x weight && affine_ok ns x bias then
    let d := dtype_of x in
    let o := opmath d in
    let buffer (p : option tensor) :=
      option_map (fun t => map (round_to o) (data t)) p in
    let groups :=
      chunks (numel (take (length (shape x) - length ns) (shape x)))
             (numel ns) (data x) in
    (Ok (with_data x d
           (map (round_to d)
              (concat (map (normalize_row o eps (buffer weight) (buffer bias))
                           groups)))),
     w)
  else (Raise RuntimeError, w).

(** [torch.full(shape, v, dtype=, device=)] for an integer [v]; the default
    dtype is float32 and the default device the CPU. *)
Definition full (sh : shape_arg) (v : Z) (dt : option dtype)
    (dev : option string) : tensor :=
  let d := default float32 dt in
  {| dtype_of := d; device_type := default "cpu" dev;
     shape := shape_of_arg sh;
     data := replicate (numel (shape_of_arg sh)) (of_Z d v) |}.

Definition ones (sh : shape_arg) (dt : option dtype) (dev : option string)
    (w : world) : result tensor * world :=
  (Ok (full sh 1 dt dev), w).

Definition zeros (sh : shape_arg) (dt : option dtype) (dev : option string)
    (w : world) : result tensor * world :=
  (Ok (full sh 0 dt dev), w).

(** A world with autocast off, torch's default autocast dtypes and the
    given pjrt mode. *)
Definition plain (pjrt : bool) : world :=
  {| autocast_on := ∅; autocast_gpu_dtype := float16;
     autocast_cpu_dtype := bfloat16; autocast_devices := {["cuda"; "cpu"]};
     pjrt := pjrt |}.

End Ref.

#[global] Instance ref_torch : Torch := {|
  world := Ref.world;
  Tensor := Ref.tensor;
  autocast_ctx := string * bool;
  t_dtype := Ref.dtype_of;
  t_device_type := Ref.device_type;
  t_shape := Ref.shape;
  is_autocast_enabled := Ref.is_autocast_enabled;
  get_autocast_gpu_dtype := Ref.autocast_gpu_dtype;
  get_autocast_cpu_dtype := Ref.autocast_cpu_dtype;
  using_pjrt := Ref.pjrt;
  autocast_enter := Ref.autocast_enter;
  autocast_exit := Ref.autocast_exit;
  to := Ref.to;
  pow := Ref.pow;
  mean := Ref.mean;
  add_scalar := Ref.add_scalar;
  rsqrt := Ref.rsqrt;
  mul := Ref.mul;
  layer_norm := Ref.layer_norm;
  ones := Ref.ones;
  zeros := Ref.zeros
|}.

(** ** What the properties below ask of a runtime *)

(** Dtypes: [to] gives the dtype it is asked for; the operations [rms_norm]
    uses keep a float32 tensor float32; a product has the promoted dtype. *)
Class DtypeLaws `{Torch} : Prop := {
  to_dtype : forall t d w t' w',
    to t d w = (Ok t', w') -> t_dtype t' = d;
  pow_float32 : forall t n w t' w',
    pow t n w = (Ok t', w') -> t_dtype t = float32 -> t_dtype t' = float32;
  mean_float32 : forall t dim k w t' w',
    mean t dim k w = (Ok t', w') ->
    t_dtype t = float32 -> t_dtype t' = float32;
  add_scalar_float32 : forall t s w t' w',
    add_scalar t s w = (Ok t', w') ->
    t_dtype t = float32 -> t_dtype t' = float32;
  rsqrt_float32 : forall t w t' w',
    rsqrt t w = (Ok t', w') -> t_dtype t = float32 -> t_dtype t' = float32;
  mul_dtype : forall a b w c w',
    mul a b w = (Ok c, w') ->
    t_dtype c = result_type (t_shape a) (t_dtype a) (t_shape b) (t_dtype b)
}.

(** Shapes: elementwise operations keep the shape, the mean over the last
    axis with [keepdim] makes that axis 1, a product has the broadcast
    shape, [layer_norm] returns the shape of its input, [ones] and [zeros]
    the shape they are asked for. *)
Class ShapeLaws `{Torch} : Prop := {
  to_shape : forall t d w t' w',
    to t d w = (Ok t', w') -> t_shape t' = t_shape t;
  pow_shape : forall t n w t' w',
    pow t n w = (Ok t', w') -> t_shape t' = t_shape t;
  mean_shape : forall t w t' w',
    mean t (-1) true w = (Ok t', w') -> t_shape t' = keepdim_last (t_shape t);
  add_scalar_shape : forall t s w t' w',
    add_scalar t s w = (Ok t', w') -> t_shape t' = t_shape t;
  rsqrt_shape : forall t w t' w',
    rsqrt t w = (Ok t', w') -> t_shape t' = t_shape t;
  mul_shape : forall a b w c w',
    mul a b w = (Ok c, w') ->
    broadcast_shapes (t_shape a) (t_shape b) = Some (t_shape c);
  layer_norm_shape : forall x ns wt bs eps w y w',
    layer_norm x ns wt bs eps w = (Ok y, w') -> t_shape y = t_shape x;
  ones_shape : forall sh dt dev w t w',
    ones sh dt dev w = (Ok t, w') -> t_shape t = shape_of_arg sh;
  zeros_shape : forall sh dt dev w t w',
    zeros sh dt dev w = (Ok t, w') -> t_shape t = shape_of_arg sh
}.

(** ** The formula of the specification, section 4.3

    [x * rsqrt(mean(x^2, last_axis, keepdim=True) + eps)], and the same
    multiplied elementwise by the weight when there is one. *)
Definition unscaled_formula `{Torch} (x : Tensor) (eps : pyfloat) : M Tensor :=
  square <- pow x 2 ;;
  mean_square <- mean square (-1) true ;;
  shifted <- add_scalar mean_square eps ;;
  inv_rms <- rsqrt shifted ;;
  mul x inv_rms.

Definition rms_norm_spec `{Torch} (x : Tensor) (weight : option Tensor)
    (eps : pyfloat) : M Tensor :=
  match weight with
  | None => unscaled_formula x eps
  | Some wt => normalized <- unscaled_formula x eps ;; mul normalized wt
  end.

(** The formula on one row of numbers of dtype [d], element by element:
    every [v] of the row becomes [v * rsqrt(mean of the squares + eps)]. *)
Definition row_mean (d : dtype) (row : list spec_float) : spec_float :=
  round_to d (fmean (opmath d) (map (round_to (opmath d)) row)).

Definition rms_row (d : dtype) (eps : pyfloat) (row : list spec_float)
    : list spec_float :=
  let mean_square := row_mean d (map (lift1 d (fpow 2)) row) in
  let inv_rms := lift1 d frsqrt (lift2 d fadd mean_square eps) in
  map (fun v => lift2 d fmul v inv_rms) row.

(** ** Concrete inputs for the reference runtime *)
Module Examples.

(** The default [eps = 1e-5] as Python reads it: the binary64 number
    nearest to 1/100000. *)
Definition eps_default : pyfloat :=
  S754_finite false 5902958103587057 (-69).

(** [torch.full((2, 4), 2.0, dtype=d)] *)
Definition x_2x4 (d : dtype) : Ref.tensor :=
  Ref.full (ShapeList [2; 4]%nat) 2 (Some d) None.

(** A tensor of shape (1, 3) holding 1, 2, 3 on the given device. *)
Definition x_123 (d : dtype) (dev : string) : Ref.tensor :=
  {| Ref.dtype_of := d; Ref.device_type := dev; Ref.shape := [1; 3]%nat;
     Ref.data := [of_Z d 1; of_Z d 2; of_Z d 3] |}.

(** A tensor on a device that is neither CUDA nor the CPU, and one on
    CUDA. *)
Definition x_xla : Ref.tensor := x_123 float32 "xla".
Definition x_cuda : Ref.tensor := x_123 float32 "cuda".

(** A tensor on the ['meta'] device, which the helper has no case for and
    [torch.autocast] no support for. *)
Definition x_meta : Ref.tensor := x_123 float32 "meta".

(** [torch.full((1, 1), 300.0, dtype=torch.float16)] *)
Definition x_300_half : Ref.tensor :=
  Ref.full (ShapeList [1; 1]%nat) 300 (Some float16) None.

(** A world with CUDA autocast on. *)
Definition autocast_world : Ref.world :=
  Ref.set_autocast "cuda" true (Ref.plain false).

(** [RMSNorm(normalized_shape, eps=1e-5, weight=weight, dtype=dtype)] and
    [LayerNorm(normalized_shape, eps=1e-5, elementwise_affine=affine,
    dtype=dtype)], built in a world they do not depend on. *)
Definition rms_module (n : nat) (weight : bool) (dt : option dtype)
    : RMSNorm.t :=
  match RMSNorm.__init__ (ShapeInt n) eps_default weight dt None
          (Ref.plain false) with
  | (Ok m, _) => m
  | (Raise _, _) => {| RMSNorm.eps := eps_default; RMSNorm.weight := None |}
  end.

Definition ln_module (n : nat) (affine : bool) (dt : option dtype)
    : LayerNorm.t :=
  match LayerNorm.__init__ (ShapeInt n) eps_default affine None dt
          (Ref.plain false) with
  | (Ok m, _) => m
  | (Raise _, _) =>
      {| LayerNorm.normalized_shape := [n]; LayerNorm.eps := eps_default;
         LayerNorm.weight := None; LayerNorm.bias := None |}
  end.

(** [LayerNorm(3, eps=1e-5, device='cuda')] *)
Definition ln_module_cuda : LayerNorm.t :=
  match LayerNorm.__init__ (ShapeInt 3) eps_default true (Some "cuda") None
          (Ref.plain false) with
  | (Ok m, _) => m
  | (Raise _, _) =>
      {| LayerNorm.normalized_shape := [3%nat]; LayerNorm.eps := eps_default;
         LayerNorm.weight := None; LayerNorm.bias := None |}
  end.

(** [LayerNorm(3, eps=1e-5, device='meta')] *)
Definition ln_module_meta : LayerNorm.t :=
  match LayerNorm.__init__ (ShapeInt 3) eps_default true (Some "meta") None
          (Ref.plain false) with
  | (Ok m, _) => m
  | (Raise _, _) =>
      {| LayerNorm.normalized_shape := [3%nat]; LayerNorm.eps := eps_default;
         LayerNorm.weight := None; LayerNorm.bias := None |}
  end.

End Examples.

(** ** How the reference runtime depends on its world

    Two worlds agree when [torch.is_autocast_enabled()] is the same in both;
    a computation respects that when it returns the same in two such worlds
    and leaves them agreeing. *)
Definition agree (w1 w2 : Ref.world) : Prop :=
  Ref.is_autocast_enabled w1 = Ref.is_autocast_enabled w2.

Definition respects {A : Type} (m : Ref.world -> result A * Ref.world)
    : Prop :=
  forall w1 w2, agree w1 w2 ->
    (m w1).1 = (m w2).1 /\ agree (m w1).2 (m w2).2.

(** A weight or bias fits an input when it has the normalized shape and is
    on the device of the input. *)
Definition fits (ns : list nat) (x : Ref.tensor) (p : option Ref.tensor)
    : Prop :=
  forall t, p = Some t ->
    Ref.shape t = ns /\ Ref.device_type t = Ref.device_type x.

(** The helper does not raise: autocast is off, or the device is one of the
    two it knows. *)
Definition castable (w : Ref.world) (dev : string) : Prop :=
  Ref.is_autocast_enabled w = false \/ dev = "cuda" \/ dev = "cpu".

(** ** What more is asked of a runtime, and said of the reference one *)

(** A computation that leaves the world as it found it, whether it returns
    or raises. *)
Definition keeps_world `{Torch} {A : Type} (m : M A) : Prop :=
  forall w, (m w).2 = w.

(** State: the primitives this file calls leave the world as it is,
    leaving [torch.autocast] undoes entering it, and a [torch.autocast] that
    cannot be built changes nothing. *)
Class StateLaws `{Torch} : Prop := {
  to_world : forall t d, keeps_world (to t d);
  pow_world : forall t n, keeps_world (pow t n);
  mean_world : forall t dim k, keeps_world (mean t dim k);
  add_scalar_world : forall t s, keeps_world (add_scalar t s);
  rsqrt_world : forall t, keeps_world (rsqrt t);
  mul_world : forall a b, keeps_world (mul a b);
  layer_norm_world : forall x ns wt bs eps,
    keeps_world (layer_norm x ns wt bs eps);
  autocast_restore : forall enabled dev w ctx w1,
    autocast_enter enabled dev w = (Ok ctx, w1) -> autocast_exit ctx w1 = w;
  autocast_refused : forall enabled dev w e w1,
    autocast_enter enabled dev w = (Raise e, w1) -> w1 = w
}.

(** [-t], [torch.neg]: the sign of every element flipped. *)
Definition neg (t : Ref.tensor) : Ref.tensor :=
  Ref.with_data t (Ref.dtype_of t) (map SFopp (Ref.data t)).

(** A result with [f] applied to the value it returns, if it returns. *)
Definition map_result {A B W : Type} (f : A -> B) (r : result A * W)
    : result B * W :=
  match r with
  | (Ok a, w) => (Ok (f a), w)
  | (Raise e, w) => (Raise e, w)
  end.

(** ** Numbers of a dtype and well-formed tensors *)

(** [v] is a number of dtype [d]. *)
Definition valid (d : dtype) (v : spec_float) : Prop :=
  valid_binary (prec_of d) (emax_of d) v = true.

(** Every number of [d] is a number of [q]. *)
Definition includes (d q : dtype) : Prop :=
  prec_of d <= prec_of q /\ emax_of d <= emax_of q.

(** The buffer of a tensor has as many numbers as its shape says. *)
Definition well_formed (t : Ref.tensor) : Prop :=
  length (Ref.data t) = numel (Ref.shape t).

(** A tensor of ones of any dtype. *)
Definition all_ones (t : Ref.tensor) : Prop :=
  exists d, Ref.data t = replicate (numel (Ref.shape t)) (of_Z d 1).

(** ** The two halves of rounding *)

(** A mantissa from which no bit has been shifted out. *)
Definition shr_exact (m : Z) : shr_record :=
  {| shr_m := m; shr_r := false; shr_s := false |}.

(** The first half of [binary_round]: the mantissa shifted so that its
    exponent is the one the format gives a number of this size. *)
Definition first_shift (prec emax : Z) (m : positive) (e : Z) : shr_record :=
  let t := SpecFloat.fexp prec emax (Zpos (digits2_pos m) + e) in
  Nat.iter (Z.to_nat (t - Z.min e t)) shr_1
    (shr_exact (Zpos (Nat.iter (Z.to_nat (e - t)) xO m))).

(** The second half: rounding to nearest even, one more shift when the
    rounding carried, and the overflow test. *)
Definition round_finish (prec emax : Z) (s : bool) (mrs : shr_record) (t : Z)
    : spec_float :=
  let '(mrs2, e2) :=
    shr_fexp prec emax
      (round_nearest_even (shr_m mrs) (loc_of_shr_record mrs)) t loc_Exact in
  match shr_m mrs2 with
  | Z0 => S754_zero s
  | Zpos m => if Z.leb e2 (emax - prec) then S754_finite s m e2
              else S754_infinity s
  | Zneg _ => S754_nan
  end.

(** ** Zeros *)

(** A zero of either sign. *)
Definition is_zero (v : spec_float) : bool :=
  match v with
  | S754_zero _ => true
  | _ => false
  end.

(** ** The classes and devices the helper is called for *)

(** The two classes of this file that call the helper. *)
Definition low_precision (cls : norm_class) : bool :=
  match cls with
  | class_LPLayerNorm | class_LPRMSNorm => true
  | _ => false
  end.

(** The device types the helper has a dtype for. *)
Definition autocast_device (dev : string) : bool :=
  String.eqb dev "cuda" || String.eqb dev "cpu".

(** * Properties *)

(** ** The monad *)

Lemma bind_ret_r `{Torch} {A : Type} (m : M A) (w : world) :
  bind m ret w = m w.
Proof.
  unfold bind, ret. destruct (m w) as [[a | e] w']; reflexivity.
Qed.

Lemma bind_assoc `{Torch} {A B C : Type}
    (m : M A) (k : A -> M B) (h : B -> M C) (w : world) :
  bind (bind m k) h w = bind m (fun a => bind (k a) h) w.
Proof.
  unfold bind. destruct (m w) as [[a | e] w']; reflexivity.
Qed.

Lemma bind_Ok `{Torch} {A B : Type} (m : M A) (k : A -> M B)
    (w w' : world) (a : A) :
  m w = (Ok a, w') -> bind m k w = k a w'.
Proof. intros E. unfold bind. rewrite E. reflexivity. Qed.

Lemma bind_Raise `{Torch} {A B : Type} (m : M A) (k : A -> M B)
    (w w' : world) (e : exn) :
  m w = (Raise e, w') -> bind m k w = (Raise e, w').
Proof. intros E. unfold bind. rewrite E. reflexivity. Qed.

Lemma gets_bind `{Torch} {A B : Type} (f : world -> A) (k : A -> M B)
    (w : world) :
  bind (gets f) k w = k (f w) w.
Proof. reflexivity. Qed.

(** A run of [bind] that returns went through a run of its first part that
    returned. *)
Lemma bind_inv `{Torch} {A B : Type} (m : M A) (k : A -> M B)
    (w w' : world) (b : B) :
  bind m k w = (Ok b, w') ->
  exists a w1, m w = (Ok a, w1) /\ k a w1 = (Ok b, w').
Proof.
  unfold bind. destruct (m w) as [[a | e] w1]; intros E.
  - exists a, w1. split; [reflexivity | exact E].
  - discriminate E.
Qed.

Lemma with_autocast_inv `{Torch} {A : Type} (enabled : bool) (dev : string)
    (body : M A) (w w' : world) (a : A) :
  with_autocast enabled dev body w = (Ok a, w') ->
  exists ctx w1 w2,
    autocast_enter enabled dev w = (Ok ctx, w1) /\ body w1 = (Ok a, w2).
Proof.
  unfold with_autocast.
  destruct (autocast_enter enabled dev w) as [[ctx | e] w1]; [| discriminate].
  destruct (body w1) as [r w2] eqn:Eb. intros [= -> _].
  exists ctx, w1, w2. split; [reflexivity | exact Eb].
Qed.

(** ** The formula of rms_norm *)

Lemma rms_norm_None `{Torch} (x : Tensor) (eps : pyfloat) (w : world) :
  rms_norm x None eps w = unscaled_formula x eps w.
Proof.
  unfold rms_norm, unscaled_formula, bind.
  destruct (pow x 2 w) as [[x2 | e] w1]; [| reflexivity].
  destruct (mean x2 (-1) true w1) as [[ms | e] w2]; [| reflexivity].
  destruct (add_scalar ms eps w2) as [[s | e] w3]; [| reflexivity].
  destruct (rsqrt s w3) as [[r | e] w4]; [| reflexivity].
  destruct (mul x r w4) as [[o | e] w5]; reflexivity.
Qed.

Lemma rms_norm_Some `{Torch} (x wt : Tensor) (eps : pyfloat) (w : world) :
  rms_norm x (Some wt) eps w
  = (normalized <- unscaled_formula x eps ;; mul normalized wt) w.
Proof.
  unfold rms_norm, unscaled_formula, bind.
  destruct (pow x 2 w) as [[x2 | e] w1]; [| reflexivity].
  destruct (mean x2 (-1) true w1) as [[ms | e] w2]; [| reflexivity].
  destruct (add_scalar ms eps w2) as [[s | e] w3]; [| reflexivity].
  destruct (rsqrt s w3) as [[r | e] w4]; [| reflexivity].
  destruct (mul x r w4) as [[o | e] w5]; reflexivity.
Qed.

(** ** The precision-casting helper *)

Lemma cast_autocast_off `{Torch} (t : Tensor) (w : world) :
  is_autocast_enabled w = false ->
  _cast_if_autocast_enabled t w = (Ok t, w).
Proof.
  intros Hoff. unfold _cast_if_autocast_enabled, bind, gets, ret.
  rewrite Hoff. reflexivity.
Qed.

Lemma cast_unsupported_device `{Torch} (t : Tensor) (w : world) :
  is_autocast_enabled w = true ->
  t_device_type t <> "cuda" -> t_device_type t <> "cpu" ->
  _cast_if_autocast_enabled t w = (Raise NotImplementedError, w).
Proof.
  intros Hon Hcuda Hcpu.
  unfold _cast_if_autocast_enabled, bind, gets, raise. rewrite Hon.
  apply String.eqb_neq in Hcuda, Hcpu. rewrite Hcuda, Hcpu. reflexivity.
Qed.

(** C3: with autocast off the helper returns its argument itself and leaves
    the world as it was (no primitive is called, so nothing is copied); with
    autocast on it returns [t.to(dtype)] for the autocast GPU dtype on a
    ['cuda'] tensor and for the autocast CPU dtype on a ['cpu'] tensor; on
    any other device type it raises [NotImplementedError] and returns no
    value. *)
Theorem cast_if_autocast_enabled_cases `{Torch} (t : Tensor) (w : world) :
  (is_autocast_enabled w = false ->
   _cast_if_autocast_enabled t w = (Ok t, w))
  /\ (is_autocast_enabled w = true -> t_device_type t = "cuda" ->
      _cast_if_autocast_enabled t w = to t (get_autocast_gpu_dtype w) w)
  /\ (is_autocast_enabled w = true -> t_device_type t = "cpu" ->
      _cast_if_autocast_enabled t w = to t (get_autocast_cpu_dtype w) w)
  /\ (is_autocast_enabled w = true ->
      t_device_type t <> "cuda" -> t_device_type t <> "cpu" ->
      _cast_if_autocast_enabled t w = (Raise NotImplementedError, w)
      /\ forall (t' : Tensor) (w' : world),
           _cast_if_autocast_enabled t w <> (Ok t', w')).
Proof.
  repeat split.
  - apply cast_autocast_off.
  - intros Hon Hdev.
    unfold _cast_if_autocast_enabled, bind, gets. rewrite Hon, Hdev.
    reflexivity.
  - intros Hon Hdev.
    unfold _cast_if_autocast_enabled, bind, gets. rewrite Hon, Hdev.
    reflexivity.
  - auto using cast_unsupported_device.
  - intros t' w'. rewrite cast_unsupported_device by assumption. discriminate.
Qed.

(** C8, as the code has it: the unsupported-device failure needs autocast to
    be enabled.  A tensor whose device type is neither ['cuda'] nor ['cpu']
    makes the helper raise [NotImplementedError] in every world where
    autocast is enabled, with the world left as it was; where autocast is
    disabled the same tensor is returned and nothing is raised. *)
Theorem unsupported_device_needs_autocast `{Torch} (t : Tensor) (w : world) :
  t_device_type t <> "cuda" -> t_device_type t <> "cpu" ->
  (is_autocast_enabled w = true ->
   _cast_if_autocast_enabled t w = (Raise NotImplementedError, w))
  /\ (is_autocast_enabled w = false ->
      _cast_if_autocast_enabled t w = (Ok t, w)).
Proof.
  intros Hcuda Hcpu. split.
  - intros Hon. apply cast_unsupported_device; assumption.
  - apply cast_autocast_off.
Qed.

(** ** LPLayerNorm.forward *)

(** C4, as the code has it: outside pjrt mode, [LPLayerNorm.forward] runs
    the helper on [x], then on the weight unless it is [None], then on the
    bias unless it is [None], each on its own, and what [None] was stays
    [None]; a helper that raises ends the call there.  It then builds
    [torch.autocast(enabled=False, device_type=x.device.type)], which raises
    for a device type autocast has no support for, and then [layer_norm] is
    not called.  Otherwise it calls [layer_norm] inside the context on the
    three results with the stored normalized shape and eps, leaves the
    context, and returns what [layer_norm] returned (or raised). *)
Theorem LPLayerNorm_forward_default `{Torch}
    (self : LayerNorm.t) (x : Tensor) (w : world) :
  using_pjrt w = false ->
  LPLayerNorm.forward self x w =
    match _cast_if_autocast_enabled x w with
    | (Raise e, w1) => (Raise e, w1)
    | (Ok downcast_x, w1) =>
        match
          match LayerNorm.weight self with
          | None => (Ok None, w1)
          | Some weight =>
              match _cast_if_autocast_enabled weight w1 with
              | (Ok downcast, w2) => (Ok (Some downcast), w2)
              | (Raise e, w2) => (Raise e, w2)
              end
          end
        with
        | (Raise e, w2) => (Raise e, w2)
        | (Ok downcast_weight, w2) =>
            match
              match LayerNorm.bias self with
              | None => (Ok None, w2)
              | Some bias =>
                  match _cast_if_autocast_enabled bias w2 with
                  | (Ok downcast, w3) => (Ok (Some downcast), w3)
                  | (Raise e, w3) => (Raise e, w3)
                  end
              end
            with
            | (Raise e, w3) => (Raise e, w3)
            | (Ok downcast_bias, w3) =>
                match autocast_enter false (t_device_type x) w3 with
                | (Raise e, w4) => (Raise e, w4)
                | (Ok ctx, w4) =>
                    let called :=
                      layer_norm downcast_x (LayerNorm.normalized_shape self)
                        downcast_weight downcast_bias (LayerNorm.eps self)
                        w4 in
                    (called.1, autocast_exit ctx called.2)
                end
            end
        end
    end.
Proof.
  intros Hpjrt. unfold LPLayerNorm.forward, bind, gets. rewrite Hpjrt.
  destruct (_cast_if_autocast_enabled x w) as [[cx | e] w1]; [| reflexivity].
  unfold if_not_None, bind, ret.
  destruct (LayerNorm.weight self) as [wt |];
    [destruct (_cast_if_autocast_enabled wt w1) as [[cw | e] w2];
       [| reflexivity] |];
    (destruct (LayerNorm.bias self) as [bs |];
       [destruct (_cast_if_autocast_enabled bs _) as [[cb | e] w3];
          [| reflexivity] |]);
    unfold with_autocast;
    (destruct (autocast_enter false (t_device_type x) _) as [[ctx | e] w4];
       [| reflexivity]);
    match goal with
    | |- context [layer_norm ?a ?b ?c ?d ?e ?f] =>
        destruct (layer_norm a b c d e f)
    end; reflexivity.
Qed.

(** ** RMSNorm.forward and LPRMSNorm.forward: dtypes *)

(** C2: whenever [RMSNorm.forward] or [LPRMSNorm.forward] returns, on the
    pjrt path or on the default path, the tensor it returns has the dtype of
    [x]: the last thing either does is [.to(dtype=x.dtype)]. *)
Theorem forward_keeps_dtype `{Torch}
    (Hto : forall t d w t' w', to t d w = (Ok t', w') -> t_dtype t' = d)
    (self : RMSNorm.t) (x : Tensor) (w : world) :
  (forall y w', RMSNorm.forward self x w = (Ok y, w') ->
                t_dtype y = t_dtype x)
  /\ (forall y w', LPRMSNorm.forward self x w = (Ok y, w') ->
                   t_dtype y = t_dtype x).
Proof.
  split; intros y w'.
  - unfold RMSNorm.forward. rewrite gets_bind.
    destruct (using_pjrt w); intros E.
    + apply bind_inv in E as (r & w1 & _ & E). eauto.
    + apply bind_inv in E as (xf & w1 & _ & E).
      apply bind_inv in E as (r & w2 & _ & E). eauto.
  - unfold LPRMSNorm.forward. rewrite gets_bind.
    destruct (using_pjrt w); intros E.
    + apply bind_inv in E as (r & w1 & _ & E). eauto.
    + apply bind_inv in E as (cx & w1 & _ & E).
      apply bind_inv in E as (cw & w2 & _ & E).
      apply with_autocast_inv in E as (ctx & w3 & w3' & _ & E).
      apply bind_inv in E as (r & w4 & _ & E). eauto.
Qed.

(** On a float32 input every tensor the unscaled formula produces is
    float32. *)
Lemma unscaled_float32 `{Torch} `{!DtypeLaws} (x : Tensor) (eps : pyfloat) :
  t_dtype x = float32 ->
  forall x2 w0 w1, pow x 2 w0 = (Ok x2, w1) ->
  forall ms w2, mean x2 (-1) true w1 = (Ok ms, w2) ->
  forall s w3, add_scalar ms eps w2 = (Ok s, w3) ->
  forall r w4, rsqrt s w3 = (Ok r, w4) ->
  forall o w5, mul x r w4 = (Ok o, w5) ->
  t_dtype x2 = float32 /\ t_dtype ms = float32 /\ t_dtype s = float32
  /\ t_dtype r = float32 /\ t_dtype o = float32.
Proof.
  intros Hx x2 w0 w1 E1 ms w2 E2 s w3 E3 r w4 E4 o w5 E5.
  pose proof (pow_float32 _ _ _ _ _ E1 Hx) as H1.
  pose proof (mean_float32 _ _ _ _ _ _ E2 H1) as H2.
  pose proof (add_scalar_float32 _ _ _ _ _ E3 H2) as H3.
  pose proof (rsqrt_float32 _ _ _ _ E4 H3) as H4.
  repeat split; try assumption.
  rewrite (mul_dtype _ _ _ _ _ E5), Hx, H4.
  destruct (t_shape x), (t_shape r); reflexivity.
Qed.

Lemma unscaled_formula_float32 `{Torch} `{!DtypeLaws}
    (x : Tensor) (eps : pyfloat) (w w' : world) (o : Tensor) :
  t_dtype x = float32 ->
  unscaled_formula x eps w = (Ok o, w') -> t_dtype o = float32.
Proof.
  intros Hx E. unfold unscaled_formula in E.
  apply bind_inv in E as (x2 & w1 & E1 & E).
  apply bind_inv in E as (ms & w2 & E2 & E).
  apply bind_inv in E as (s & w3 & E3 & E).
  apply bind_inv in E as (r & w4 & E4 & E5).
  eapply unscaled_float32; eassumption.
Qed.

(** [torch.result_type] of a float32 tensor and a second floating tensor,
    case by case. *)
Lemma result_type_float32_cases (so sw : list nat) (d r : dtype) :
  r = result_type so float32 sw d ->
  (d <> float64 -> so <> [] -> sw <> [] -> r = float32)
  /\ (d = float64 -> (so = [] <-> sw = []) -> r = float64)
  /\ (so <> [] -> sw = [] -> r = float32)
  /\ (so = [] -> sw <> [] -> r = d)
  /\ (d <> float64 -> so = [] -> sw = [] -> r = float32).
Proof.
  intros ->.
  destruct so, sw, d; simpl; repeat split; try intros ->; intros;
    try reflexivity; try congruence;
    match goal with
    | H : _ <-> _ |- _ => destruct H as [H1 H2]
    end;
    try (specialize (H1 eq_refl); discriminate H1);
    try (specialize (H2 eq_refl); discriminate H2).
Qed.

Lemma RMSNorm_forward_unfold `{Torch}
    (self : RMSNorm.t) (x : Tensor) (w : world) :
  using_pjrt w = false ->
  RMSNorm.forward self x w =
    (xf <- to x float32 ;;
     y <- rms_norm xf (RMSNorm.weight self) (RMSNorm.eps self) ;;
     to y (t_dtype x)) w.
Proof.
  intros Hpjrt. unfold RMSNorm.forward, float.
  rewrite gets_bind, Hpjrt. reflexivity.
Qed.


(** C10, as the code has it: on the default path of [RMSNorm.forward] only
    [x] goes through [.to(float32)].  The stored weight is handed to
    [rms_norm] as it is, and there it is the second operand of the last
    [mul], whose first operand is the float32 normalized tensor: no
    conversion of the weight is called, and the dtype of that product is
    what [torch.result_type] gives for the two, which is not always
    float32.  When both have dimensions it is float32 for a float16,
    bfloat16 or float32 weight and float64 for a float64 weight, and the
    same holds when both are zero-dimensional; when only the weight is
    zero-dimensional it is float32; when only the normalized tensor is
    zero-dimensional it is the dtype of the weight. *)
Theorem RMSNorm_default_weight_as_stored `{Torch} `{!DtypeLaws}
    (self : RMSNorm.t) (x : Tensor) (w : world) :
  using_pjrt w = false ->
  forall xf w0, to x float32 w = (Ok xf, w0) ->
    RMSNorm.forward self x w =
      (y <- rms_norm xf (RMSNorm.weight self) (RMSNorm.eps self) ;;
       to y (t_dtype x)) w0
    /\ forall wt, RMSNorm.weight self = Some wt ->
       forall o w1, unscaled_formula xf (RMSNorm.eps self) w0 = (Ok o, w1) ->
         rms_norm xf (RMSNorm.weight self) (RMSNorm.eps self) w0
           = mul o wt w1
         /\ t_dtype o = float32
         /\ forall y w2, mul o wt w1 = (Ok y, w2) ->
              t_dtype y = result_type (t_shape o) float32
                                      (t_shape wt) (t_dtype wt)
              /\ (t_dtype wt <> float64 ->
                  t_shape o <> [] -> t_shape wt <> [] ->
                  t_dtype y = float32)
              /\ (t_dtype wt = float64 ->
                  (t_shape o = [] <-> t_shape wt = []) ->
                  t_dtype y = float64)
              /\ (t_shape o <> [] -> t_shape wt = [] ->
                  t_dtype y = float32)
              /\ (t_shape o = [] -> t_shape wt <> [] ->
                  t_dtype y = t_dtype wt)
              /\ (t_dtype wt <> float64 ->
                  t_shape o = [] -> t_shape wt = [] ->
                  t_dtype y = float32).
Proof.
  intros Hpjrt xf w0 Exf. split.
  - rewrite RMSNorm_forward_unfold by assumption.
    rewrite (bind_Ok _ _ _ _ _ Exf). reflexivity.
  - intros wt Hwt o w1 Eo.
    pose proof (to_dtype _ _ _ _ _ Exf) as Hxf.
    pose proof (unscaled_formula_float32 _ _ _ _ _ Hxf Eo) as Ho.
    split; [| split; [exact Ho |]].
    + rewrite Hwt.
      rewrite rms_norm_Some, (bind_Ok _ _ _ _ _ Eo). reflexivity.
    + intros y w2 Ey.
      pose proof (mul_dtype _ _ _ _ _ Ey) as Hy. rewrite Ho in Hy.
      split; [exact Hy |].
      exact (result_type_float32_cases _ _ _ _ Hy).
Qed.

(** ** The reference runtime obeys the laws *)

Lemma dtype_eqb_eq (a b : dtype) : dtype_eqb a b = true <-> a = b.
Proof. destruct a, b; simpl; split; congruence. Qed.

Lemma Ref_cast_dtype (t : Ref.tensor) (d : dtype) :
  Ref.dtype_of (Ref.cast t d) = d.
Proof.
  unfold Ref.cast. destruct (dtype_eqb (Ref.dtype_of t) d) eqn:E.
  - apply dtype_eqb_eq. exact E.
  - reflexivity.
Qed.

Lemma Ref_cast_shape (t : Ref.tensor) (d : dtype) :
  Ref.shape (Ref.cast t d) = Ref.shape t.
Proof.
  unfold Ref.cast. destruct (dtype_eqb (Ref.dtype_of t) d); reflexivity.
Qed.

Lemma Ref_cast_same (t : Ref.tensor) : Ref.cast t (Ref.dtype_of t) = t.
Proof.
  unfold Ref.cast.
  destruct (dtype_eqb (Ref.dtype_of t) (Ref.dtype_of t)) eqn:E;
    [reflexivity |].
  assert (dtype_eqb (Ref.dtype_of t) (Ref.dtype_of t) = true)
    by (apply dtype_eqb_eq; reflexivity).
  congruence.
Qed.

Lemma Ref_autocast_fp32_shape (w : Ref.world) (t : Ref.tensor) :
  Ref.shape (Ref.autocast_fp32 w t) = Ref.shape t.
Proof.
  unfold Ref.autocast_fp32.
  destruct (_ && _); [| reflexivity].
  destruct (Ref.dtype_of t); auto using Ref_cast_shape.
Qed.

Lemma Ref_autocast_fp32_float32 (w : Ref.world) (t : Ref.tensor) :
  Ref.dtype_of t = float32 -> Ref.autocast_fp32 w t = t.
Proof.
  intros E. unfold Ref.autocast_fp32. rewrite E.
  destruct (_ && _); reflexivity.
Qed.

Lemma Ref_autocast_fp32_off (w : Ref.world) (t : Ref.tensor) :
  Ref.is_autocast_enabled w = false -> Ref.autocast_fp32 w t = t.
Proof.
  intros E. unfold Ref.autocast_fp32. rewrite E, andb_false_r. reflexivity.
Qed.

#[global] Instance Ref_dtype_laws : DtypeLaws (H := ref_torch).
Proof.
  split; simpl.
  - intros t d w t' w' E. injection E as <- _. apply Ref_cast_dtype.
  - intros t n w t' w' E Ht. unfold Ref.pow in E. injection E as <- _.
    simpl. rewrite Ref_autocast_fp32_float32; assumption.
  - intros t dim k w t' w' E Ht. unfold Ref.mean in E.
    destruct (_ || _); [discriminate |]. injection E as <- _. exact Ht.
  - intros t s w t' w' E Ht. injection E as <- _. exact Ht.
  - intros t w t' w' E Ht. unfold Ref.rsqrt in E. injection E as <- _.
    simpl. rewrite Ref_autocast_fp32_float32; assumption.
  - intros a b w c w' E. unfold Ref.mul in E.
    destruct (Ref.common_device a b); [| discriminate].
    destruct (broadcast_shapes (Ref.shape a) (Ref.shape b));
      [| discriminate].
    injection E as <- _. reflexivity.
Qed.

Lemma keepdim_last_take (s : list nat) :
  s <> [] -> keepdim_last s = take (length s - 1) s ++ [1%nat].
Proof.
  intros Hs. destruct s as [| a s]; [congruence |].
  unfold keepdim_last. rewrite removelast_firstn_len.
  replace (Init.Nat.pred (length (a :: s))) with (length (a :: s) - 1)%nat
    by (simpl; lia).
  reflexivity.
Qed.

Lemma Ref_mean_last_shape (t : Ref.tensor) (w : Ref.world) :
  exists t', Ref.mean t (-1) true w = (Ok t', w)
             /\ Ref.shape t' = keepdim_last (Ref.shape t)
             /\ Ref.dtype_of t' = Ref.dtype_of t
             /\ Ref.device_type t' = Ref.device_type t.
Proof.
  unfold Ref.mean.
  set (R := Z.of_nat (Nat.max (length (Ref.shape t)) 1)).
  assert (HR : 1 <= R) by (unfold R; lia).
  replace (Z.ltb (-1) (- R) || Z.leb R (-1)) with false
    by (symmetry; apply orb_false_iff; split;
        [apply Z.ltb_ge | apply Z.leb_gt]; lia).
  eexists. split; [reflexivity |]. simpl.
  split; [| split; reflexivity].
  destruct (Ref.shape t) as [| a s] eqn:Es; [reflexivity |].
  rewrite keepdim_last_take by discriminate.
  replace (Z.ltb (-1) 0) with true by reflexivity.
  replace (Z.to_nat (-1 + R)) with (length (a :: s) - 1)%nat
    by (unfold R; simpl length; lia).
  replace (S (length (a :: s) - 1)) with (length (a :: s))
    by (simpl; lia).
  rewrite drop_all. reflexivity.
Qed.

#[global] Instance Ref_shape_laws : ShapeLaws (H := ref_torch).
Proof.
  split; simpl.
  - intros t d w t' w' E. injection E as <- _. apply Ref_cast_shape.
  - intros t n w t' w' E. unfold Ref.pow in E. injection E as <- _.
    simpl. apply Ref_autocast_fp32_shape.
  - intros t w t' w' E.
    destruct (Ref_mean_last_shape t w) as (t'' & E' & Hs & _ & _).
    rewrite E' in E. injection E as <- _. exact Hs.
  - intros t s w t' w' E. injection E as <- _. reflexivity.
  - intros t w t' w' E. unfold Ref.rsqrt in E. injection E as <- _.
    simpl. apply Ref_autocast_fp32_shape.
  - intros a b w c w' E. unfold Ref.mul in E.
    destruct (Ref.common_device a b); [| discriminate].
    destruct (broadcast_shapes (Ref.shape a) (Ref.shape b));
      [| discriminate].
    injection E as <- _. reflexivity.
  - intros x ns wt bs eps w y w' E. unfold Ref.layer_norm in E.
    destruct (_ && _); [| discriminate]. injection E as <- _.
    simpl. apply Ref_autocast_fp32_shape.
  - intros sh dt dev w t w' E. injection E as <- _. reflexivity.
  - intros sh dt dev w t w' E. injection E as <- _. reflexivity.
Qed.

(** ** Shapes *)

Lemma broadcast_rev_prefix (p q : list nat) :
  broadcast_rev (p ++ q) p = Some (p ++ q).
Proof.
  induction p as [| x p IH]; simpl.
  - destruct q; reflexivity.
  - rewrite IH, Nat.eqb_refl. reflexivity.
Qed.

(** A shape broadcast with one of its suffixes is the shape itself. *)
Lemma broadcast_shapes_suffix (ns s : list nat) :
  ns `suffix_of` s -> broadcast_shapes s ns = Some s.
Proof.
  intros [k ->]. unfold broadcast_shapes.
  rewrite rev_app_distr, broadcast_rev_prefix, <- rev_app_distr, rev_involutive.
  reflexivity.
Qed.

(** A shape broadcast with itself reduced along the last axis is the shape
    itself. *)
Lemma broadcast_shapes_keepdim (s : list nat) :
  broadcast_shapes s (keepdim_last s) = Some s.
Proof.
  destruct s as [| a s'] using rev_ind; [reflexivity |].
  assert (E : keepdim_last (s' ++ [a]) = s' ++ [1%nat]).
  { unfold keepdim_last. rewrite removelast_last.
    destruct (s' ++ [a]) eqn:E'; [| reflexivity].
    destruct s'; discriminate E'. }
  rewrite E. unfold broadcast_shapes. rewrite !rev_unit. simpl.
  pose proof (broadcast_rev_prefix (rev s') []) as P.
  rewrite app_nil_r in P. rewrite P.
  assert (R : rev (a :: rev s') = s' ++ [a])
    by (simpl; rewrite rev_involutive; reflexivity).
  destruct (Nat.eqb a 1) eqn:Ea.
  - exact (f_equal Some R).
  - simpl. exact (f_equal Some R).
Qed.

Lemma cast_if_autocast_enabled_shape `{Torch} `{!ShapeLaws}
    (t t' : Tensor) (w w' : world) :
  _cast_if_autocast_enabled t w = (Ok t', w') -> t_shape t' = t_shape t.
Proof.
  unfold _cast_if_autocast_enabled. rewrite gets_bind.
  destruct (is_autocast_enabled w).
  - intros E. apply bind_inv in E as (d & w1 & _ & E).
    eapply to_shape; eassumption.
  - intros E. injection E as <- _. reflexivity.
Qed.

Lemma if_not_None_cast_shape `{Torch} `{!ShapeLaws}
    (v v' : option Tensor) (w w' : world) (ns : list nat) :
  if_not_None _cast_if_autocast_enabled v w = (Ok v', w') ->
  (forall t, v = Some t -> t_shape t = ns) ->
  forall t', v' = Some t' -> t_shape t' = ns.
Proof.
  destruct v as [t |]; simpl; intros E Hv t' ->.
  - apply bind_inv in E as (c & w1 & Ec & E). injection E as <- _.
    rewrite (cast_if_autocast_enabled_shape _ _ _ _ Ec). auto.
  - discriminate E.
Qed.

(** [rms_norm] returns the shape of its input when the weight, if there is
    one, has a suffix of that shape. *)
Lemma rms_norm_shape `{Torch} `{!ShapeLaws}
    (x : Tensor) (weight : option Tensor) (eps : pyfloat)
    (w w' : world) (y : Tensor) :
  (forall wt, weight = Some wt -> t_shape wt `suffix_of` t_shape x) ->
  rms_norm x weight eps w = (Ok y, w') -> t_shape y = t_shape x.
Proof.
  intros Hw E. unfold rms_norm in E.
  apply bind_inv in E as (x2 & w1 & E1 & E).
  apply bind_inv in E as (ms & w2 & E2 & E).
  apply bind_inv in E as (s & w3 & E3 & E).
  apply bind_inv in E as (r & w4 & E4 & E).
  apply bind_inv in E as (o & w5 & E5 & E).
  assert (Ho : t_shape o = t_shape x).
  { pose proof (mul_shape _ _ _ _ _ E5) as B.
    rewrite (rsqrt_shape _ _ _ _ E4), (add_scalar_shape _ _ _ _ _ E3),
      (mean_shape _ _ _ _ E2), (pow_shape _ _ _ _ _ E1),
      broadcast_shapes_keepdim in B.
    congruence. }
  destruct weight as [wt |].
  - pose proof (mul_shape _ _ _ _ _ E) as B.
    rewrite Ho, (broadcast_shapes_suffix _ _ (Hw wt eq_refl)) in B.
    congruence.
  - injection E as <- _. exact Ho.
Qed.

(** The registry holds the four names and nothing else. *)
Lemma registry_entries (name : string) (cls : norm_class) :
  NORM_CLASS_REGISTRY !! name = Some cls <->
  (name = "layernorm" /\ cls = class_LayerNorm)
  \/ (name = "low_precision_layernorm" /\ cls = class_LPLayerNorm)
  \/ (name = "rmsnorm" /\ cls = class_RMSNorm)
  \/ (name = "low_precision_rmsnorm" /\ cls = class_LPRMSNorm).
Proof.
  unfold NORM_CLASS_REGISTRY.
  rewrite !lookup_insert_Some, lookup_empty. split.
  - intros [[<- <-] | [_ [[<- <-] | [_ [[<- <-] | [_ [[<- <-] | [_ E]]]]]]]];
      try discriminate E; tauto.
  - intros [[-> ->] | [[-> ->] | [[-> ->] | [-> ->]]]].
    + left. done.
    + right. split; [done |]. left. done.
    + right. split; [done |]. right. split; [done |]. left. done.
    + right. split; [done |]. right. split; [done |].
      right. split; [done |]. left. done.
Qed.

(** C7: each of the four classes of the registry, built for a normalized
    shape, returns from [forward] a tensor of the shape of its input, for
    every input whose trailing dimensions are the normalized shape (the
    inputs the layer supports). *)
Theorem forward_keeps_shape `{Torch} `{!ShapeLaws}
    (name : string) (cls : norm_class)
    (normalized_shape : shape_arg) (eps : pyfloat) (affine : bool)
    (dtype : option dtype) (device : option string)
    (w w1 : world) (m : norm_module) :
  NORM_CLASS_REGISTRY !! name = Some cls ->
  construct cls normalized_shape eps affine dtype device w = (Ok m, w1) ->
  forall (x y : Tensor) (w2 w3 : world),
    shape_of_arg normalized_shape `suffix_of` t_shape x ->
    forward m x w2 = (Ok y, w3) ->
    t_shape y = t_shape x.
Proof.
  intros _ Hm x y w2 w3 Hx Hy.
  assert (Hrms : forall self : RMSNorm.t,
            RMSNorm.__init__ normalized_shape eps affine dtype device w
              = (Ok self, w1) ->
            forall wt, RMSNorm.weight self = Some wt ->
                       t_shape wt = shape_of_arg normalized_shape).
  { intros self Hs wt Hwt. unfold RMSNorm.__init__ in Hs.
    destruct affine.
    - apply bind_inv in Hs as (o & w' & Eo & Hs). injection Hs as <- _.
      simpl in Hwt. injection Hwt as <-.
      eapply ones_shape; eassumption.
    - injection Hs as <- _. discriminate Hwt. }
  destruct cls; simpl in Hm;
    apply bind_inv in Hm as (self & w' & Hs & Hm); injection Hm as <- <-;
    simpl in Hy.
  - eapply layer_norm_shape; eassumption.
  - unfold LPLayerNorm.forward in Hy. rewrite gets_bind in Hy.
    destruct (using_pjrt w2).
    + eapply layer_norm_shape; eassumption.
    + apply bind_inv in Hy as (cx & w4 & Ecx & Hy).
      apply bind_inv in Hy as (cw & w5 & _ & Hy).
      apply bind_inv in Hy as (cb & w6 & _ & Hy).
      apply with_autocast_inv in Hy as (ctx & w7 & w8 & _ & Hy).
      rewrite (layer_norm_shape _ _ _ _ _ _ _ _ Hy).
      eapply cast_if_autocast_enabled_shape; eassumption.
  - unfold RMSNorm.forward in Hy. rewrite gets_bind in Hy.
    destruct (using_pjrt w2).
    + apply bind_inv in Hy as (r & w4 & Er & Hy).
      rewrite (to_shape _ _ _ _ _ Hy).
      eapply rms_norm_shape; [| eassumption].
      intros wt Hwt. rewrite (Hrms self Hs wt Hwt). exact Hx.
    + apply bind_inv in Hy as (xf & w4 & Exf & Hy).
      apply bind_inv in Hy as (r & w5 & Er & Hy).
      rewrite (to_shape _ _ _ _ _ Hy), <- (to_shape _ _ _ _ _ Exf).
      eapply rms_norm_shape; [| eassumption].
      intros wt Hwt.
      rewrite (Hrms self Hs wt Hwt), (to_shape _ _ _ _ _ Exf). exact Hx.
  - unfold LPRMSNorm.forward in Hy. rewrite gets_bind in Hy.
    destruct (using_pjrt w2).
    + apply bind_inv in Hy as (r & w4 & Er & Hy).
      rewrite (to_shape _ _ _ _ _ Hy).
      eapply rms_norm_shape; [| eassumption].
      intros wt Hwt. rewrite (Hrms self Hs wt Hwt). exact Hx.
    + apply bind_inv in Hy as (cx & w4 & Ecx & Hy).
      apply bind_inv in Hy as (cw & w5 & Ecw & Hy).
      apply with_autocast_inv in Hy as (ctx & w6 & w8 & _ & Hy).
      apply bind_inv in Hy as (r & w7 & Er & Hy).
      rewrite (to_shape _ _ _ _ _ Hy),
        <- (cast_if_autocast_enabled_shape _ _ _ _ Ecx).
      eapply rms_norm_shape; [| eassumption].
      intros wt Hwt.
      rewrite (if_not_None_cast_shape _ _ _ _ _ Ecw (Hrms self Hs) wt Hwt),
        (cast_if_autocast_enabled_shape _ _ _ _ Ecx).
      exact Hx.
Qed.

(** ** The scenario of the specification: a (2, 4) tensor of twos *)

(** C9: for [x] of shape (2, 4) filled with 2.0 (float32, torch's default
    dtype), [eps = 1e-5] and no weight, the mean of squares [rms_norm]
    computes is 4.0 in each of the two rows, and every one of the eight
    elements of the output is [2.0 * rsqrt(4.0 + eps)] in float32
    arithmetic, a number within 1e-6 of 0.999998.  The same holds, to the
    same tolerance, for a float64 input.  [eps_default] is the binary64
    number nearest to 1e-5. *)
Theorem rms_norm_of_twos (w : Ref.world) :
  let two := of_Z float32 2 in
  let four := of_Z float32 4 in
  let out :=
    fmul float32 two
      (frsqrt float32 (fadd float32 four (round_to float32
                                            Examples.eps_default))) in
  (x2 <- pow (Examples.x_2x4 float32) 2 ;; mean x2 (-1) true) w
    = (Ok {| Ref.dtype_of := float32; Ref.device_type := "cpu";
             Ref.shape := [2; 1]%nat; Ref.data := [four; four] |}, w)
  /\ rms_norm (Examples.x_2x4 float32) None Examples.eps_default w
     = (Ok {| Ref.dtype_of := float32; Ref.device_type := "cpu";
              Ref.shape := [2; 4]%nat; Ref.data := replicate 8 out |}, w)
  /\ (exists q, SF2Q four = Some q /\ (q == 4)%Q)
  /\ (exists q, SF2Q out = Some q
                /\ (Qabs (q - (999998 # 1000000)) <= 1 # 1000000)%Q)
  /\ (exists y q,
        rms_norm (Examples.x_2x4 float64) None Examples.eps_default w
          = (Ok y, w)
        /\ Ref.shape y = [2; 4]%nat
        /\ Forall (fun v => SF2Q v = Some q) (Ref.data y)
        /\ (Qabs (q - (999998 # 1000000)) <= 1 # 1000000)%Q)
  /\ (exists q, SF2Q Examples.eps_default = Some q
                /\ (Qabs (q - (1 # 100000)) <= 2 ^ (-70))%Q).
Proof.
  intros two four out.
  split; [vm_compute; reflexivity |].
  split; [vm_compute; reflexivity |].
  split; [eexists; split; [reflexivity | vm_compute; reflexivity] |].
  split.
  { eexists. split; [vm_compute; reflexivity |].
    apply Qle_bool_iff. vm_compute. reflexivity. }
  split.
  { eexists _, _. split; [vm_compute; reflexivity |].
    split; [reflexivity |]. split.
    - repeat constructor.
    - apply Qle_bool_iff. vm_compute. reflexivity. }
  eexists. split; [reflexivity |].
  apply Qle_bool_iff. vm_compute. reflexivity.
Qed.

(** ** The pjrt path against the default path, autocast off *)

Lemma Ref_autocast_fp32_agree (w1 w2 : Ref.world) (t : Ref.tensor) :
  agree w1 w2 -> Ref.autocast_fp32 w1 t = Ref.autocast_fp32 w2 t.
Proof. intros E. unfold Ref.autocast_fp32. rewrite E. reflexivity. Qed.

Lemma is_autocast_enabled_set (dev : string) (b : bool) (w : Ref.world) :
  Ref.is_autocast_enabled (Ref.set_autocast dev b w)
  = if String.eqb dev "cuda" then b else Ref.is_autocast_enabled w.
Proof.
  unfold Ref.is_autocast_enabled, Ref.set_autocast. simpl.
  destruct (String.eqb_spec dev "cuda") as [-> | Hne]; destruct b.
  - apply bool_decide_eq_true, elem_of_union_r, elem_of_singleton.
    reflexivity.
  - apply bool_decide_eq_false. rewrite elem_of_difference, elem_of_singleton.
    tauto.
  - apply bool_decide_ext. rewrite elem_of_union, elem_of_singleton.
    intuition congruence.
  - apply bool_decide_ext. rewrite elem_of_difference, elem_of_singleton.
    intuition congruence.
Qed.

Lemma respects_ret {A : Type} (a : A) : respects (ret (H := ref_torch) a).
Proof. intros w1 w2 E. split; [reflexivity | exact E]. Qed.

Lemma respects_bind {A B : Type}
    (m : M (H := ref_torch) A) (k : A -> M (H := ref_torch) B) :
  respects m -> (forall a, respects (k a)) -> respects (bind m k).
Proof.
  intros Hm Hk w1 w2 E. unfold bind.
  destruct (Hm w1 w2 E) as [E1 E2].
  destruct (m w1) as [[a1 | e1] w1'], (m w2) as [[a2 | e2] w2'];
    simpl in *; try discriminate E1.
  - injection E1 as ->. apply Hk. exact E2.
  - injection E1 as ->. split; [reflexivity | exact E2].
Qed.

Lemma respects_to (t : Ref.tensor) (d : dtype) : respects (Ref.to t d).
Proof. intros w1 w2 E. split; [reflexivity | exact E]. Qed.

Lemma respects_pow (t : Ref.tensor) (n : Z) : respects (Ref.pow t n).
Proof.
  intros w1 w2 E. unfold Ref.pow. simpl.
  rewrite (Ref_autocast_fp32_agree _ _ _ E). split; [reflexivity | exact E].
Qed.

Lemma respects_mean (t : Ref.tensor) (dim : Z) (k : bool) :
  respects (Ref.mean t dim k).
Proof.
  intros w1 w2 E. unfold Ref.mean.
  destruct (_ || _); split; simpl; (reflexivity || exact E).
Qed.

Lemma respects_add_scalar (t : Ref.tensor) (s : pyfloat) :
  respects (Ref.add_scalar t s).
Proof. intros w1 w2 E. split; [reflexivity | exact E]. Qed.

Lemma respects_rsqrt (t : Ref.tensor) : respects (Ref.rsqrt t).
Proof.
  intros w1 w2 E. unfold Ref.rsqrt. simpl.
  rewrite (Ref_autocast_fp32_agree _ _ _ E). split; [reflexivity | exact E].
Qed.

Lemma respects_mul (a b : Ref.tensor) : respects (Ref.mul a b).
Proof.
  intros w1 w2 E. unfold Ref.mul.
  destruct (Ref.common_device a b),
    (broadcast_shapes (Ref.shape a) (Ref.shape b));
    split; simpl; (reflexivity || exact E).
Qed.

Lemma respects_layer_norm (x : Ref.tensor) (ns : list nat)
    (wt bs : option Ref.tensor) (eps : pyfloat) :
  respects (Ref.layer_norm x ns wt bs eps).
Proof.
  intros w1 w2 E. unfold Ref.layer_norm.
  rewrite (Ref_autocast_fp32_agree _ _ x E).
  replace (option_map (Ref.autocast_fp32 w1) wt)
    with (option_map (Ref.autocast_fp32 w2) wt)
    by (destruct wt; simpl; [rewrite (Ref_autocast_fp32_agree _ _ _ E) |];
        reflexivity).
  replace (option_map (Ref.autocast_fp32 w1) bs)
    with (option_map (Ref.autocast_fp32 w2) bs)
    by (destruct bs; simpl; [rewrite (Ref_autocast_fp32_agree _ _ _ E) |];
        reflexivity).
  destruct (_ && _); split; simpl; (reflexivity || exact E).
Qed.

Lemma respects_rms_norm (x : Ref.tensor) (weight : option Ref.tensor)
    (eps : pyfloat) :
  respects (rms_norm (H := ref_torch) x weight eps).
Proof.
  unfold rms_norm.
  apply respects_bind; [apply respects_pow | intros x2].
  apply respects_bind; [apply respects_mean | intros ms].
  apply respects_bind; [apply respects_add_scalar | intros s].
  apply respects_bind; [apply respects_rsqrt | intros r].
  apply respects_bind; [apply respects_mul | intros o].
  destruct weight; [apply respects_mul | apply respects_ret].
Qed.

Lemma Ref_autocast_enter_ok (enabled : bool) (dev : string)
    (w : Ref.world) :
  dev ∈ Ref.autocast_devices w ->
  Ref.autocast_enter enabled dev w
  = (Ok (dev, bool_decide (dev ∈ Ref.autocast_on w)),
     Ref.set_autocast dev enabled w).
Proof.
  intros Hin. unfold Ref.autocast_enter.
  rewrite bool_decide_eq_true_2 by exact Hin. reflexivity.
Qed.

Lemma Ref_autocast_enter_refused (enabled : bool) (dev : string)
    (w : Ref.world) :
  dev ∉ Ref.autocast_devices w ->
  Ref.autocast_enter enabled dev w = (Raise RuntimeError, w).
Proof.
  intros Hin. unfold Ref.autocast_enter.
  rewrite bool_decide_eq_false_2 by exact Hin. reflexivity.
Qed.

Lemma Ref_autocast_enter_inv (enabled : bool) (dev : string)
    (w w1 : Ref.world) (ctx : string * bool) :
  Ref.autocast_enter enabled dev w = (Ok ctx, w1) ->
  dev ∈ Ref.autocast_devices w /\ w1 = Ref.set_autocast dev enabled w.
Proof.
  unfold Ref.autocast_enter.
  destruct (bool_decide (dev ∈ Ref.autocast_devices w)) eqn:Hin;
    [| discriminate].
  apply bool_decide_eq_true in Hin. intros [= _ <-]. split; auto.
Qed.

Lemma with_autocast_fst {A : Type} (enabled : bool) (dev : string)
    (body : M (H := ref_torch) A) (w : Ref.world) :
  dev ∈ Ref.autocast_devices w ->
  (with_autocast enabled dev body w).1
  = (body (Ref.set_autocast dev enabled w)).1.
Proof.
  intros Hin. unfold with_autocast.
  change (@autocast_enter ref_torch enabled dev w)
    with (Ref.autocast_enter enabled dev w).
  rewrite (Ref_autocast_enter_ok enabled dev w Hin).
  destruct (body (Ref.set_autocast dev enabled w)). reflexivity.
Qed.

(** Where [torch.autocast] has no support for the device type the block is
    not entered. *)
Lemma with_autocast_refused {A : Type} (enabled : bool) (dev : string)
    (body : M (H := ref_torch) A) (w : Ref.world) :
  dev ∉ Ref.autocast_devices w ->
  with_autocast enabled dev body w = (Raise RuntimeError, w).
Proof.
  intros Hin. unfold with_autocast.
  change (@autocast_enter ref_torch enabled dev w)
    with (Ref.autocast_enter enabled dev w).
  rewrite (Ref_autocast_enter_refused enabled dev w Hin). reflexivity.
Qed.

Lemma agree_pjrt_default (w : Ref.world) (dev : string) :
  Ref.is_autocast_enabled w = false ->
  agree (Ref.set_pjrt true w)
        (Ref.set_autocast dev false (Ref.set_pjrt false w)).
Proof.
  intros Hoff. unfold agree. rewrite is_autocast_enabled_set.
  change (Ref.is_autocast_enabled (Ref.set_pjrt true w))
    with (Ref.is_autocast_enabled w).
  change (Ref.is_autocast_enabled (Ref.set_pjrt false w))
    with (Ref.is_autocast_enabled w).
  rewrite Hoff. destruct (String.eqb dev "cuda"); reflexivity.
Qed.

Lemma Ref_cast_off (t : Ref.tensor) (w : Ref.world) :
  Ref.is_autocast_enabled w = false ->
  _cast_if_autocast_enabled (H := ref_torch) t (Ref.set_pjrt false w)
  = (Ok t, Ref.set_pjrt false w).
Proof.
  intros Hoff.
  exact (cast_autocast_off (H := ref_torch) t (Ref.set_pjrt false w) Hoff).
Qed.

Lemma Ref_if_not_None_cast_off (v : option Ref.tensor) (w : Ref.world) :
  Ref.is_autocast_enabled w = false ->
  if_not_None (H := ref_torch) _cast_if_autocast_enabled v
    (Ref.set_pjrt false w)
  = (Ok v, Ref.set_pjrt false w).
Proof.
  intros Hoff. destruct v as [t |]; simpl; [| reflexivity].
  rewrite (bind_Ok _ _ _ _ _ (Ref_cast_off t w Hoff)). reflexivity.
Qed.

(** C6, as the code has it: with autocast off, in the reference runtime,
    the pjrt path and the default path return the same value (the same
    tensor, bit for bit, or the same exception) for every float32 input of
    [RMSNorm.forward], and for every input of [LPRMSNorm.forward] and of
    [LPLayerNorm.forward] on a device type [torch.autocast] has support
    for.  On any other device type the default path of the two low-precision
    classes raises [RuntimeError], from the [torch.autocast] it builds and
    the pjrt path does not.  Nothing is said of [RMSNorm.forward] on an
    input of another dtype, where the pjrt path computes at the dtype of the
    input and the default path at float32. *)
Theorem paths_agree_without_autocast (w : Ref.world) (x : Ref.tensor) :
  Ref.is_autocast_enabled w = false ->
  (forall self : RMSNorm.t,
     Ref.dtype_of x = float32 ->
     (RMSNorm.forward self x (Ref.set_pjrt true w)).1
     = (RMSNorm.forward self x (Ref.set_pjrt false w)).1)
  /\ (Ref.device_type x ∈ Ref.autocast_devices w ->
      (forall self : RMSNorm.t,
         (LPRMSNorm.forward self x (Ref.set_pjrt true w)).1
         = (LPRMSNorm.forward self x (Ref.set_pjrt false w)).1)
      /\ (forall self : LayerNorm.t,
            (LPLayerNorm.forward self x (Ref.set_pjrt true w)).1
            = (LPLayerNorm.forward self x (Ref.set_pjrt false w)).1))
  /\ (Ref.device_type x ∉ Ref.autocast_devices w ->
      (forall self : RMSNorm.t,
         LPRMSNorm.forward self x (Ref.set_pjrt false w)
         = (Raise RuntimeError, Ref.set_pjrt false w))
      /\ (forall self : LayerNorm.t,
            LPLayerNorm.forward self x (Ref.set_pjrt false w)
            = (Raise RuntimeError, Ref.set_pjrt false w))).
Proof.
  intros Hoff.
  assert (Hbody : forall wt eps,
            respects (y <- rms_norm (H := ref_torch) x wt eps ;;
                      to y (t_dtype x))).
  { intros wt eps. apply respects_bind; [apply respects_rms_norm |].
    intros y. apply respects_to. }
  split; [| split].
  - intros self Hx. unfold RMSNorm.forward. rewrite !gets_bind. simpl.
    unfold float.
    assert (Ex : @to ref_torch x float32 (Ref.set_pjrt false w)
                 = (Ok x, Ref.set_pjrt false w)).
    { simpl. unfold Ref.to. rewrite <- Hx, Ref_cast_same. reflexivity. }
    rewrite (bind_Ok _ _ _ _ _ Ex).
    apply Hbody. reflexivity.
  - intros Hdev. split.
    + intros self. unfold LPRMSNorm.forward. rewrite !gets_bind. simpl.
      rewrite (bind_Ok _ _ _ _ _ (Ref_cast_off x w Hoff)).
      rewrite (bind_Ok _ _ _ _ _
                 (Ref_if_not_None_cast_off (RMSNorm.weight self) w Hoff)).
      rewrite with_autocast_fst by exact Hdev.
      apply Hbody. apply agree_pjrt_default. exact Hoff.
    + intros self. unfold LPLayerNorm.forward. rewrite !gets_bind. simpl.
      rewrite (bind_Ok _ _ _ _ _ (Ref_cast_off x w Hoff)).
      rewrite (bind_Ok _ _ _ _ _
                 (Ref_if_not_None_cast_off (LayerNorm.weight self) w Hoff)).
      rewrite (bind_Ok _ _ _ _ _
                 (Ref_if_not_None_cast_off (LayerNorm.bias self) w Hoff)).
      rewrite with_autocast_fst by exact Hdev.
      apply respects_layer_norm. apply agree_pjrt_default. exact Hoff.
  - intros Hdev. split.
    + intros self. unfold LPRMSNorm.forward. rewrite !gets_bind. simpl.
      rewrite (bind_Ok _ _ _ _ _ (Ref_cast_off x w Hoff)).
      rewrite (bind_Ok _ _ _ _ _
                 (Ref_if_not_None_cast_off (RMSNorm.weight self) w Hoff)).
      apply with_autocast_refused. exact Hdev.
    + intros self. unfold LPLayerNorm.forward. rewrite !gets_bind. simpl.
      rewrite (bind_Ok _ _ _ _ _ (Ref_cast_off x w Hoff)).
      rewrite (bind_Ok _ _ _ _ _
                 (Ref_if_not_None_cast_off (LayerNorm.weight self) w Hoff)).
      rewrite (bind_Ok _ _ _ _ _
                 (Ref_if_not_None_cast_off (LayerNorm.bias self) w Hoff)).
      apply with_autocast_refused. exact Hdev.
Qed.

(** ** The reference runtime returns on the inputs a layer supports *)

Lemma Ref_cast_device (t : Ref.tensor) (d : dtype) :
  Ref.device_type (Ref.cast t d) = Ref.device_type t.
Proof.
  unfold Ref.cast. destruct (dtype_eqb (Ref.dtype_of t) d); reflexivity.
Qed.

Lemma Ref_autocast_fp32_device (w : Ref.world) (t : Ref.tensor) :
  Ref.device_type (Ref.autocast_fp32 w t) = Ref.device_type t.
Proof.
  unfold Ref.autocast_fp32.
  destruct (_ && _); [| reflexivity].
  destruct (Ref.dtype_of t); auto using Ref_cast_device.
Qed.

Lemma Ref_common_device_same (a b : Ref.tensor) :
  Ref.device_type a = Ref.device_type b ->
  Ref.common_device a b = Some (Ref.device_type a).
Proof.
  intros E. unfold Ref.common_device. rewrite E, String.eqb_refl.
  reflexivity.
Qed.

(** Two tensors on one device whose shapes broadcast have a product, on
    that device, of the broadcast shape. *)
Lemma Ref_mul_returns (a b : Ref.tensor) (s : list nat) (w : Ref.world) :
  Ref.device_type a = Ref.device_type b ->
  broadcast_shapes (Ref.shape a) (Ref.shape b) = Some s ->
  exists c, Ref.mul a b w = (Ok c, w)
            /\ Ref.shape c = s
            /\ Ref.device_type c = Ref.device_type a.
Proof.
  intros Hd Hs. unfold Ref.mul.
  rewrite (Ref_common_device_same _ _ Hd), Hs.
  eexists. repeat split.
Qed.

(** In the reference runtime [rms_norm] returns for every input, provided
    the weight, if there is one, is on the device of the input and has a
    suffix of its shape; the world is left as it was. *)
Lemma Ref_rms_norm_returns (x : Ref.tensor) (weight : option Ref.tensor)
    (eps : pyfloat) (w : Ref.world) :
  (forall wt, weight = Some wt ->
     Ref.shape wt `suffix_of` Ref.shape x
     /\ Ref.device_type wt = Ref.device_type x) ->
  exists y, rms_norm (H := ref_torch) x weight eps w = (Ok y, w)
            /\ Ref.shape y = Ref.shape x
            /\ Ref.device_type y = Ref.device_type x.
Proof.
  intros Hw. unfold rms_norm.
  set (x2 := Ref.with_data (Ref.autocast_fp32 w x)
               (Ref.dtype_of (Ref.autocast_fp32 w x))
               (map (lift1 (Ref.dtype_of (Ref.autocast_fp32 w x)) (fpow 2))
                    (Ref.data (Ref.autocast_fp32 w x)))).
  assert (E1 : pow (Torch := ref_torch) x 2 w = (Ok x2, w)) by reflexivity.
  rewrite (bind_Ok _ _ _ _ _ E1).
  destruct (Ref_mean_last_shape x2 w) as (ms & E2 & S2 & _ & D2).
  rewrite (bind_Ok (H := ref_torch) _ _ _ _ _ E2).
  set (s := Ref.with_data ms (Ref.dtype_of ms)
              (map (fun a => lift2 (Ref.dtype_of ms) fadd a eps)
                   (Ref.data ms))).
  assert (E3 : add_scalar (Torch := ref_torch) ms eps w = (Ok s, w))
    by reflexivity.
  rewrite (bind_Ok _ _ _ _ _ E3).
  set (r := Ref.with_data (Ref.autocast_fp32 w s)
              (Ref.dtype_of (Ref.autocast_fp32 w s))
              (map (lift1 (Ref.dtype_of (Ref.autocast_fp32 w s)) frsqrt)
                   (Ref.data (Ref.autocast_fp32 w s)))).
  assert (E4 : rsqrt (Torch := ref_torch) s w = (Ok r, w)) by reflexivity.
  rewrite (bind_Ok _ _ _ _ _ E4).
  assert (Sr : Ref.shape r = keepdim_last (Ref.shape x)).
  { unfold r. simpl. rewrite Ref_autocast_fp32_shape. unfold s. simpl.
    rewrite S2. unfold x2. simpl. rewrite Ref_autocast_fp32_shape.
    reflexivity. }
  assert (Dr : Ref.device_type x = Ref.device_type r).
  { unfold r. simpl. rewrite Ref_autocast_fp32_device. unfold s. simpl.
    rewrite D2. unfold x2. simpl. rewrite Ref_autocast_fp32_device.
    reflexivity. }
  destruct (Ref_mul_returns x r (Ref.shape x) w Dr) as (o & E5 & So & Do).
  { rewrite Sr. apply broadcast_shapes_keepdim. }
  rewrite (bind_Ok (H := ref_torch) _ _ _ _ _ E5).
  destruct weight as [wt |].
  - destruct (Hw wt eq_refl) as [Hs Hd].
    destruct (Ref_mul_returns o wt (Ref.shape x) w) as (y & E6 & Sy & Dy).
    + congruence.
    + rewrite So. apply broadcast_shapes_suffix. exact Hs.
    + exists y. split; [exact E6 |]. split; congruence.
  - exists o. split; [reflexivity |]. split; assumption.
Qed.

(** So [RMSNorm.forward] returns on every such input, on both paths, a
    tensor of the shape and dtype of the input. *)
Lemma Ref_RMSNorm_forward_returns (self : RMSNorm.t) (x : Ref.tensor)
    (w : Ref.world) :
  (forall wt, RMSNorm.weight self = Some wt ->
     Ref.shape wt `suffix_of` Ref.shape x
     /\ Ref.device_type wt = Ref.device_type x) ->
  exists y, RMSNorm.forward self x w = (Ok y, w)
            /\ Ref.shape y = Ref.shape x
            /\ Ref.dtype_of y = Ref.dtype_of x.
Proof.
  intros Hw. unfold RMSNorm.forward. rewrite gets_bind.
  destruct (@using_pjrt ref_torch w).
  - destruct (Ref_rms_norm_returns x _ (RMSNorm.eps self) w Hw)
      as (y & Ey & Sy & _).
    rewrite (bind_Ok _ _ _ _ _ Ey).
    exists (Ref.cast y (Ref.dtype_of x)). split; [reflexivity |].
    rewrite Ref_cast_shape, Ref_cast_dtype. split; [exact Sy | reflexivity].
  - unfold float.
    assert (Ex : to (Torch := ref_torch) x float32 w
                 = (Ok (Ref.cast x float32), w)) by reflexivity.
    rewrite (bind_Ok _ _ _ _ _ Ex).
    destruct (Ref_rms_norm_returns (Ref.cast x float32) (RMSNorm.weight self)
                (RMSNorm.eps self) w) as (y & Ey & Sy & _).
    { rewrite Ref_cast_shape, Ref_cast_device. exact Hw. }
    rewrite (bind_Ok _ _ _ _ _ Ey).
    exists (Ref.cast y (Ref.dtype_of x)). split; [reflexivity |].
    rewrite Ref_cast_shape, Ref_cast_dtype, Sy, Ref_cast_shape.
    split; reflexivity.
Qed.

Lemma Ref_cast_returns (t : Ref.tensor) (w : Ref.world) :
  castable w (Ref.device_type t) ->
  exists t', _cast_if_autocast_enabled (H := ref_torch) t w = (Ok t', w)
             /\ Ref.shape t' = Ref.shape t
             /\ Ref.device_type t' = Ref.device_type t.
Proof.
  intros Hc. unfold _cast_if_autocast_enabled. rewrite gets_bind.
  change (@is_autocast_enabled ref_torch w)
    with (Ref.is_autocast_enabled w).
  destruct (Ref.is_autocast_enabled w) eqn:Hon.
  - destruct Hc as [Hc | [Hc | Hc]]; [congruence | |];
      change (@t_device_type ref_torch t) with (Ref.device_type t);
      rewrite Hc; simpl; unfold bind, gets; simpl; unfold Ref.to;
      eexists; (split; [reflexivity |]);
      rewrite Ref_cast_shape, Ref_cast_device, Hc; split; reflexivity.
  - exists t. repeat split.
Qed.

Lemma Ref_if_not_None_cast_returns (ns : list nat) (x : Ref.tensor)
    (p : option Ref.tensor) (w : Ref.world) :
  castable w (Ref.device_type x) -> fits ns x p ->
  exists p', if_not_None (H := ref_torch) _cast_if_autocast_enabled p w
             = (Ok p', w)
             /\ fits ns x p'.
Proof.
  intros Hc Hp. destruct p as [t |]; simpl.
  - destruct (Hp t eq_refl) as [Hs Hd].
    destruct (Ref_cast_returns t w) as (t' & E & Hs' & Hd').
    { rewrite Hd. exact Hc. }
    rewrite (bind_Ok _ _ _ _ _ E). exists (Some t').
    split; [reflexivity |]. intros t'' [= <-]. split; congruence.
  - exists None. split; [reflexivity |]. intros t [=].
Qed.

Lemma Ref_affine_ok (ns : list nat) (x : Ref.tensor) (p : option Ref.tensor)
    (w : Ref.world) :
  fits ns x p ->
  Ref.affine_ok ns (Ref.autocast_fp32 w x)
    (option_map (Ref.autocast_fp32 w) p) = true.
Proof.
  intros Hp. destruct p as [t |]; simpl; [| reflexivity].
  destruct (Hp t eq_refl) as [Hs Hd].
  rewrite Ref_autocast_fp32_shape, !Ref_autocast_fp32_device, Hs, Hd.
  rewrite String.eqb_refl, andb_true_r. apply bool_decide_eq_true.
  reflexivity.
Qed.

(** [layer_norm] returns, with the world as it was, when the normalized
    shape has a dimension, the trailing dimensions of the input are the
    normalized shape, and weight and bias fit. *)
Lemma Ref_layer_norm_returns (x : Ref.tensor) (ns : list nat)
    (wt bs : option Ref.tensor) (eps : pyfloat) (w : Ref.world) :
  ns <> [] ->
  ns `suffix_of` Ref.shape x -> fits ns x wt -> fits ns x bs ->
  exists y, Ref.layer_norm x ns wt bs eps w = (Ok y, w)
            /\ Ref.shape y = Ref.shape x.
Proof.
  intros Hns Hx Hwt Hbs. unfold Ref.layer_norm.
  rewrite (Ref_affine_ok ns x wt w Hwt), (Ref_affine_ok ns x bs w Hbs).
  rewrite Ref_autocast_fp32_shape, bool_decide_eq_true_2 by exact Hx.
  replace (Nat.eqb (length ns) 0) with false
    by (destruct ns; [congruence | reflexivity]).
  simpl. eexists. split; [reflexivity |].
  simpl. apply Ref_autocast_fp32_shape.
Qed.

(** Leaving [torch.autocast] puts the autocast state back. *)
Lemma Ref_autocast_restore (enabled : bool) (dev : string) (w : Ref.world)
    (ctx : string * bool) (w1 : Ref.world) :
  Ref.autocast_enter enabled dev w = (Ok ctx, w1) ->
  Ref.autocast_exit ctx w1 = w.
Proof.
  destruct w as [on g c ds p].
  unfold Ref.autocast_enter. simpl.
  destruct (bool_decide (dev ∈ ds)); [| discriminate].
  intros [= <- <-].
  unfold Ref.autocast_exit, Ref.set_autocast. simpl.
  f_equal.
  destruct (bool_decide (dev ∈ on)) eqn:Hin;
    [apply bool_decide_eq_true in Hin | apply bool_decide_eq_false in Hin];
    destruct enabled; apply set_eq; intros s;
    repeat (rewrite elem_of_union || rewrite elem_of_difference
            || rewrite elem_of_singleton);
    destruct (decide (s = dev)) as [-> | Hne]; tauto.
Qed.

Lemma Ref_with_autocast_returns {A : Type} (enabled : bool) (dev : string)
    (body : M (H := ref_torch) A) (w : Ref.world) (a : A) :
  dev ∈ Ref.autocast_devices w ->
  body (Ref.set_autocast dev enabled w)
    = (Ok a, Ref.set_autocast dev enabled w) ->
  with_autocast enabled dev body w = (Ok a, w).
Proof.
  intros Hin E. unfold with_autocast.
  change (@autocast_enter ref_torch enabled dev w)
    with (Ref.autocast_enter enabled dev w).
  pose proof (Ref_autocast_enter_ok enabled dev w Hin) as Ee.
  rewrite Ee, E.
  change (@autocast_exit ref_torch) with Ref.autocast_exit.
  rewrite (Ref_autocast_restore enabled dev w _ _ Ee). reflexivity.
Qed.

Lemma fits_suffix (ns : list nat) (x : Ref.tensor) (p : option Ref.tensor) :
  ns `suffix_of` Ref.shape x -> fits ns x p ->
  forall wt, p = Some wt ->
    Ref.shape wt `suffix_of` Ref.shape x
    /\ Ref.device_type wt = Ref.device_type x.
Proof.
  intros Hx Hp wt E. destruct (Hp wt E) as [-> Hd]. split; assumption.
Qed.

Lemma Ref_LPRMSNorm_forward_returns (ns : list nat) (self : RMSNorm.t)
    (x : Ref.tensor) (w : Ref.world) :
  ns `suffix_of` Ref.shape x -> fits ns x (RMSNorm.weight self) ->
  castable w (Ref.device_type x) ->
  Ref.device_type x ∈ Ref.autocast_devices w ->
  exists y, LPRMSNorm.forward self x w = (Ok y, w)
            /\ Ref.shape y = Ref.shape x
            /\ Ref.dtype_of y = Ref.dtype_of x.
Proof.
  intros Hx Hw Hc Hdev. unfold LPRMSNorm.forward. rewrite gets_bind.
  destruct (@using_pjrt ref_torch w).
  - destruct (Ref_rms_norm_returns x _ (RMSNorm.eps self) w
                (fits_suffix ns x _ Hx Hw)) as (y & Ey & Sy & _).
    rewrite (bind_Ok _ _ _ _ _ Ey).
    exists (Ref.cast y (Ref.dtype_of x)). split; [reflexivity |].
    rewrite Ref_cast_shape, Ref_cast_dtype. split; [exact Sy | reflexivity].
  - destruct (Ref_cast_returns x w Hc) as (cx & Ecx & Scx & Dcx).
    rewrite (bind_Ok _ _ _ _ _ Ecx).
    destruct (Ref_if_not_None_cast_returns ns x _ w Hc Hw)
      as (cw & Ecw & Hcw).
    rewrite (bind_Ok _ _ _ _ _ Ecw).
    set (w1 := Ref.set_autocast (Ref.device_type x) false w).
    destruct (Ref_rms_norm_returns cx cw (RMSNorm.eps self) w1)
      as (y & Ey & Sy & _).
    { intros wt E. destruct (Hcw wt E) as [-> Hd].
      rewrite Scx, Dcx. split; assumption. }
    exists (Ref.cast y (Ref.dtype_of x)). split.
    + apply Ref_with_autocast_returns; [exact Hdev |]. fold w1.
      rewrite (bind_Ok _ _ _ _ _ Ey). reflexivity.
    + rewrite Ref_cast_shape, Ref_cast_dtype, Sy, Scx. split; reflexivity.
Qed.

Lemma Ref_LPLayerNorm_forward_returns (self : LayerNorm.t)
    (x : Ref.tensor) (w : Ref.world) :
  LayerNorm.normalized_shape self <> [] ->
  LayerNorm.normalized_shape self `suffix_of` Ref.shape x ->
  fits (LayerNorm.normalized_shape self) x (LayerNorm.weight self) ->
  fits (LayerNorm.normalized_shape self) x (LayerNorm.bias self) ->
  castable w (Ref.device_type x) ->
  Ref.device_type x ∈ Ref.autocast_devices w ->
  exists y, LPLayerNorm.forward self x w = (Ok y, w)
            /\ Ref.shape y = Ref.shape x.
Proof.
  intros Hns Hx Hw Hb Hc Hdev. unfold LPLayerNorm.forward. rewrite gets_bind.
  destruct (@using_pjrt ref_torch w).
  - apply Ref_layer_norm_returns; assumption.
  - destruct (Ref_cast_returns x w Hc) as (cx & Ecx & Scx & Dcx).
    rewrite (bind_Ok _ _ _ _ _ Ecx).
    destruct (Ref_if_not_None_cast_returns _ x _ w Hc Hw)
      as (cw & Ecw & Hcw).
    rewrite (bind_Ok _ _ _ _ _ Ecw).
    destruct (Ref_if_not_None_cast_returns _ x _ w Hc Hb)
      as (cb & Ecb & Hcb).
    rewrite (bind_Ok _ _ _ _ _ Ecb).
    set (w1 := Ref.set_autocast (Ref.device_type x) false w).
    destruct (Ref_layer_norm_returns cx (LayerNorm.normalized_shape self)
                cw cb (LayerNorm.eps self) w1) as (y & Ey & Sy).
    + exact Hns.
    + rewrite Scx. exact Hx.
    + intros t E. destruct (Hcw t E). split; congruence.
    + intros t E. destruct (Hcb t E). split; congruence.
    + exists y. split; [| congruence].
      apply Ref_with_autocast_returns; [exact Hdev | exact Ey].
Qed.

(** Every class of the registry, built for a normalized shape of at least
    one dimension on a device, returns from [forward] on every input on
    that device whose trailing dimensions are the normalized shape, in
    every world where the helper and [torch.autocast] know the device; the
    world is left as it was. *)
Lemma Ref_forward_returns (cls : norm_class) (normalized_shape : shape_arg)
    (eps : pyfloat) (affine : bool) (dt : option dtype)
    (dev : option string) (w0 w1 : Ref.world) (m : norm_module)
    (x : Ref.tensor) (w : Ref.world) :
  construct cls normalized_shape eps affine dt dev w0 = (Ok m, w1) ->
  shape_of_arg normalized_shape `suffix_of` Ref.shape x ->
  shape_of_arg normalized_shape <> [] ->
  Ref.device_type x = default "cpu" dev ->
  castable w (Ref.device_type x) ->
  Ref.device_type x ∈ Ref.autocast_devices w ->
  exists y, forward m x w = (Ok y, w) /\ Ref.shape y = Ref.shape x.
Proof.
  intros Hm Hx Hns Hd Hc Hdev.
  assert (Hfull : forall v, fits (shape_of_arg normalized_shape) x
                              (Some (Ref.full normalized_shape v dt dev))).
  { intros v t [= <-]. split; [reflexivity | symmetry; exact Hd]. }
  assert (Hnone : fits (shape_of_arg normalized_shape) x None)
    by (intros t [=]).
  destruct cls, affine; simpl in Hm; injection Hm as <- _; simpl.
  - apply Ref_layer_norm_returns; auto.
  - apply Ref_layer_norm_returns; auto.
  - apply Ref_LPLayerNorm_forward_returns; simpl; auto.
  - apply Ref_LPLayerNorm_forward_returns; simpl; auto.
  - destruct (Ref_RMSNorm_forward_returns
                (@RMSNorm.Build_t ref_torch eps
                   (Some (Ref.full normalized_shape 1 dt dev))) x w
                (fits_suffix _ x _ Hx (Hfull 1))) as (y & E & S & _).
    exists y. split; assumption.
  - destruct (Ref_RMSNorm_forward_returns
                (@RMSNorm.Build_t ref_torch eps None) x w
                (fits_suffix _ x _ Hx Hnone)) as (y & E & S & _).
    exists y. split; assumption.
  - destruct (Ref_LPRMSNorm_forward_returns (shape_of_arg normalized_shape)
                (@RMSNorm.Build_t ref_torch eps
                   (Some (Ref.full normalized_shape 1 dt dev))) x w
                Hx (Hfull 1) Hc Hdev) as (y & E & S & _).
    exists y. split; assumption.
  - destruct (Ref_LPRMSNorm_forward_returns (shape_of_arg normalized_shape)
                (@RMSNorm.Build_t ref_torch eps None) x w
                Hx Hnone Hc Hdev) as (y & E & S & _).
    exists y. split; assumption.
Qed.

(** ** LPLayerNorm runs at the dtype the helper chose *)

Lemma Ref_cast_inv (t t' : Ref.tensor) (w w' : Ref.world) :
  _cast_if_autocast_enabled (H := ref_torch) t w = (Ok t', w') ->
  w' = w /\ Ref.device_type t' = Ref.device_type t.
Proof.
  unfold _cast_if_autocast_enabled. rewrite gets_bind.
  destruct (@is_autocast_enabled ref_torch w).
  - intros E. apply (bind_inv (H := ref_torch)) in E as (d & w1 & Ed & E).
    simpl in E, Ed. unfold Ref.to in E. injection E as <- <-.
    rewrite Ref_cast_device. split; [| reflexivity].
    destruct (String.eqb (Ref.device_type t) "cuda");
      [| destruct (String.eqb (Ref.device_type t) "cpu")];
      try discriminate Ed; injection Ed as _ <-; reflexivity.
  - intros [= <- <-]. split; reflexivity.
Qed.

(** Inside [torch.autocast(enabled=False, device_type=dev)] CUDA autocast
    does nothing to a tensor on [dev]. *)
Lemma Ref_autocast_fp32_suppressed (dev : string) (w : Ref.world)
    (t : Ref.tensor) :
  Ref.device_type t = dev ->
  Ref.autocast_fp32 (Ref.set_autocast dev false w) t = t.
Proof.
  intros Hd. unfold Ref.autocast_fp32.
  rewrite is_autocast_enabled_set, Hd.
  destruct (String.eqb dev "cuda"); reflexivity.
Qed.

(** Outside pjrt mode the tensor [LPLayerNorm.forward] returns has the
    dtype of the downcast input: under CUDA autocast a CUDA input comes back
    in the autocast GPU dtype, where [LayerNorm.forward] would return
    float32. *)
Lemma Ref_LPLayerNorm_forward_dtype (self : LayerNorm.t) (x y : Ref.tensor)
    (w w' : Ref.world) :
  Ref.pjrt w = false ->
  LPLayerNorm.forward self x w = (Ok y, w') ->
  exists downcast_x,
    _cast_if_autocast_enabled (H := ref_torch) x w = (Ok downcast_x, w)
    /\ Ref.dtype_of y = Ref.dtype_of downcast_x.
Proof.
  intros Hpjrt E. unfold LPLayerNorm.forward in E. rewrite gets_bind in E.
  change (@using_pjrt ref_torch w) with (Ref.pjrt w) in E.
  rewrite Hpjrt in E.
  apply (bind_inv (H := ref_torch)) in E as (cx & w1 & Ecx & E).
  destruct (Ref_cast_inv _ _ _ _ Ecx) as [-> Dcx].
  apply (bind_inv (H := ref_torch)) in E as (cw & w2 & _ & E).
  apply (bind_inv (H := ref_torch)) in E as (cb & w3 & _ & E).
  apply (with_autocast_inv (H := ref_torch)) in E as (ctx & w4 & w5 & Ee & E).
  apply Ref_autocast_enter_inv in Ee as [_ ->].
  exists cx. split; [exact Ecx |].
  simpl in E. unfold Ref.layer_norm in E.
  change (@t_device_type ref_torch x) with (Ref.device_type x) in E.
  rewrite (Ref_autocast_fp32_suppressed (Ref.device_type x) w3 cx Dcx) in E.
  destruct (_ && _); [| discriminate E].
  injection E as <- _. reflexivity.
Qed.

(** ** The reference runtime computes the formula row by row *)

Lemma chunks_concat {A : Type} (n : nat) (rows : list (list A)) :
  Forall (fun r => length r = n) rows ->
  chunks (length rows) n (concat rows) = rows.
Proof.
  induction 1 as [| row rows Hlen _ IH]; simpl; [reflexivity |].
  subst n. rewrite take_app_length, drop_app_length.
  f_equal. exact IH.
Qed.

Lemma chunks_singletons {A : Type} (l : list A) :
  chunks (length l) 1 l = map (fun v => [v]) l.
Proof.
  induction l as [| a l IH]; simpl; [reflexivity |].
  rewrite take_0, drop_0. f_equal. exact IH.
Qed.

Lemma map_nth_seq {A : Type} (l : list A) (d : A) :
  map (fun j => nth j l d) (seq 0 (length l)) = l.
Proof.
  induction l as [| a l IH]; simpl; [reflexivity |].
  f_equal. rewrite <- seq_shift, map_map. exact IH.
Qed.

Lemma concat_singletons {A B : Type} (f : A -> B) (l : list A) :
  concat (map (fun a => [f a]) l) = map f l.
Proof. induction l as [| a l IH]; simpl; [| rewrite IH]; reflexivity. Qed.

(** The mean over the last axis of a two-dimensional tensor is the mean of
    each row. *)
Lemma Ref_mean_rows (d : dtype) (dev : string) (n : nat)
    (rows : list (list spec_float)) (w : Ref.world) :
  Forall (fun r => length r = n) rows ->
  Ref.mean {| Ref.dtype_of := d; Ref.device_type := dev;
              Ref.shape := [length rows; n]; Ref.data := concat rows |}
           (-1) true w
  = (Ok {| Ref.dtype_of := d; Ref.device_type := dev;
           Ref.shape := [length rows; 1%nat];
           Ref.data := map (row_mean d) rows |}, w).
Proof.
  intros Hrows. unfold Ref.mean. simpl.
  rewrite !Nat.mul_1_r, (chunks_concat n rows Hrows).
  do 3 f_equal. rewrite <- (concat_singletons (row_mean d) rows).
  f_equal. apply map_ext_in. intros row Hin. f_equal.
  unfold row_mean. do 3 f_equal.
  rewrite Forall_forall in Hrows.
  rewrite <- (Hrows row) by (apply list_elem_of_In; exact Hin).
  rewrite <- (map_nth_seq row (S754_zero false)) at 2.
  apply map_ext. intros j. f_equal. lia.
Qed.

Lemma expand_same_row {A : Type} (n : nat) (row : list A) :
  length row = n -> expand [n] [n] row = row.
Proof.
  intros <-. simpl. rewrite Nat.eqb_refl, chunks_singletons.
  induction row as [| a row IH]; simpl; [| rewrite IH]; reflexivity.
Qed.

Lemma expand_rows {A : Type} (r n : nat) (rows : list (list A)) :
  length rows = r ->
  Forall (fun row => length row = n) rows ->
  expand_to [r; n] [r; n] (concat rows) = concat rows.
Proof.
  intros <- Hrows. unfold expand_to. simpl replicate. simpl app.
  change (expand [length rows; n] [length rows; n] (concat rows))
    with (if Nat.eqb (length rows) (length rows)
          then concat (map (expand [n] [n])
                         (chunks (length rows) (numel [n]) (concat rows)))
          else concat (replicate (length rows)
                         (expand [n] [n] (concat rows)))).
  rewrite Nat.eqb_refl. unfold numel. simpl foldr. rewrite Nat.mul_1_r.
  rewrite (chunks_concat n rows Hrows). f_equal.
  induction Hrows as [| row rows Hlen _ IH]; [reflexivity |].
  rewrite map_cons, IH, (expand_same_row n row Hlen). reflexivity.
Qed.

Lemma expand_one {A : Type} (n : nat) (a : A) :
  expand [1%nat] [n] [a] = replicate n a.
Proof.
  change (expand [1%nat] [n] [a])
    with (if Nat.eqb 1 n
          then concat (map (expand [] []) (chunks 1 (numel []) [a]))
          else concat (replicate n (expand [] [] [a]))).
  destruct (Nat.eqb_spec 1 n) as [<- | _]; [reflexivity |].
  simpl expand. induction n as [| n IH]; simpl; [| rewrite IH]; reflexivity.
Qed.

Lemma expand_column {A : Type} (r n : nat) (l : list A) :
  length l = r ->
  expand_to [r; 1%nat] [r; n] l = concat (map (replicate n) l).
Proof.
  intros <-. unfold expand_to. simpl replicate. simpl app.
  change (expand [length l; 1%nat] [length l; n] l)
    with (if Nat.eqb (length l) (length l)
          then concat (map (expand [1%nat] [n])
                         (chunks (length l) (numel [1%nat]) l))
          else concat (replicate (length l) (expand [1%nat] [n] l))).
  rewrite Nat.eqb_refl. unfold numel. simpl foldr.
  rewrite chunks_singletons, map_map. f_equal.
  apply map_ext. intros a. apply expand_one.
Qed.

Lemma zip_with_rows {A B C : Type} (f : A -> B -> C) (n : nat)
    (rows : list (list A)) (l : list B) :
  Forall (fun r => length r = n) rows ->
  zip_with f (concat rows) (concat (map (replicate n) l))
  = concat (zip_with (fun row b => map (fun a => f a b) row) rows l).
Proof.
  intros Hrows. revert l.
  induction Hrows as [| row rows Hlen _ IH]; intros [| b l]; simpl;
    try reflexivity.
  - destruct (row ++ concat rows); reflexivity.
  - rewrite zip_with_app by (rewrite length_replicate; exact Hlen).
    rewrite IH. f_equal.
    subst n. clear. induction row as [| a row IH']; simpl;
      [| rewrite IH']; reflexivity.
Qed.

Lemma zip_with_map_same {A B C : Type} (f : list A -> B -> C)
    (g : list A -> B) (rows : list (list A)) :
  zip_with f rows (map g rows) = map (fun row => f row (g row)) rows.
Proof. induction rows as [| r rows IH]; simpl; [| rewrite IH]; reflexivity. Qed.

Lemma promote_types_diag (d : dtype) : promote_types d d = d.
Proof. destruct d; reflexivity. Qed.

Lemma result_type_diag (sa sb : list nat) (d : dtype) :
  result_type sa d sb d = d.
Proof. destruct sa, sb; simpl; auto using promote_types_diag. Qed.

Lemma Ref_mul_eq (a b : Ref.tensor) (s : list nat) (w : Ref.world) :
  Ref.device_type a = Ref.device_type b ->
  broadcast_shapes (Ref.shape a) (Ref.shape b) = Some s ->
  Ref.mul a b w
  = (Ok {| Ref.dtype_of := result_type (Ref.shape a) (Ref.dtype_of a)
                                       (Ref.shape b) (Ref.dtype_of b);
           Ref.device_type := Ref.device_type a;
           Ref.shape := s;
           Ref.data :=
             zip_with (lift2 (result_type (Ref.shape a) (Ref.dtype_of a)
                                          (Ref.shape b) (Ref.dtype_of b))
                             fmul)
               (expand_to (Ref.shape a) s (Ref.data a))
               (expand_to (Ref.shape b) s (Ref.data b)) |}, w).
Proof.
  intros Hd Hs. unfold Ref.mul.
  rewrite (Ref_common_device_same _ _ Hd), Hs. reflexivity.
Qed.

(** In the reference runtime, with autocast off, [rms_norm] without a
    weight on a two-dimensional tensor applies the formula row by row. *)
Lemma Ref_rms_norm_rows (d : dtype) (dev : string) (n : nat)
    (rows : list (list spec_float)) (eps : pyfloat) (w : Ref.world) :
  Forall (fun r => length r = n) rows ->
  Ref.is_autocast_enabled w = false ->
  rms_norm (H := ref_torch)
    {| Ref.dtype_of := d; Ref.device_type := dev;
       Ref.shape := [length rows; n]; Ref.data := concat rows |} None eps w
  = (Ok {| Ref.dtype_of := d; Ref.device_type := dev;
           Ref.shape := [length rows; n];
           Ref.data := concat (map (rms_row d eps) rows) |}, w).
Proof.
  intros Hrows Hoff.
  set (x := {| Ref.dtype_of := d; Ref.device_type := dev;
               Ref.shape := [length rows; n]; Ref.data := concat rows |}).
  set (sq := map (lift1 d (fpow 2))).
  set (inv := fun row : list spec_float =>
                lift1 d frsqrt (lift2 d fadd (row_mean d (sq row)) eps)).
  set (r := {| Ref.dtype_of := d; Ref.device_type := dev;
               Ref.shape := [length rows; 1%nat];
               Ref.data := map inv rows |}).
  assert (Hsq : Forall (fun r => length r = n) (map sq rows)).
  { apply Forall_map. eapply Forall_impl; [exact Hrows |].
    intros row Hr. unfold sq. simpl. rewrite length_map. exact Hr. }
  assert (E1 : pow (Torch := ref_torch) x 2 w
               = (Ok {| Ref.dtype_of := d; Ref.device_type := dev;
                        Ref.shape := [length (map sq rows); n];
                        Ref.data := concat (map sq rows) |}, w)).
  { simpl. unfold Ref.pow. rewrite (Ref_autocast_fp32_off w x Hoff).
    unfold Ref.with_data, x. simpl.
    rewrite length_map, concat_map. reflexivity. }
  assert (E4 : forall s : Ref.tensor,
             rsqrt (Torch := ref_torch) s w
             = (Ok (Ref.with_data s (Ref.dtype_of s)
                      (map (lift1 (Ref.dtype_of s) frsqrt) (Ref.data s))),
                w)).
  { intros s. simpl. unfold Ref.rsqrt.
    rewrite (Ref_autocast_fp32_off w s Hoff). reflexivity. }
  set (ms := {| Ref.dtype_of := d; Ref.device_type := dev;
                Ref.shape := [length (map sq rows); 1%nat];
                Ref.data := map (row_mean d) (map sq rows) |}).
  set (s := Ref.with_data ms d
              (map (fun a => lift2 d fadd a eps) (Ref.data ms))).
  assert (E3 : add_scalar (Torch := ref_torch) ms eps w = (Ok s, w))
    by reflexivity.
  assert (E4' : rsqrt (Torch := ref_torch) s w = (Ok r, w)).
  { rewrite E4. unfold Ref.with_data, r, s, ms. simpl.
    rewrite !map_map, !length_map. reflexivity. }
  assert (E5 : mul (Torch := ref_torch) x r w
               = (Ok {| Ref.dtype_of := d; Ref.device_type := dev;
                        Ref.shape := [length rows; n];
                        Ref.data := concat (map (rms_row d eps) rows) |},
                  w)).
  { simpl mul. rewrite (Ref_mul_eq x r [length rows; n] w eq_refl).
    - rewrite result_type_diag. unfold x, r. simpl.
      rewrite (expand_rows _ _ rows eq_refl Hrows).
      rewrite (expand_column _ _ _ (length_map inv rows)).
      rewrite (zip_with_rows _ _ rows _ Hrows).
      rewrite zip_with_map_same. reflexivity.
    - exact (broadcast_shapes_keepdim [length rows; n]). }
  unfold rms_norm.
  rewrite (bind_Ok _ _ _ _ _ E1).
  rewrite (bind_Ok (H := ref_torch) _ _ _ _ _
             (Ref_mean_rows d dev n (map sq rows) w Hsq)).
  fold ms.
  rewrite (bind_Ok _ _ _ _ _ E3), (bind_Ok _ _ _ _ _ E4'),
    (bind_Ok _ _ _ _ _ E5).
  reflexivity.
Qed.

Lemma expand_leading {A : Type} (r n : nat) (l : list A) :
  length l = n -> expand_to [n] [r; n] l = concat (replicate r l).
Proof.
  intros Hl. unfold expand_to. simpl replicate. simpl app.
  change (expand [1%nat; n] [r; n] l)
    with (if Nat.eqb 1 r
          then concat (map (expand [n] [n]) (chunks 1 (numel [n]) l))
          else concat (replicate r (expand [n] [n] l))).
  destruct (Nat.eqb_spec 1 r) as [<- | _].
  - change (chunks 1 (numel [n]) l) with [take (n * 1) l].
    rewrite Nat.mul_1_r, <- Hl, firstn_all.
    change (map (expand [length l] [length l]) [l])
      with [expand [length l] [length l] l].
    rewrite (expand_same_row (length l) l eq_refl). reflexivity.
  - rewrite (expand_same_row n l Hl). reflexivity.
Qed.

Lemma zip_with_rows_leading {A B C : Type} (f : A -> B -> C) (r n : nat)
    (rows : list (list A)) (l : list B) :
  length rows = r ->
  Forall (fun row => length row = n) rows -> length l = n ->
  zip_with f (concat rows) (concat (replicate r l))
  = concat (map (fun row => zip_with f row l) rows).
Proof.
  intros <- Hrows Hl.
  induction Hrows as [| row rows Hlen _ IH]; simpl; [reflexivity |].
  rewrite zip_with_app by congruence. rewrite IH. reflexivity.
Qed.

(** With a weight of the row length, every normalized row is multiplied
    element by element by the weight, in the promoted dtype. *)
Lemma Ref_rms_norm_rows_weight (d dw : dtype) (dev : string) (n : nat)
    (rows : list (list spec_float)) (g : list spec_float)
    (eps : pyfloat) (w : Ref.world) :
  Forall (fun r => length r = n) rows -> length g = n ->
  Ref.is_autocast_enabled w = false ->
  rms_norm (H := ref_torch)
    {| Ref.dtype_of := d; Ref.device_type := dev;
       Ref.shape := [length rows; n]; Ref.data := concat rows |}
    (Some {| Ref.dtype_of := dw; Ref.device_type := dev;
             Ref.shape := [n]; Ref.data := g |}) eps w
  = (Ok {| Ref.dtype_of := promote_types d dw; Ref.device_type := dev;
           Ref.shape := [length rows; n];
           Ref.data :=
             concat (map (fun row =>
                            zip_with (lift2 (promote_types d dw) fmul)
                                     (rms_row d eps row) g) rows) |}, w).
Proof.
  intros Hrows Hg Hoff.
  pose proof (Ref_rms_norm_rows d dev n rows eps w Hrows Hoff) as E.
  rewrite (rms_norm_None (H := ref_torch)) in E.
  rewrite (rms_norm_Some (H := ref_torch)), (bind_Ok _ _ _ _ _ E).
  simpl mul.
  rewrite (Ref_mul_eq
             {| Ref.dtype_of := d; Ref.device_type := dev;
                Ref.shape := [length rows; n];
                Ref.data := concat (map (rms_row d eps) rows) |}
             {| Ref.dtype_of := dw; Ref.device_type := dev;
                Ref.shape := [n]; Ref.data := g |}
             [length rows; n] w eq_refl).
  - assert (Hnorm : Forall (fun row => length row = n)
                       (map (rms_row d eps) rows)).
    { apply Forall_map. eapply Forall_impl; [exact Hrows |].
      intros row Hr. unfold rms_row. simpl. rewrite length_map. exact Hr. }
    simpl. rewrite (expand_leading _ _ _ Hg).
    rewrite (expand_rows _ _ _ (length_map _ rows) Hnorm).
    rewrite (zip_with_rows_leading _ _ n _ _ (length_map _ rows) Hnorm Hg).
    rewrite map_map. reflexivity.
  - apply (broadcast_shapes_suffix [n] [length rows; n]).
    exists [length rows]. reflexivity.
Qed.

(** C1: for every input, optional weight and eps, [rms_norm] is the formula
    [x * rsqrt(mean(x^2, last axis, keepdim) + eps)]: exactly that when the
    weight is [None], and that multiplied elementwise by the weight when
    there is one.  This holds call for call in every runtime.  In the
    reference runtime it means, for a two-dimensional input and with
    autocast off, that every row [r] becomes
    [v * rsqrt(mean of the squares of r + eps)] for each [v] of [r]
    ([rms_row]), and with a weight [g] of the row length that the j-th
    element of every such row is then multiplied by the j-th element of
    [g]. *)
Theorem rms_norm_formula :
  (forall (T : Torch) (x : Tensor) (weight : option Tensor) (eps : pyfloat)
          (w : world),
     rms_norm x weight eps w = rms_norm_spec x weight eps w
     /\ rms_norm x None eps w = unscaled_formula x eps w
     /\ forall wt : Tensor,
          rms_norm x (Some wt) eps w
          = (normalized <- unscaled_formula x eps ;; mul normalized wt) w)
  /\ (forall (d : dtype) (dev : string) (n : nat)
             (rows : list (list spec_float)) (eps : pyfloat) (w : Ref.world),
        Forall (fun row => length row = n) rows ->
        Ref.is_autocast_enabled w = false ->
        let x := {| Ref.dtype_of := d; Ref.device_type := dev;
                    Ref.shape := [length rows; n];
                    Ref.data := concat rows |} in
        rms_norm (H := ref_torch) x None eps w
        = (Ok {| Ref.dtype_of := d; Ref.device_type := dev;
                 Ref.shape := [length rows; n];
                 Ref.data := concat (map (rms_row d eps) rows) |}, w)
        /\ forall (dw : dtype) (g : list spec_float),
             length g = n ->
             rms_norm (H := ref_torch) x
               (Some {| Ref.dtype_of := dw; Ref.device_type := dev;
                        Ref.shape := [n]; Ref.data := g |}) eps w
             = (Ok {| Ref.dtype_of := promote_types d dw;
                      Ref.device_type := dev;
                      Ref.shape := [length rows; n];
                      Ref.data :=
                        concat
                          (map (fun row =>
                                  zip_with (lift2 (promote_types d dw) fmul)
                                           (rms_row d eps row) g)
                               rows) |}, w)).
Proof.
  split.
  - intros T x weight eps w.
    split; [| split; [apply rms_norm_None | intros wt; apply rms_norm_Some]].
    destruct weight as [wt |]; [apply rms_norm_Some | apply rms_norm_None].
  - intros d dev n rows eps w Hrows Hoff x. split.
    + apply Ref_rms_norm_rows; assumption.
    + intros dw g Hg. apply Ref_rms_norm_rows_weight; assumption.
Qed.

(** ** The autocast state after a call *)

Lemma keeps_world_ret `{Torch} {A : Type} (a : A) : keeps_world (ret a).
Proof. intros w. reflexivity. Qed.

Lemma keeps_world_gets `{Torch} {A : Type} (f : world -> A) :
  keeps_world (gets f).
Proof. intros w. reflexivity. Qed.

Lemma keeps_world_raise `{Torch} {A : Type} (e : exn) :
  keeps_world (raise (A := A) e).
Proof. intros w. reflexivity. Qed.

Lemma keeps_world_bind `{Torch} {A B : Type} (m : M A) (k : A -> M B) :
  keeps_world m -> (forall a, keeps_world (k a)) -> keeps_world (bind m k).
Proof.
  intros Hm Hk w. unfold bind. specialize (Hm w).
  destruct (m w) as [[a | e] w']; simpl in Hm; subst w'.
  - apply Hk.
  - reflexivity.
Qed.

Lemma keeps_world_with_autocast `{Torch} `{!StateLaws} {A : Type}
    (enabled : bool) (dev : string) (body : M A) :
  keeps_world body -> keeps_world (with_autocast enabled dev body).
Proof.
  intros Hb w. unfold with_autocast.
  destruct (autocast_enter enabled dev w) as [[ctx | e] w1] eqn:Ee.
  - specialize (Hb w1). destruct (body w1) as [r w2]. simpl in *.
    subst w2. exact (autocast_restore _ _ _ _ _ Ee).
  - simpl. exact (autocast_refused _ _ _ _ _ Ee).
Qed.

Lemma keeps_world_cast `{Torch} `{!StateLaws} (t : Tensor) :
  keeps_world (_cast_if_autocast_enabled t).
Proof.
  unfold _cast_if_autocast_enabled.
  apply keeps_world_bind; [apply keeps_world_gets |].
  intros [|]; [| apply keeps_world_ret].
  apply keeps_world_bind; [| intros d; apply to_world].
  destruct (String.eqb _ _); [apply keeps_world_gets |].
  destruct (String.eqb _ _);
    [apply keeps_world_gets | apply keeps_world_raise].
Qed.

Lemma keeps_world_if_not_None `{Torch} (f : Tensor -> M Tensor)
    (v : option Tensor) :
  (forall t, keeps_world (f t)) -> keeps_world (if_not_None f v).
Proof.
  intros Hf. destruct v as [t |]; simpl; [| apply keeps_world_ret].
  apply keeps_world_bind; [apply Hf | intros t'; apply keeps_world_ret].
Qed.

Lemma keeps_world_rms_norm `{Torch} `{!StateLaws}
    (x : Tensor) (weight : option Tensor) (eps : pyfloat) :
  keeps_world (rms_norm x weight eps).
Proof.
  unfold rms_norm.
  apply keeps_world_bind; [apply pow_world | intros x2].
  apply keeps_world_bind; [apply mean_world | intros ms].
  apply keeps_world_bind; [apply add_scalar_world | intros s].
  apply keeps_world_bind; [apply rsqrt_world | intros r].
  apply keeps_world_bind; [apply mul_world | intros o].
  destruct weight; [apply mul_world | apply keeps_world_ret].
Qed.

Lemma keeps_world_forward `{Torch} `{!StateLaws}
    (m : norm_module) (x : Tensor) :
  keeps_world (forward m x).
Proof.
  destruct m as [self | self | self | self]; simpl.
  - apply layer_norm_world.
  - unfold LPLayerNorm.forward.
    apply keeps_world_bind; [apply keeps_world_gets |].
    intros [|]; [apply layer_norm_world |].
    apply keeps_world_bind; [apply keeps_world_cast | intros cx].
    apply keeps_world_bind;
      [apply keeps_world_if_not_None, keeps_world_cast | intros cw].
    apply keeps_world_bind;
      [apply keeps_world_if_not_None, keeps_world_cast | intros cb].
    apply keeps_world_with_autocast, layer_norm_world.
  - unfold RMSNorm.forward.
    apply keeps_world_bind; [apply keeps_world_gets |].
    intros [|].
    + apply keeps_world_bind; [apply keeps_world_rms_norm |].
      intros y. apply to_world.
    + apply keeps_world_bind; [apply to_world | intros xf].
      apply keeps_world_bind; [apply keeps_world_rms_norm |].
      intros y. apply to_world.
  - unfold LPRMSNorm.forward.
    apply keeps_world_bind; [apply keeps_world_gets |].
    intros [|].
    + apply keeps_world_bind; [apply keeps_world_rms_norm |].
      intros y. apply to_world.
    + apply keeps_world_bind; [apply keeps_world_cast | intros cx].
      apply keeps_world_bind;
        [apply keeps_world_if_not_None, keeps_world_cast | intros cw].
      apply keeps_world_with_autocast.
      apply keeps_world_bind; [apply keeps_world_rms_norm |].
      intros y. apply to_world.
Qed.

(** X1: [forward] of each of the four classes leaves the world, and with it
    the autocast state, as it found it, whether it returns or raises: the
    [with torch.autocast(enabled=False, ...)] block of the low-precision
    classes is undone on every way out.  So a second call with the same
    input gives the same result as the first. *)
Theorem forward_keeps_world `{Torch} `{!StateLaws}
    (m : norm_module) (x : Tensor) (w : world) :
  (forward m x w).2 = w
  /\ forward m x (forward m x w).2 = forward m x w.
Proof.
  pose proof (keeps_world_forward m x w) as K.
  split; [exact K | rewrite K; reflexivity].
Qed.

(** ** Failures of the low-precision classes *)

(** X2: outside pjrt mode and with autocast enabled, [LPLayerNorm.forward]
    and [LPRMSNorm.forward] raise [NotImplementedError] on every input whose
    device type is neither ['cuda'] nor ['cpu']: the helper fails on [x]
    before any tensor is converted, autocast is entered or a primitive is
    called, and the world is as it was.  In pjrt mode the helper is not
    called and the two methods are their base classes' [forward]. *)
Theorem LP_forward_unsupported_device `{Torch}
    (ln : LayerNorm.t) (rms : RMSNorm.t) (x : Tensor) (w : world) :
  (using_pjrt w = false -> is_autocast_enabled w = true ->
   t_device_type x <> "cuda" -> t_device_type x <> "cpu" ->
   LPLayerNorm.forward ln x w = (Raise NotImplementedError, w)
   /\ LPRMSNorm.forward rms x w = (Raise NotImplementedError, w))
  /\ (using_pjrt w = true ->
      LPLayerNorm.forward ln x w = LayerNorm.forward ln x w
      /\ LPRMSNorm.forward rms x w = RMSNorm.forward rms x w).
Proof.
  split.
  - intros Hpjrt Hon Hcuda Hcpu.
    pose proof (cast_unsupported_device x w Hon Hcuda Hcpu) as E.
    unfold LPLayerNorm.forward, LPRMSNorm.forward.
    rewrite !gets_bind, Hpjrt.
    split; apply bind_Raise; exact E.
  - intros Hpjrt.
    unfold LPLayerNorm.forward, LPRMSNorm.forward, RMSNorm.forward,
      LayerNorm.forward.
    rewrite !gets_bind, Hpjrt. split; reflexivity.
Qed.

(** X3: what is raised at or inside the
    [with torch.autocast(enabled=False, ...)] block goes to the caller
    unchanged.  Stated with autocast off, where the helper returns its
    arguments.  When the block is entered and [layer_norm], called on the
    module's tensors in the entered world, raises [e], then
    [LPLayerNorm.forward] raises [e] in the world [__exit__] makes of the
    one the primitive left; and likewise for [LPRMSNorm.forward] and the
    core [rms_norm].  When [torch.autocast] itself raises [e], both
    [forward]s raise [e] in the world it left, and no [__exit__] runs. *)
Theorem LP_forward_propagates `{Torch}
    (ln : LayerNorm.t) (rms : RMSNorm.t) (x : Tensor) (w w' : world)
    (e : exn) :
  using_pjrt w = false -> is_autocast_enabled w = false ->
  (forall ctx entered,
     autocast_enter false (t_device_type x) w = (Ok ctx, entered) ->
     (layer_norm x (LayerNorm.normalized_shape ln) (LayerNorm.weight ln)
        (LayerNorm.bias ln) (LayerNorm.eps ln) entered = (Raise e, w') ->
      LPLayerNorm.forward ln x w = (Raise e, autocast_exit ctx w'))
     /\ (rms_norm x (RMSNorm.weight rms) (RMSNorm.eps rms) entered
           = (Raise e, w') ->
         LPRMSNorm.forward rms x w = (Raise e, autocast_exit ctx w')))
  /\ (autocast_enter false (t_device_type x) w = (Raise e, w') ->
      LPLayerNorm.forward ln x w = (Raise e, w')
      /\ LPRMSNorm.forward rms x w = (Raise e, w')).
Proof.
  intros Hpjrt Hoff.
  assert (Hopt : forall v : option Tensor,
            if_not_None _cast_if_autocast_enabled v w = (Ok v, w)).
  { intros [t |]; simpl; [| reflexivity].
    rewrite (bind_Ok _ _ _ _ _ (cast_autocast_off t w Hoff)). reflexivity. }
  split; [intros ctx entered Ee; split; intros E | intros Ee; split].
  - unfold LPLayerNorm.forward. rewrite gets_bind, Hpjrt.
    rewrite (bind_Ok _ _ _ _ _ (cast_autocast_off x w Hoff)).
    rewrite (bind_Ok _ _ _ _ _ (Hopt _)), (bind_Ok _ _ _ _ _ (Hopt _)).
    unfold with_autocast. rewrite Ee, E. reflexivity.
  - unfold LPRMSNorm.forward. rewrite gets_bind, Hpjrt.
    rewrite (bind_Ok _ _ _ _ _ (cast_autocast_off x w Hoff)).
    rewrite (bind_Ok _ _ _ _ _ (Hopt _)).
    unfold with_autocast. rewrite Ee.
    rewrite (bind_Raise _ _ _ _ _ E). reflexivity.
  - unfold LPLayerNorm.forward. rewrite gets_bind, Hpjrt.
    rewrite (bind_Ok _ _ _ _ _ (cast_autocast_off x w Hoff)).
    rewrite (bind_Ok _ _ _ _ _ (Hopt _)), (bind_Ok _ _ _ _ _ (Hopt _)).
    unfold with_autocast. rewrite Ee. reflexivity.
  - unfold LPRMSNorm.forward. rewrite gets_bind, Hpjrt.
    rewrite (bind_Ok _ _ _ _ _ (cast_autocast_off x w Hoff)).
    rewrite (bind_Ok _ _ _ _ _ (Hopt _)).
    unfold with_autocast. rewrite Ee. reflexivity.
Qed.

(** ** The shape of what rms_norm returns *)

(** X4: [rms_norm] puts no condition of its own on the weight: what it
    returns has the shape of [x] when there is no weight, and otherwise the
    shape [x] and the weight broadcast to, which is not the shape of [x]
    when the weight has more, or longer, dimensions. *)
Theorem rms_norm_broadcast_shape `{Torch} `{!ShapeLaws}
    (x : Tensor) (weight : option Tensor) (eps : pyfloat)
    (w w' : world) (y : Tensor) :
  rms_norm x weight eps w = (Ok y, w') ->
  match weight with
  | None => t_shape y = t_shape x
  | Some wt => broadcast_shapes (t_shape x) (t_shape wt) = Some (t_shape y)
  end.
Proof.
  intros E. unfold rms_norm in E.
  apply bind_inv in E as (x2 & w1 & E1 & E).
  apply bind_inv in E as (ms & w2 & E2 & E).
  apply bind_inv in E as (s & w3 & E3 & E).
  apply bind_inv in E as (r & w4 & E4 & E).
  apply bind_inv in E as (o & w5 & E5 & E).
  assert (Ho : t_shape o = t_shape x).
  { pose proof (mul_shape _ _ _ _ _ E5) as B.
    rewrite (rsqrt_shape _ _ _ _ E4), (add_scalar_shape _ _ _ _ _ E3),
      (mean_shape _ _ _ _ E2), (pow_shape _ _ _ _ _ E1),
      broadcast_shapes_keepdim in B.
    congruence. }
  destruct weight as [wt |].
  - rewrite <- Ho. eapply mul_shape. exact E.
  - injection E as <- _. exact Ho.
Qed.

(** ** More of the reference runtime *)

#[global] Instance Ref_state_laws : StateLaws (H := ref_torch).
Proof.
  split; try (intros; intros w; simpl).
  - reflexivity.
  - reflexivity.
  - unfold Ref.mean. destruct (_ || _); reflexivity.
  - reflexivity.
  - reflexivity.
  - unfold Ref.mul.
    destruct (Ref.common_device a b),
      (broadcast_shapes (Ref.shape a) (Ref.shape b)); reflexivity.
  - unfold Ref.layer_norm. destruct (_ && _); reflexivity.
  - intros enabled dev w ctx w1 E.
    exact (Ref_autocast_restore enabled dev w ctx w1 E).
  - intros enabled dev w e w1 E. simpl in E. unfold Ref.autocast_enter in E.
    destruct (bool_decide (dev ∈ Ref.autocast_devices w));
      [discriminate E | injection E as _ <-; reflexivity].
Qed.

Lemma agree_suppressed (w : Ref.world) (dev : string) :
  Ref.is_autocast_enabled w = false ->
  agree w (Ref.set_autocast dev false w).
Proof.
  intros Hoff. unfold agree. rewrite is_autocast_enabled_set, Hoff.
  destruct (String.eqb dev "cuda"); reflexivity.
Qed.

Lemma Ref_cast_off_any (t : Ref.tensor) (w : Ref.world) :
  Ref.is_autocast_enabled w = false ->
  _cast_if_autocast_enabled (H := ref_torch) t w = (Ok t, w).
Proof. intros Hoff. exact (cast_autocast_off (H := ref_torch) t w Hoff). Qed.

Lemma Ref_if_not_None_cast_off_any (v : option Ref.tensor) (w : Ref.world) :
  Ref.is_autocast_enabled w = false ->
  if_not_None (H := ref_torch) _cast_if_autocast_enabled v w = (Ok v, w).
Proof.
  intros Hoff. destruct v as [t |]; simpl; [| reflexivity].
  rewrite (bind_Ok _ _ _ _ _ (Ref_cast_off_any t w Hoff)). reflexivity.
Qed.

(** X5: with autocast off, in the reference runtime, the low-precision
    classes are their base classes wherever their [torch.autocast] block
    can be entered, that is in pjrt mode, where it is not built, and on
    every device type [torch.autocast] has support for:
    [LPLayerNorm.forward] returns (or raises) exactly what
    [torch.nn.LayerNorm.forward] does, for every input, and
    [LPRMSNorm.forward] exactly what [RMSNorm.forward] does for every
    float32 input.  On any other device type, outside pjrt mode, the two
    low-precision [forward]s raise [RuntimeError] whatever their base
    classes do. *)
Theorem LP_is_base_without_autocast (w : Ref.world) (x : Ref.tensor) :
  Ref.is_autocast_enabled w = false ->
  (Ref.pjrt w = true \/ Ref.device_type x ∈ Ref.autocast_devices w ->
   (forall ln : LayerNorm.t,
      LPLayerNorm.forward ln x w = LayerNorm.forward ln x w)
   /\ (forall rms : RMSNorm.t,
         Ref.dtype_of x = float32 ->
         LPRMSNorm.forward rms x w = RMSNorm.forward rms x w))
  /\ (Ref.pjrt w = false -> Ref.device_type x ∉ Ref.autocast_devices w ->
      (forall ln : LayerNorm.t,
         LPLayerNorm.forward ln x w = (Raise RuntimeError, w))
      /\ (forall rms : RMSNorm.t,
            LPRMSNorm.forward rms x w = (Raise RuntimeError, w))).
Proof.
  intros Hoff.
  assert (Hpair : forall (A : Type) (p q : result A * Ref.world),
            p.1 = q.1 -> p.2 = q.2 -> p = q).
  { intros A [p1 p2] [q1 q2]. simpl. congruence. }
  split.
  - intros Hin. split.
    + intros ln. apply Hpair.
      * unfold LPLayerNorm.forward, LayerNorm.forward. rewrite gets_bind.
        change (@using_pjrt ref_torch w) with (Ref.pjrt w).
        destruct (Ref.pjrt w); [reflexivity |].
        destruct Hin as [Hin | Hin]; [discriminate Hin |].
        rewrite (bind_Ok _ _ _ _ _ (Ref_cast_off_any x w Hoff)).
        rewrite (bind_Ok _ _ _ _ _ (Ref_if_not_None_cast_off_any _ w Hoff)).
        rewrite (bind_Ok _ _ _ _ _ (Ref_if_not_None_cast_off_any _ w Hoff)).
        rewrite with_autocast_fst by exact Hin. symmetry.
        apply respects_layer_norm, agree_suppressed, Hoff.
      * exact (eq_trans
                 (keeps_world_forward (H := ref_torch)
                    (obj_LPLayerNorm ln) x w)
                 (eq_sym (keeps_world_forward (H := ref_torch)
                            (obj_LayerNorm ln) x w))).
    + intros rms Hx. apply Hpair.
      * unfold LPRMSNorm.forward, RMSNorm.forward. rewrite !gets_bind.
        change (@using_pjrt ref_torch w) with (Ref.pjrt w).
        destruct (Ref.pjrt w); [reflexivity |].
        destruct Hin as [Hin | Hin]; [discriminate Hin |].
        rewrite (bind_Ok _ _ _ _ _ (Ref_cast_off_any x w Hoff)).
        rewrite (bind_Ok _ _ _ _ _ (Ref_if_not_None_cast_off_any _ w Hoff)).
        rewrite with_autocast_fst by exact Hin. unfold float.
        assert (Ex : @to ref_torch x float32 w = (Ok x, w)).
        { simpl. unfold Ref.to. rewrite <- Hx, Ref_cast_same. reflexivity. }
        rewrite (bind_Ok _ _ _ _ _ Ex). symmetry.
        assert (Hbody : respects (y <- rms_norm (H := ref_torch) x
                                         (RMSNorm.weight rms)
                                         (RMSNorm.eps rms) ;;
                                  to y (t_dtype x))).
        { apply respects_bind; [apply respects_rms_norm |].
          intros y. apply respects_to. }
        apply Hbody, agree_suppressed, Hoff.
      * exact (eq_trans
                 (keeps_world_forward (H := ref_torch)
                    (obj_LPRMSNorm rms) x w)
                 (eq_sym (keeps_world_forward (H := ref_torch)
                            (obj_RMSNorm rms) x w))).
  - intros Hpjrt Hout. split.
    + intros ln. unfold LPLayerNorm.forward. rewrite gets_bind.
      change (@using_pjrt ref_torch w) with (Ref.pjrt w). rewrite Hpjrt.
      rewrite (bind_Ok _ _ _ _ _ (Ref_cast_off_any x w Hoff)).
      rewrite (bind_Ok _ _ _ _ _ (Ref_if_not_None_cast_off_any _ w Hoff)).
      rewrite (bind_Ok _ _ _ _ _ (Ref_if_not_None_cast_off_any _ w Hoff)).
      apply with_autocast_refused. exact Hout.
    + intros rms. unfold LPRMSNorm.forward. rewrite gets_bind.
      change (@using_pjrt ref_torch w) with (Ref.pjrt w). rewrite Hpjrt.
      rewrite (bind_Ok _ _ _ _ _ (Ref_cast_off_any x w Hoff)).
      rewrite (bind_Ok _ _ _ _ _ (Ref_if_not_None_cast_off_any _ w Hoff)).
      apply with_autocast_refused. exact Hout.
Qed.

(** ** What the helper and LPLayerNorm return *)

(** X6: in the reference runtime the helper is idempotent: what it returns
    it returns again, itself, when it is given it in the same world. *)
Theorem cast_if_autocast_enabled_idempotent (t t' : Ref.tensor)
    (w w' : Ref.world) :
  _cast_if_autocast_enabled (H := ref_torch) t w = (Ok t', w') ->
  w' = w
  /\ Ref.device_type t' = Ref.device_type t
  /\ Ref.shape t' = Ref.shape t
  /\ _cast_if_autocast_enabled (H := ref_torch) t' w = (Ok t', w).
Proof.
  intros E. destruct (Ref_cast_inv _ _ _ _ E) as [-> Hd].
  split; [reflexivity |]. split; [exact Hd |].
  split; [exact (cast_if_autocast_enabled_shape (H := ref_torch) _ _ _ _ E) |].
  revert E. unfold _cast_if_autocast_enabled. rewrite !gets_bind.
  destruct (@is_autocast_enabled ref_torch w);
    [| intros [= <-]; reflexivity].
  change (@t_device_type ref_torch t') with (Ref.device_type t').
  change (@t_device_type ref_torch t) with (Ref.device_type t).
  rewrite Hd.
  destruct (String.eqb (Ref.device_type t) "cuda");
    [| destruct (String.eqb (Ref.device_type t) "cpu")];
    unfold bind, gets, raise; simpl; unfold Ref.to;
    try discriminate; intros [= <-];
    rewrite <- (Ref_cast_dtype t _) at 2; rewrite Ref_cast_same;
    reflexivity.
Qed.

Lemma cast_on_cuda `{Torch} (t : Tensor) (w : world) :
  is_autocast_enabled w = true -> t_device_type t = "cuda" ->
  _cast_if_autocast_enabled t w = to t (get_autocast_gpu_dtype w) w.
Proof.
  intros Hon Hdev. unfold _cast_if_autocast_enabled, bind, gets.
  rewrite Hon, Hdev. reflexivity.
Qed.

Lemma cast_on_cpu `{Torch} (t : Tensor) (w : world) :
  is_autocast_enabled w = true -> t_device_type t = "cpu" ->
  _cast_if_autocast_enabled t w = to t (get_autocast_cpu_dtype w) w.
Proof.
  intros Hon Hdev. unfold _cast_if_autocast_enabled, bind, gets.
  rewrite Hon, Hdev. reflexivity.
Qed.

(** X7: outside pjrt mode, in the reference runtime, the tensor
    [LPLayerNorm.forward] returns has the dtype of the downcast input: the
    dtype of [x] with autocast off, and with autocast on the autocast GPU
    dtype for a ['cuda'] input and the autocast CPU dtype for a ['cpu']
    input, whatever the dtype of [x] is. *)
Theorem LPLayerNorm_output_dtype (self : LayerNorm.t) (x y : Ref.tensor)
    (w w' : Ref.world) :
  Ref.pjrt w = false ->
  LPLayerNorm.forward self x w = (Ok y, w') ->
  (Ref.is_autocast_enabled w = false -> Ref.dtype_of y = Ref.dtype_of x)
  /\ (Ref.is_autocast_enabled w = true -> Ref.device_type x = "cuda" ->
      Ref.dtype_of y = Ref.autocast_gpu_dtype w)
  /\ (Ref.is_autocast_enabled w = true -> Ref.device_type x = "cpu" ->
      Ref.dtype_of y = Ref.autocast_cpu_dtype w).
Proof.
  intros Hpjrt E.
  destruct (Ref_LPLayerNorm_forward_dtype self x y w w' Hpjrt E)
    as (cx & Ecx & ->).
  split; [| split].
  - intros Hoff. rewrite (Ref_cast_off_any x w Hoff) in Ecx.
    injection Ecx as <-. reflexivity.
  - intros Hon Hdev.
    rewrite (cast_on_cuda (H := ref_torch) x w Hon Hdev) in Ecx.
    injection Ecx as <-. apply Ref_cast_dtype.
  - intros Hon Hdev.
    rewrite (cast_on_cpu (H := ref_torch) x w Hon Hdev) in Ecx.
    injection Ecx as <-. apply Ref_cast_dtype.
Qed.

(** ** rms_norm is odd *)

Lemma binary_round_aux_opp (p e : Z) (s : bool) (m ex : Z) (l : location) :
  binary_round_aux p e (negb s) m ex l
  = SFopp (binary_round_aux p e s m ex l).
Proof.
  unfold binary_round_aux.
  destruct (shr_fexp p e m ex l) as [mrs' e'].
  destruct (shr_fexp p e _ e' loc_Exact) as [mrs'' e''].
  destruct (shr_m mrs''); [reflexivity | | reflexivity].
  destruct (Z.leb e'' (e - p)); reflexivity.
Qed.

Lemma SFmul_opp_l (p e : Z) (a b : spec_float) :
  SFmul p e (SFopp a) b = SFopp (SFmul p e a b).
Proof.
  destruct a as [sa | sa | | sa ma ea], b as [sb | sb | | sb mb eb];
    simpl; try reflexivity;
    try (destruct sa, sb; reflexivity).
  rewrite <- binary_round_aux_opp. destruct sa, sb; reflexivity.
Qed.

Lemma SFmul_opp_opp (p e : Z) (a b : spec_float) :
  SFmul p e (SFopp a) (SFopp b) = SFmul p e a b.
Proof.
  destruct a as [sa | sa | | sa ma ea], b as [sb | sb | | sb mb eb];
    simpl; try reflexivity; destruct sa, sb; reflexivity.
Qed.

Lemma round_to_opp (d : dtype) (v : spec_float) :
  round_to d (SFopp v) = SFopp (round_to d v).
Proof.
  destruct v as [s | s | | s m e]; try reflexivity.
  unfold round_to, SFopp at 1.
  destruct s; simpl; unfold binary_round;
    destruct (shl_align _ _ _) as [mz ez].
  - exact (binary_round_aux_opp _ _ true (Zpos mz) ez loc_Exact).
  - exact (binary_round_aux_opp _ _ false (Zpos mz) ez loc_Exact).
Qed.

Lemma square_opp (d : dtype) (v : spec_float) :
  lift1 d (fpow 2) (SFopp v) = lift1 d (fpow 2) v.
Proof.
  unfold lift1, fpow. simpl. unfold fmul.
  rewrite round_to_opp, SFmul_opp_opp. reflexivity.
Qed.

Lemma lift2_fmul_opp (d : dtype) (a b : spec_float) :
  lift2 d fmul (SFopp a) b = SFopp (lift2 d fmul a b).
Proof.
  unfold lift2, fmul. rewrite round_to_opp, SFmul_opp_l, round_to_opp.
  reflexivity.
Qed.

Lemma Ref_cast_neg (t : Ref.tensor) (d : dtype) :
  Ref.cast (neg t) d = neg (Ref.cast t d).
Proof.
  unfold Ref.cast, neg. simpl.
  destruct (dtype_eqb (Ref.dtype_of t) d); [reflexivity |].
  unfold Ref.with_data. simpl. f_equal. rewrite !map_map.
  apply map_ext. intros v. apply round_to_opp.
Qed.

Lemma Ref_autocast_fp32_neg (w : Ref.world) (t : Ref.tensor) :
  Ref.autocast_fp32 w (neg t) = neg (Ref.autocast_fp32 w t).
Proof.
  unfold Ref.autocast_fp32. simpl.
  destruct (_ && _); [| reflexivity].
  destruct (Ref.dtype_of t); auto using Ref_cast_neg.
Qed.

Lemma Ref_pow2_neg (t : Ref.tensor) (w : Ref.world) :
  Ref.pow (neg t) 2 w = Ref.pow t 2 w.
Proof.
  unfold Ref.pow. rewrite Ref_autocast_fp32_neg.
  unfold neg, Ref.with_data. simpl. do 3 f_equal.
  rewrite map_map. apply map_ext. intros v. apply square_opp.
Qed.

Lemma chunks_map {A B : Type} (f : A -> B) (k n : nat) (l : list A) :
  chunks k n (map f l) = map (map f) (chunks k n l).
Proof.
  revert l. induction k as [| k IH]; intros l; simpl; [reflexivity |].
  rewrite firstn_map, skipn_map, IH. reflexivity.
Qed.

Lemma concat_replicate_map {A B : Type} (f : A -> B) (b : nat)
    (l : list A) :
  concat (replicate b (map f l)) = map f (concat (replicate b l)).
Proof.
  induction b as [| b IH]; simpl; [reflexivity |].
  rewrite IH, map_app. reflexivity.
Qed.

Lemma expand_map {A B : Type} (f : A -> B) (s t : list nat) (d : list A) :
  expand s t (map f d) = map f (expand s t d).
Proof.
  revert t d. induction s as [| a s IH]; intros t d; [reflexivity |].
  destruct t as [| b t]; [reflexivity |]. simpl.
  destruct (Nat.eqb a b).
  - rewrite chunks_map, map_map, concat_map, map_map. f_equal.
    apply map_ext. intros blk. apply IH.
  - rewrite IH. apply concat_replicate_map.
Qed.

Lemma zip_with_map_opp (F : spec_float -> spec_float -> spec_float)
    (a b : list spec_float) :
  (forall u v, F (SFopp u) v = SFopp (F u v)) ->
  zip_with F (map SFopp a) b = map SFopp (zip_with F a b).
Proof.
  intros HF. revert b. induction a as [| u a IH]; intros [| v b]; simpl;
    try reflexivity.
  rewrite HF, IH. reflexivity.
Qed.

Lemma Ref_mul_neg (a b : Ref.tensor) (w : Ref.world) :
  Ref.mul (neg a) b w = map_result neg (Ref.mul a b w).
Proof.
  unfold Ref.mul.
  change (Ref.common_device (neg a) b) with (Ref.common_device a b).
  change (Ref.shape (neg a)) with (Ref.shape a).
  change (Ref.dtype_of (neg a)) with (Ref.dtype_of a).
  destruct (Ref.common_device a b) as [dev |]; [| reflexivity].
  destruct (broadcast_shapes (Ref.shape a) (Ref.shape b)) as [s |];
    [| reflexivity].
  simpl. unfold neg, Ref.with_data, expand_to. simpl. do 3 f_equal.
  rewrite expand_map. apply zip_with_map_opp. apply lift2_fmul_opp.
Qed.

Lemma rms_norm_neg (x : Ref.tensor) (weight : option Ref.tensor)
    (eps : pyfloat) (w : Ref.world) :
  rms_norm (H := ref_torch) (neg x) weight eps w
  = map_result neg (rms_norm (H := ref_torch) x weight eps w).
Proof.
  unfold rms_norm, bind. simpl pow. rewrite Ref_pow2_neg.
  destruct (Ref.pow x 2 w) as [[x2 | e] w1]; [| reflexivity].
  destruct (@mean ref_torch x2 (-1) true w1) as [[ms | e] w2];
    [| reflexivity].
  destruct (@add_scalar ref_torch ms eps w2) as [[s | e] w3];
    [| reflexivity].
  destruct (@rsqrt ref_torch s w3) as [[r | e] w4]; [| reflexivity].
  simpl mul. rewrite Ref_mul_neg.
  destruct (Ref.mul x r w4) as [[o | e] w5]; [| reflexivity].
  simpl. destruct weight as [wt |]; [| reflexivity].
  apply Ref_mul_neg.
Qed.

Lemma Ref_to_neg (t : Ref.tensor) (d : dtype) (w : Ref.world) :
  Ref.to (neg t) d w = map_result neg (Ref.to t d w).
Proof. unfold Ref.to. simpl. rewrite Ref_cast_neg. reflexivity. Qed.

Lemma bind_map_result {A B : Type} (f : A -> A)
    (m m' : M (H := ref_torch) A) (k k' : A -> M (H := ref_torch) B)
    (g : B -> B) (w : Ref.world) :
  m' w = map_result f (m w) ->
  (forall a w1, k' (f a) w1 = map_result g (k a w1)) ->
  bind m' k' w = map_result g (bind m k w).
Proof.
  intros Hm Hk. unfold bind. rewrite Hm.
  destruct (m w) as [[a | e] w1]; simpl; [apply Hk | reflexivity].
Qed.

Lemma with_autocast_map_result {A : Type} (f : A -> A)
    (enabled : bool) (dev : string) (body body' : M (H := ref_torch) A)
    (w : Ref.world) :
  (forall w1, body' w1 = map_result f (body w1)) ->
  with_autocast enabled dev body' w
  = map_result f (with_autocast enabled dev body w).
Proof.
  intros Hb. unfold with_autocast.
  destruct (@autocast_enter ref_torch enabled dev w) as [[ctx | e] w1];
    [| reflexivity].
  rewrite Hb. destruct (body w1) as [[a | e] w2]; reflexivity.
Qed.

Lemma cast_if_autocast_enabled_neg (t : Ref.tensor) (w : Ref.world) :
  _cast_if_autocast_enabled (H := ref_torch) (neg t) w
  = map_result neg (_cast_if_autocast_enabled (H := ref_torch) t w).
Proof.
  unfold _cast_if_autocast_enabled. rewrite !gets_bind.
  destruct (@is_autocast_enabled ref_torch w); [| reflexivity].
  change (@t_device_type ref_torch (neg t)) with (Ref.device_type t).
  change (@t_device_type ref_torch t) with (Ref.device_type t).
  destruct (String.eqb (Ref.device_type t) "cuda");
    [| destruct (String.eqb (Ref.device_type t) "cpu")];
    unfold bind, gets, raise; simpl; try reflexivity; apply Ref_to_neg.
Qed.

(** X8: in the reference runtime [rms_norm] is an odd function of its
    input, exactly and not only up to rounding: on [-x] it returns the
    negation of what it returns on [x], and raises what it raises on [x],
    for every shape, weight, eps and world; and so do [RMSNorm.forward] and
    [LPRMSNorm.forward]. *)
Theorem rms_norm_odd (x : Ref.tensor) (w : Ref.world) :
  (forall (weight : option Ref.tensor) (eps : pyfloat),
     rms_norm (H := ref_torch) (neg x) weight eps w
     = map_result neg (rms_norm (H := ref_torch) x weight eps w))
  /\ (forall self : RMSNorm.t,
        RMSNorm.forward self (neg x) w
        = map_result neg (RMSNorm.forward self x w))
  /\ (forall self : RMSNorm.t,
        LPRMSNorm.forward self (neg x) w
        = map_result neg (LPRMSNorm.forward self x w)).
Proof.
  assert (Hto : forall d (y : Ref.tensor) w1,
            @to ref_torch (neg y) d w1 = map_result neg (@to ref_torch y d w1))
    by (intros; apply Ref_to_neg).
  split; [intros; apply rms_norm_neg | split; intros self].
  - unfold RMSNorm.forward. rewrite !gets_bind.
    destruct (@using_pjrt ref_torch w).
    + apply (bind_map_result neg); [apply rms_norm_neg |].
      intros y w1. apply Hto.
    + unfold float. apply (bind_map_result neg); [apply Hto |].
      intros xf w1. apply (bind_map_result neg); [apply rms_norm_neg |].
      intros y w2. apply Hto.
  - unfold LPRMSNorm.forward. rewrite !gets_bind.
    destruct (@using_pjrt ref_torch w).
    + apply (bind_map_result neg); [apply rms_norm_neg |].
      intros y w1. apply Hto.
    + apply (bind_map_result neg); [apply cast_if_autocast_enabled_neg |].
      intros cx w1. unfold bind at 1 3.
      destruct (if_not_None _cast_if_autocast_enabled (RMSNorm.weight self) w1)
        as [[cw | e] w2]; [| reflexivity].
      apply with_autocast_map_result. intros w3.
      apply (bind_map_result neg); [apply rms_norm_neg |].
      intros y w4. apply Hto.
Qed.

(** ** When rms_norm returns and when it raises *)

Lemma Ref_common_device_ext (a a' b : Ref.tensor) :
  Ref.device_type a' = Ref.device_type a -> Ref.shape a' = Ref.shape a ->
  Ref.common_device a' b = Ref.common_device a b.
Proof.
  intros Hd Hs. unfold Ref.common_device. rewrite Hd, Hs. reflexivity.
Qed.

(** X9: in the reference runtime [rms_norm] without a weight returns for
    every tensor, of any rank, empty or not, a tensor of the same shape on
    the same device.  With a weight it returns exactly when the weight is on
    a device compatible with that of [x] and the two shapes broadcast, and
    the result then has the broadcast shape; in every other case it raises
    [RuntimeError], which comes from the last multiplication.  The world is
    left as it was in all cases. *)
Theorem rms_norm_outcome (x : Ref.tensor) (weight : option Ref.tensor)
    (eps : pyfloat) (w : Ref.world) :
  match weight with
  | None =>
      exists y, rms_norm (H := ref_torch) x None eps w = (Ok y, w)
                /\ Ref.shape y = Ref.shape x
                /\ Ref.device_type y = Ref.device_type x
  | Some wt =>
      match Ref.common_device x wt,
            broadcast_shapes (Ref.shape x) (Ref.shape wt) with
      | Some dev, Some s =>
          exists y, rms_norm (H := ref_torch) x (Some wt) eps w = (Ok y, w)
                    /\ Ref.shape y = s /\ Ref.device_type y = dev
      | _, _ =>
          rms_norm (H := ref_torch) x (Some wt) eps w
          = (Raise RuntimeError, w)
      end
  end.
Proof.
  destruct (Ref_rms_norm_returns x None eps w) as (o & Eo & So & Do);
    [intros wt [=] |].
  destruct weight as [wt |]; [| exists o; auto].
  rewrite (rms_norm_None (H := ref_torch)) in Eo.
  rewrite <- (Ref_common_device_ext x o wt Do So), <- So.
  rewrite (rms_norm_Some (H := ref_torch)), (bind_Ok _ _ _ _ _ Eo).
  simpl mul. unfold Ref.mul.
  destruct (Ref.common_device o wt) as [dev |]; [| reflexivity].
  destruct (broadcast_shapes (Ref.shape o) (Ref.shape wt)) as [s |];
    [| reflexivity].
  eexists. repeat split.
Qed.

(** ** Rows *)

Lemma fold_fadd_nan (d : dtype) (l : list spec_float) :
  foldl (fadd d) S754_nan l = S754_nan.
Proof. induction l as [| v l IH]; simpl; [reflexivity | exact IH]. Qed.

Lemma fadd_nan_r (d : dtype) (a : spec_float) : fadd d a S754_nan = S754_nan.
Proof. destruct a; reflexivity. Qed.

Lemma fdiv_nan_r (d : dtype) (a : spec_float) : fdiv d a S754_nan = S754_nan.
Proof. destruct a; reflexivity. Qed.

Lemma fmul_nan_r (d : dtype) (a : spec_float) : fmul d a S754_nan = S754_nan.
Proof. destruct a; reflexivity. Qed.

Lemma fold_fadd_In_nan (d : dtype) (l : list spec_float) (acc : spec_float) :
  In S754_nan l -> foldl (fadd d) acc l = S754_nan.
Proof.
  revert acc. induction l as [| v l IH]; intros acc; simpl; [tauto |].
  intros [-> | Hin].
  - rewrite fadd_nan_r. apply fold_fadd_nan.
  - apply IH. exact Hin.
Qed.

Lemma row_mean_In_nan (d : dtype) (row : list spec_float) :
  In S754_nan row -> row_mean d row = S754_nan.
Proof.
  intros Hin. unfold row_mean, fmean.
  rewrite (fold_fadd_In_nan (opmath d)).
  - reflexivity.
  - apply in_map_iff. exists S754_nan. split; [reflexivity | exact Hin].
Qed.

(** A row with a NaN in it is NaN throughout after [rms_row]. *)
Lemma rms_row_nan (d : dtype) (eps : pyfloat) (row : list spec_float) :
  In S754_nan row -> rms_row d eps row = replicate (length row) S754_nan.
Proof.
  intros Hin. unfold rms_row.
  rewrite row_mean_In_nan.
  - replace (lift1 d frsqrt (lift2 d fadd S754_nan eps)) with S754_nan.
    2:{ unfold lift1, lift2, frsqrt. simpl round_to at 4.
        replace (fadd (opmath d) S754_nan (round_to (opmath d) eps))
          with S754_nan by (destruct (round_to (opmath d) eps); reflexivity).
        simpl. rewrite fdiv_nan_r. reflexivity. }
    clear Hin. induction row as [| v row IH]; simpl; [reflexivity |].
    rewrite IH. f_equal. unfold lift2. rewrite fmul_nan_r. reflexivity.
  - apply in_map_iff. exists S754_nan. split; [reflexivity | exact Hin].
Qed.

(** X10: in the reference runtime, with autocast off, [rms_norm] treats the
    rows of a two-dimensional input one by one: the output row [i] is a
    function of the input row [i] alone ([rms_row]), so the output for two
    batches stacked is the two outputs stacked; and a row that holds a NaN
    comes out as NaN in every position, while the other rows are what they
    would be without it. *)
Theorem rms_norm_row_by_row (d : dtype) (dev : string) (n : nat)
    (rows : list (list spec_float)) (eps : pyfloat) (w : Ref.world) :
  Forall (fun row => length row = n) rows ->
  Ref.is_autocast_enabled w = false ->
  exists out : list (list spec_float),
    rms_norm (H := ref_torch)
      {| Ref.dtype_of := d; Ref.device_type := dev;
         Ref.shape := [length rows; n]; Ref.data := concat rows |} None eps w
    = (Ok {| Ref.dtype_of := d; Ref.device_type := dev;
             Ref.shape := [length rows; n]; Ref.data := concat out |}, w)
    /\ length out = length rows
    /\ (forall i row, rows !! i = Some row ->
          out !! i = Some (rms_row d eps row)
          /\ (In S754_nan row -> out !! i = Some (replicate n S754_nan)))
    /\ (forall rows1 rows2, rows = rows1 ++ rows2 ->
          out = map (rms_row d eps) rows1 ++ map (rms_row d eps) rows2).
Proof.
  intros Hrows Hoff. exists (map (rms_row d eps) rows).
  split; [apply Ref_rms_norm_rows; assumption |].
  split; [apply length_map |]. split.
  - intros i row Hi.
    assert (Ho : map (rms_row d eps) rows !! i = Some (rms_row d eps row)).
    { change (map (rms_row d eps) rows) with (rms_row d eps <$> rows).
      rewrite list_lookup_fmap, Hi. reflexivity. }
    split; [exact Ho |]. intros Hnan. rewrite Ho, rms_row_nan by exact Hnan.
    rewrite Forall_forall in Hrows.
    rewrite (Hrows row) by (eapply list_elem_of_lookup_2; exact Hi).
    reflexivity.
  - intros rows1 rows2 ->. apply map_app.
Qed.

(** ** Rounding: what [binary_round] returns is a number of the format *)

Lemma iter_pos_nat {A : Type} (f : A -> A) (n : positive) (x : A) :
  SpecFloat.iter_pos f n x = Nat.iter (Pos.to_nat n) f x.
Proof.
  revert x. induction n as [n IH | n IH |]; intros x.
  - change (SpecFloat.iter_pos f n~1 x)
      with (SpecFloat.iter_pos f n (SpecFloat.iter_pos f n (f x))).
    rewrite !IH, Pos2Nat.inj_xI.
    replace (S (2 * Pos.to_nat n)) with (Pos.to_nat n + S (Pos.to_nat n))%nat
      by lia.
    rewrite Nat.iter_add, Nat.iter_succ_r. reflexivity.
  - change (SpecFloat.iter_pos f n~0 x)
      with (SpecFloat.iter_pos f n (SpecFloat.iter_pos f n x)).
    rewrite !IH, Pos2Nat.inj_xO.
    replace (2 * Pos.to_nat n)%nat with (Pos.to_nat n + Pos.to_nat n)%nat
      by lia.
    rewrite Nat.iter_add. reflexivity.
  - reflexivity.
Qed.

Lemma digits2_pos_size (m : positive) : digits2_pos m = Pos.size m.
Proof. induction m as [m IH | m IH |]; simpl; congruence. Qed.

Lemma Zdigits2_log2 (m : positive) :
  Zdigits2 (Zpos m) = Z.log2 (Zpos m) + 1.
Proof.
  unfold Zdigits2. rewrite digits2_pos_size.
  destruct m as [m | m |]; simpl Pos.size; simpl Z.log2;
    rewrite ?Pos2Z.inj_succ; lia.
Qed.

Lemma digits2_pos_shift (k : nat) (m : positive) :
  Zpos (digits2_pos (Nat.iter k xO m)) = Zpos (digits2_pos m) + Z.of_nat k.
Proof.
  induction k as [| k IH]; [simpl; lia |].
  change (Nat.iter (S k) xO m) with (xO (Nat.iter k xO m)).
  simpl digits2_pos. rewrite Pos2Z.inj_succ, IH. lia.
Qed.

Lemma shr_1_m (mrs : shr_record) :
  0 <= shr_m mrs -> shr_m (shr_1 mrs) = Z.div2 (shr_m mrs).
Proof.
  destruct mrs as [m r s]. simpl.
  destruct m as [| [p | p |] | p]; simpl; try reflexivity; lia.
Qed.

Lemma shr_iter_m (k : nat) (mrs : shr_record) :
  0 <= shr_m mrs ->
  shr_m (Nat.iter k shr_1 mrs) = Z.shiftr (shr_m mrs) (Z.of_nat k).
Proof.
  intros Hm. induction k as [| k IH]; [reflexivity |].
  change (Nat.iter (S k) shr_1 mrs) with (shr_1 (Nat.iter k shr_1 mrs)).
  assert (H0 : 0 <= shr_m (Nat.iter k shr_1 mrs))
    by (rewrite IH; apply Z.shiftr_nonneg; exact Hm).
  rewrite shr_1_m, IH by exact H0.
  rewrite Z.div2_spec, Z.shiftr_shiftr by lia.
  f_equal. lia.
Qed.

Lemma shr_iter_exact (k : nat) (m : positive) :
  Nat.iter k shr_1 (shr_exact (Zpos (Nat.iter k xO m))) = shr_exact (Zpos m).
Proof.
  induction k as [| k IH]; [reflexivity |].
  rewrite Nat.iter_succ_r.
  change (Nat.iter (S k) xO m) with (xO (Nat.iter k xO m)).
  exact IH.
Qed.

Lemma shift_cancel (a b c : nat) (m : positive) :
  Nat.iter (a + c) shr_1 (shr_exact (Zpos (Nat.iter (c + b) xO m)))
  = Nat.iter a shr_1 (shr_exact (Zpos (Nat.iter b xO m))).
Proof. rewrite !Nat.iter_add, shr_iter_exact. reflexivity. Qed.

Lemma Zdigits2_nonneg (m : Z) : 0 <= Zdigits2 m.
Proof. destruct m; simpl; lia. Qed.

Lemma Zdigits2_mono (a b : Z) : 0 <= a <= b -> Zdigits2 a <= Zdigits2 b.
Proof.
  intros [Ha Hab]. destruct a as [| a | a]; [apply Zdigits2_nonneg | | lia].
  destruct b as [| b | b]; try lia.
  rewrite !Zdigits2_log2.
  pose proof (Z.log2_le_mono (Zpos a) (Zpos b) Hab). lia.
Qed.

Lemma Zdigits2_shiftr (m : positive) (n : Z) :
  0 <= n -> 0 < Z.shiftr (Zpos m) n ->
  Zdigits2 (Z.shiftr (Zpos m) n) = Zdigits2 (Zpos m) - n.
Proof.
  intros Hn Hpos.
  destruct (Z.shiftr (Zpos m) n) as [| p | p] eqn:E; try lia.
  rewrite !Zdigits2_log2, <- E, Z.log2_shiftr by lia.
  assert (~ Z.log2 (Zpos m) < n).
  { intros Hlt.
    rewrite (Z.shiftr_eq_0 (Zpos m) n) in E by (lia || exact Hlt).
    discriminate E. }
  lia.
Qed.

Lemma round_nearest_even_bounds (m : Z) (l : location) :
  m <= round_nearest_even m l <= m + 1.
Proof.
  destruct l as [| []]; simpl; try destruct (Z.even m); lia.
Qed.

Lemma pos_mul_shift (k : nat) (m : positive) :
  (m * Nat.iter k xO 1)%positive = Nat.iter k xO m.
Proof.
  induction k as [| k IH]; simpl; [apply Pos.mul_1_r |].
  rewrite Pos.mul_xO_r, IH. reflexivity.
Qed.

Section Format.
Variables prec emax : Z.
Hypothesis Hprec : 0 < prec.

Lemma fexp_mono (a b : Z) : a <= b -> fexp prec emax a <= fexp prec emax b.
Proof. unfold SpecFloat.fexp. lia. Qed.

Lemma shr_fexp_spec (m e : Z) (l : location) :
  e <= fexp prec emax (Zdigits2 m + e) ->
  shr_fexp prec emax m e l
  = (Nat.iter (Z.to_nat (fexp prec emax (Zdigits2 m + e) - e)) shr_1
       (shr_record_of_loc m l),
     fexp prec emax (Zdigits2 m + e)).
Proof.
  intros Hle. unfold shr_fexp, shr.
  destruct (fexp prec emax (Zdigits2 m + e) - e) as [| p | p] eqn:E; try lia.
  - simpl. f_equal. lia.
  - rewrite iter_pos_nat. simpl Z.to_nat. f_equal. lia.
Qed.

Lemma shl_align_spec (m : positive) (e t : Z) :
  shl_align m e t = (Nat.iter (Z.to_nat (e - t)) xO m, Z.min e t).
Proof.
  unfold shl_align.
  destruct (t - e) as [| p | p] eqn:E.
  - replace (e - t) with 0 by lia. simpl. f_equal. lia.
  - replace (Z.to_nat (e - t)) with 0%nat by lia. simpl. f_equal. lia.
  - rewrite Pos2Nat.inj_iter.
    replace (Z.to_nat (e - t)) with (Pos.to_nat p) by lia.
    f_equal. lia.
Qed.

(** [binary_round] in two steps: the mantissa aligned to the exponent of
    the format, left or right, and then the rest of [binary_round_aux]. *)
Lemma binary_round_unfold (s : bool) (m : positive) (e : Z) :
  binary_round prec emax s m e
  = round_finish prec emax s (first_shift prec emax m e)
      (fexp prec emax (Zpos (digits2_pos m) + e)).
Proof.
  unfold binary_round, first_shift, round_finish, binary_round_aux.
  set (t := fexp prec emax (Zpos (digits2_pos m) + e)).
  rewrite shl_align_spec.
  assert (D : Zdigits2 (Zpos (Nat.iter (Z.to_nat (e - t)) xO m)) + Z.min e t
              = Zpos (digits2_pos m) + e).
  { unfold Zdigits2. rewrite digits2_pos_shift. lia. }
  rewrite shr_fexp_spec; rewrite D; fold t; [| lia].
  reflexivity.
Qed.

(** A number of the format is returned as it is. *)
Lemma binary_round_bounded (s : bool) (m : positive) (e : Z) :
  bounded prec emax m e = true ->
  binary_round prec emax s m e = S754_finite s m e.
Proof.
  unfold bounded, canonical_mantissa.
  intros [Hc Hb]%andb_true_iff. apply Z.eqb_eq in Hc.
  rewrite binary_round_unfold. unfold first_shift, round_finish.
  rewrite Hc, Z.min_id, Z.sub_diag. simpl Nat.iter. simpl shr_m.
  simpl loc_of_shr_record. simpl round_nearest_even.
  rewrite shr_fexp_spec; simpl Zdigits2; rewrite Hc; [| lia].
  rewrite Z.sub_diag. simpl. rewrite Hb. reflexivity.
Qed.

(** The value decides: a mantissa with [k] more zero bits and an exponent
    [k] less round to the same number. *)
Lemma binary_round_scale (s : bool) (m : positive) (e : Z) (k : nat) :
  binary_round prec emax s (Nat.iter k xO m) (e - Z.of_nat k)
  = binary_round prec emax s m e.
Proof.
  rewrite !binary_round_unfold.
  assert (D : Zpos (digits2_pos (Nat.iter k xO m)) + (e - Z.of_nat k)
              = Zpos (digits2_pos m) + e)
    by (rewrite digits2_pos_shift; lia).
  unfold first_shift. rewrite D.
  set (t := fexp prec emax (Zpos (digits2_pos m) + e)).
  f_equal. rewrite <- Nat.iter_add.
  set (a := Z.to_nat (t - Z.min e t)).
  set (b := Z.to_nat (e - t)).
  set (c := (Z.to_nat (t - Z.min (e - Z.of_nat k) t) - a)%nat).
  replace (Z.to_nat (t - Z.min (e - Z.of_nat k) t)) with (a + c)%nat
    by (unfold c, a; lia).
  replace (Z.to_nat (e - Z.of_nat k - t) + k)%nat with (c + b)%nat
    by (unfold c, a, b; lia).
  apply shift_cancel.
Qed.

(** When the exponent is not above the one of the format there is nothing
    to align. *)
Lemma binary_round_aligned (s : bool) (m : positive) (e : Z) :
  e <= fexp prec emax (Zpos (digits2_pos m) + e) ->
  binary_round_aux prec emax s (Zpos m) e loc_Exact
  = binary_round prec emax s m e.
Proof.
  intros Hle. unfold binary_round. rewrite shl_align_spec.
  replace (Z.to_nat (e - fexp prec emax (Zpos (digits2_pos m) + e)))
    with 0%nat by lia.
  rewrite Z.min_l by exact Hle. reflexivity.
Qed.

(** Multiplying by one is rounding. *)
Lemma SFmul_one (s : bool) (m : positive) (e : Z) (k : nat) :
  prec - 1 <= Z.of_nat k ->
  SFmul prec emax (S754_finite s m e)
    (S754_finite false (Nat.iter k xO 1%positive) (- Z.of_nat k))
  = binary_round prec emax s m e.
Proof.
  intros Hk. unfold SFmul.
  rewrite pos_mul_shift, xorb_false_r.
  change (e + - Z.of_nat k) with (e - Z.of_nat k).
  rewrite binary_round_aligned; [apply binary_round_scale |].
  rewrite digits2_pos_shift. unfold fexp.
  pose proof (Pos2Z.is_pos (digits2_pos m)). lia.
Qed.

(** What [binary_round] returns is a number of the format. *)
Lemma binary_round_valid (s : bool) (m : positive) (e : Z) :
  valid_binary prec emax (binary_round prec emax s m e) = true.
Proof.
  rewrite binary_round_unfold. unfold first_shift.
  set (t := fexp prec emax (Zpos (digits2_pos m) + e)).
  set (M := Nat.iter (Z.to_nat (e - t)) xO m).
  set (a := Z.to_nat (t - Z.min e t)).
  set (mrs := Nat.iter a shr_1 (shr_exact (Zpos M))).
  assert (DM : Zdigits2 (Zpos M) + Z.min e t = Zpos (digits2_pos m) + e).
  { unfold M, Zdigits2. rewrite digits2_pos_shift. lia. }
  assert (Hm1 : shr_m mrs = Z.shiftr (Zpos M) (Z.of_nat a)).
  { unfold mrs. rewrite shr_iter_m; [reflexivity | simpl; lia]. }
  assert (H1 : 0 <= shr_m mrs)
    by (rewrite Hm1; apply Z.shiftr_nonneg; lia).
  unfold round_finish.
  set (m2 := round_nearest_even (shr_m mrs) (loc_of_shr_record mrs)).
  pose proof (round_nearest_even_bounds (shr_m mrs) (loc_of_shr_record mrs))
    as Hm2. fold m2 in Hm2.
  assert (P2 : t <= fexp prec emax (Zdigits2 m2 + t)).
  { destruct (Z.eq_dec (shr_m mrs) 0) as [Hz | Hnz].
    - assert (Ht : t = emin prec emax).
      { rewrite Hm1 in Hz. apply Z.shiftr_eq_0_iff in Hz.
        destruct Hz as [Hz | [_ Hz]]; [discriminate Hz |].
        pose proof (Zdigits2_log2 M) as DL.
        unfold t in *. unfold fexp in *. lia. }
      rewrite Ht at 1. unfold fexp. lia.
    - assert (Hd : Zdigits2 (shr_m mrs) + t = Zpos (digits2_pos m) + e).
      { rewrite Hm1, Zdigits2_shiftr by (rewrite <- ?Hm1; lia).
        unfold a, t in *. lia. }
      pose proof (Zdigits2_mono (shr_m mrs) m2) as Hmono.
      pose proof (fexp_mono (Zdigits2 (shr_m mrs) + t) (Zdigits2 m2 + t))
        as Hf.
      rewrite Hd in Hf. fold t in Hf. lia. }
  rewrite shr_fexp_spec by exact P2.
  set (t2 := fexp prec emax (Zdigits2 m2 + t)).
  set (n := Z.to_nat (t2 - t)).
  assert (Hm3 : shr_m (Nat.iter n shr_1 (shr_record_of_loc m2 loc_Exact))
                = Z.shiftr m2 (Z.of_nat n)).
  { rewrite shr_iter_m; [reflexivity | simpl; lia]. }
  rewrite Hm3.
  destruct (Z.shiftr m2 (Z.of_nat n)) as [| p | p] eqn:E3; try reflexivity.
  destruct (Z.leb t2 (emax - prec)) eqn:Hb; [| reflexivity].
  simpl. unfold bounded, canonical_mantissa. rewrite Hb, andb_true_r.
  apply Z.eqb_eq.
  destruct m2 as [| q | q]; try (rewrite Z.shiftr_0_l in E3; discriminate);
    [| lia].
  assert (Hd : Zdigits2 (Z.shiftr (Zpos q) (Z.of_nat n))
               = Zdigits2 (Zpos q) - Z.of_nat n)
    by (apply Zdigits2_shiftr; lia).
  rewrite E3 in Hd. simpl Zdigits2 at 1 in Hd. rewrite Hd.
  unfold n, t2. unfold n, t2 in Hd.
  replace (Zdigits2 (Zpos q) - Z.of_nat (Z.to_nat
             (fexp prec emax (Zdigits2 (Zpos q) + t) - t))
           + fexp prec emax (Zdigits2 (Zpos q) + t))
    with (Zdigits2 (Zpos q) + t) by (fold t2 in P2 |- *; lia).
  reflexivity.
Qed.

End Format.

(** A number of a format is a number of every wider format, with the
    mantissa shifted; rounding it there and then to a third format is
    rounding it to the third. *)
Lemma binary_round_widen (prec emax prec' emax' : Z) (s : bool)
    (m : positive) (e : Z) :
  prec <= prec' -> emax <= emax' ->
  bounded prec emax m e = true ->
  exists (m' : positive) (e' : Z),
    binary_round prec' emax' s m e = S754_finite s m' e'
    /\ forall p q : Z, binary_round p q s m' e' = binary_round p q s m e.
Proof.
  intros Hp He Hb. pose proof Hb as Hb'.
  unfold bounded, canonical_mantissa in Hb'.
  apply andb_true_iff in Hb' as [Hc Hle].
  apply Z.eqb_eq in Hc. apply Z.leb_le in Hle.
  set (D := Zpos (digits2_pos m) + e) in *.
  set (k := Z.to_nat (e - fexp prec' emax' D)).
  assert (Hk : Z.of_nat k = e - fexp prec' emax' D)
    by (unfold k, fexp, emin in *; lia).
  exists (Nat.iter k xO m), (e - Z.of_nat k). split.
  - rewrite <- (binary_round_scale prec' emax' s m e k).
    apply binary_round_bounded.
    unfold bounded, canonical_mantissa.
    rewrite digits2_pos_shift.
    replace (Zpos (digits2_pos m) + Z.of_nat k + (e - Z.of_nat k)) with D
      by (unfold D; lia).
    apply andb_true_iff. split; [apply Z.eqb_eq | apply Z.leb_le].
    + lia.
    + unfold fexp, emin in *. lia.
  - intros p q. apply binary_round_scale.
Qed.

(** ** Numbers of a dtype *)

Lemma prec_of_pos (d : dtype) : 0 < prec_of d.
Proof. destruct d; reflexivity. Qed.

Lemma round_to_finite (d : dtype) (s : bool) (m : positive) (e : Z) :
  round_to d (S754_finite s m e)
  = binary_round (prec_of d) (emax_of d) s m e.
Proof. destruct s; reflexivity. Qed.

Lemma round_to_valid (d : dtype) (z : spec_float) : valid d (round_to d z).
Proof.
  destruct z as [s | s | | s m e]; try reflexivity.
  rewrite round_to_finite. apply binary_round_valid, prec_of_pos.
Qed.

Lemma round_to_id (d : dtype) (v : spec_float) :
  valid d v -> round_to d v = v.
Proof.
  destruct v as [s | s | | s m e]; try reflexivity.
  intros Hv. rewrite round_to_finite. apply binary_round_bounded, Hv.
Qed.

Lemma round_to_widen (d p q : dtype) (v : spec_float) :
  valid d v -> includes d p -> round_to q (round_to p v) = round_to q v.
Proof.
  destruct v as [s | s | | s m e]; try reflexivity.
  intros Hv [Hp He].
  destruct (binary_round_widen _ _ _ _ s m e Hp He Hv) as (m' & e' & E & F).
  rewrite (round_to_finite p), E, !round_to_finite. apply F.
Qed.

Lemma includes_refl (d : dtype) : includes d d.
Proof. unfold includes. lia. Qed.

Lemma includes_trans (a b c : dtype) :
  includes a b -> includes b c -> includes a c.
Proof. unfold includes. lia. Qed.

Lemma includes_opmath (d : dtype) : includes d (opmath d).
Proof. destruct d; unfold includes; simpl; lia. Qed.

Lemma includes_promote_l (a b : dtype) : includes a (promote_types a b).
Proof. destruct a, b; unfold includes; simpl; lia. Qed.

(** ** The number one *)

Lemma of_Z_one (d : dtype) :
  of_Z d 1
  = S754_finite false (Nat.iter (Z.to_nat (prec_of d - 1)) xO 1%positive)
      (- Z.of_nat (Z.to_nat (prec_of d - 1))).
Proof. destruct d; reflexivity. Qed.

Lemma round_to_one (q d : dtype) : round_to q (of_Z d 1) = of_Z q 1.
Proof. destruct q, d; vm_compute; reflexivity. Qed.

(** A product with one is the other factor, rounded. *)
Lemma fmul_one (d : dtype) (u : spec_float) :
  fmul d u (of_Z d 1) = round_to d u.
Proof.
  rewrite of_Z_one. unfold fmul.
  destruct u as [s | s | | s m e].
  - simpl. rewrite xorb_false_r. reflexivity.
  - simpl. rewrite xorb_false_r. reflexivity.
  - reflexivity.
  - rewrite SFmul_one, round_to_finite; [reflexivity |].
    pose proof (prec_of_pos d). lia.
Qed.

(** For a number of [d], in any dtype that has all numbers of [d], and for
    a one of any dtype. *)
Lemma lift2_fmul_one (p d dw : dtype) (v : spec_float) :
  valid d v -> includes d p ->
  lift2 p fmul v (of_Z dw 1) = round_to p v.
Proof.
  intros Hv Hi. unfold lift2.
  rewrite round_to_one, fmul_one.
  rewrite (round_to_id (opmath p)) by apply round_to_valid.
  apply (round_to_widen d); [exact Hv |].
  apply (includes_trans _ p); [exact Hi | apply includes_opmath].
Qed.

(** ** Buffers and shapes *)

Lemma numel_app (a b : list nat) : numel (a ++ b) = (numel a * numel b)%nat.
Proof.
  induction a as [| n a IH]; simpl; [lia |].
  unfold numel in *. simpl. rewrite IH. lia.
Qed.

Lemma numel_ones (k : nat) : numel (replicate k 1%nat) = 1%nat.
Proof. induction k as [| k IH]; [reflexivity |]. simpl. unfold numel in *. simpl. lia. Qed.

Lemma length_chunks {A : Type} (k n : nat) (l : list A) :
  length (chunks k n l) = k.
Proof.
  revert l. induction k as [| k IH]; intros l; simpl; [| rewrite IH]; reflexivity.
Qed.

Lemma chunks_exact {A : Type} (k n : nat) (l : list A) :
  length l = (k * n)%nat ->
  Forall (fun c => length c = n) (chunks k n l) /\ concat (chunks k n l) = l.
Proof.
  revert l. induction k as [| k IH]; intros l Hl; simpl.
  - split; [constructor |]. destruct l; [reflexivity | discriminate Hl].
  - destruct (IH (drop n l)) as [F C].
    { rewrite length_drop. lia. }
    split.
    + constructor; [| exact F]. rewrite length_take. lia.
    + rewrite C. apply take_drop.
Qed.

Lemma length_concat_same {A : Type} (n : nat) (ls : list (list A)) :
  Forall (fun c => length c = n) ls ->
  length (concat ls) = (length ls * n)%nat.
Proof.
  induction 1 as [| c ls Hc _ IH]; simpl; [reflexivity |].
  rewrite length_app, IH, Hc. lia.
Qed.

Lemma concat_replicate_length {A : Type} (b : nat) (l : list A) :
  length (concat (replicate b l)) = (b * length l)%nat.
Proof.
  induction b as [| b IH]; simpl; [reflexivity |].
  rewrite length_app, IH. lia.
Qed.

(** Expanding a buffer to its own shape changes nothing. *)
Lemma expand_same {A : Type} (s : list nat) (d : list A) :
  length d = numel s -> expand s s d = d.
Proof.
  revert d. induction s as [| a s IH]; intros d Hd; [reflexivity |].
  simpl. rewrite Nat.eqb_refl.
  destruct (chunks_exact a (numel s) d Hd) as [F C].
  rewrite <- C at 2. f_equal.
  rewrite <- (map_id (chunks a (numel s) d)) at 2.
  apply map_ext_Forall. eapply Forall_impl; [exact F |].
  intros c Hc. apply IH, Hc.
Qed.

(** Expanding along dimensions of size one gives a buffer of the size of
    the target shape. *)
Lemma length_expand {A : Type} (s t : list nat) (d : list A) :
  Forall2 (fun a b => a = b \/ a = 1%nat) s t ->
  length d = numel s -> length (expand s t d) = numel t.
Proof.
  intros H. revert d.
  induction H as [| a b s t Hab _ IH]; intros d Hd; [exact Hd |].
  simpl expand. destruct (Nat.eqb_spec a b) as [<- | Hne].
  - destruct (chunks_exact a (numel s) d Hd) as [F _].
    rewrite (length_concat_same (numel t)).
    + rewrite length_map, length_chunks. reflexivity.
    + change (map (expand s t) (chunks a (numel s) d))
        with (expand s t <$> chunks a (numel s) d).
      apply Forall_fmap. eapply Forall_impl; [exact F |].
      intros c Hc. apply IH, Hc.
  - destruct Hab as [-> | ->]; [congruence |].
    rewrite concat_replicate_length, IH; [reflexivity |].
    rewrite Hd. change (numel (1%nat :: s)) with (1 * numel s)%nat. lia.
Qed.

Lemma expand_Forall {A : Type} (P : A -> Prop) (s t : list nat)
    (d : list A) :
  Forall P d -> Forall P (expand s t d).
Proof.
  revert t d. induction s as [| a s IH]; intros t d Hd; [exact Hd |].
  destruct t as [| b t]; [exact Hd |]. simpl.
  destruct (Nat.eqb a b).
  - apply Forall_concat.
    generalize (numel s) as n. revert d Hd.
    induction a as [| a IHa]; intros d Hd n; simpl; constructor.
    + apply IH, Forall_take, Hd.
    + apply IHa, Forall_drop, Hd.
  - apply Forall_concat, Forall_replicate, IH, Hd.
Qed.

Lemma Forall_eq_replicate {A : Type} (c : A) (l : list A) :
  Forall (fun v => v = c) l -> l = replicate (length l) c.
Proof.
  induction 1 as [| v l -> _ IH]; simpl; [| rewrite <- IH]; reflexivity.
Qed.

Lemma zip_with_replicate_r {A B C : Type} (f : A -> B -> C) (l : list A)
    (c : B) :
  zip_with f l (replicate (length l) c) = map (fun v => f v c) l.
Proof. induction l as [| a l IH]; simpl; [| rewrite IH]; reflexivity. Qed.

Lemma Forall_zip_with_all {A B C : Type} (P : C -> Prop) (f : A -> B -> C)
    (a : list A) (b : list B) :
  (forall x y, P (f x y)) -> Forall P (zip_with f a b).
Proof.
  intros Hf. revert b. induction a as [| x a IH]; intros [| y b]; simpl;
    constructor; auto.
Qed.

Lemma suffix_expands (ns s : list nat) :
  ns `suffix_of` s ->
  Forall2 (fun a b => a = b \/ a = 1%nat)
    (replicate (length s - length ns) 1%nat ++ ns) s.
Proof.
  intros [pre ->].
  replace (length (pre ++ ns) - length ns)%nat with (length pre)
    by (rewrite length_app; lia).
  apply Forall2_app.
  - induction pre as [| a pre IH]; simpl; constructor; auto.
  - induction ns as [| a ns IH]; constructor; auto.
Qed.

Lemma keepdim_expands (s : list nat) :
  Forall2 (fun a b => a = b \/ a = 1%nat) (keepdim_last s) s.
Proof.
  destruct s as [| a s] using rev_ind; [constructor |].
  replace (keepdim_last (s ++ [a])) with (s ++ [1%nat]).
  - apply Forall2_app; [| constructor; [right; reflexivity | constructor]].
    clear. induction s; constructor; auto.
  - unfold keepdim_last. rewrite removelast_last.
    destruct (s ++ [a]) eqn:E; [destruct s; discriminate E | reflexivity].
Qed.

Lemma length_keepdim_last (s : list nat) :
  length (keepdim_last s) = length s.
Proof.
  pose proof (keepdim_expands s) as H. apply Forall2_length in H. exact H.
Qed.

(** A buffer of ones expanded from a suffix of a shape to the shape is a
    buffer of ones. *)
Lemma expand_to_constant {A : Type} (ns s : list nat) (c : A) :
  ns `suffix_of` s ->
  expand_to ns s (replicate (numel ns) c) = replicate (numel s) c.
Proof.
  intros Hs. unfold expand_to.
  set (l := expand _ _ _).
  assert (Hl : length l = numel s).
  { apply length_expand; [apply suffix_expands, Hs |].
    rewrite length_replicate, numel_app, numel_ones. lia. }
  rewrite <- Hl. apply Forall_eq_replicate, expand_Forall.
  apply Forall_forall. intros v Hv. apply elem_of_replicate in Hv. tauto.
Qed.

(** ** Well-formed tensors *)

Lemma Ref_cast_well_formed (t : Ref.tensor) (d : dtype) :
  well_formed t -> well_formed (Ref.cast t d).
Proof.
  unfold well_formed, Ref.cast.
  destruct (dtype_eqb (Ref.dtype_of t) d); simpl; [auto |].
  rewrite length_map. auto.
Qed.

Lemma Ref_autocast_fp32_length (w : Ref.world) (t : Ref.tensor) :
  length (Ref.data (Ref.autocast_fp32 w t)) = length (Ref.data t).
Proof.
  unfold Ref.autocast_fp32. destruct (_ && _); [| reflexivity].
  unfold Ref.cast.
  destruct (Ref.dtype_of t); simpl; rewrite ?length_map; reflexivity.
Qed.

(** The mean over the last axis is well formed whatever its input. *)
Lemma Ref_mean_last_well_formed (t t' : Ref.tensor) (w w' : Ref.world) :
  Ref.mean t (-1) true w = (Ok t', w') -> well_formed t'.
Proof.
  unfold Ref.mean.
  set (R := Z.of_nat (Nat.max (length (Ref.shape t)) 1)).
  assert (HR : 1 <= R) by (unfold R; lia).
  replace (Z.ltb (-1) (- R) || Z.leb R (-1)) with false
    by (symmetry; apply orb_false_iff; split;
        [apply Z.ltb_ge | apply Z.leb_gt]; lia).
  intros [= <- _]. unfold well_formed. simpl.
  set (k := Z.to_nat _).
  erewrite length_concat_same.
  2:{ apply List.Forall_forall. intros c Hc.
      apply in_map_iff in Hc as (blk & <- & _).
      rewrite length_map, length_seq. reflexivity. }
  rewrite length_map, length_chunks.
  destruct (Ref.shape t) as [| a s] eqn:Es.
  - unfold k. destruct (Z.to_nat _); reflexivity.
  - rewrite <- Es, !numel_app. unfold numel. simpl. lia.
Qed.

(** The formula without the weight, on a well-formed input: what it returns
    is well formed and holds numbers of its dtype. *)
Lemma Ref_unscaled_good (x : Ref.tensor) (eps : pyfloat) (w : Ref.world) :
  well_formed x ->
  exists o, unscaled_formula (H := ref_torch) x eps w = (Ok o, w)
            /\ Ref.shape o = Ref.shape x
            /\ Ref.device_type o = Ref.device_type x
            /\ well_formed o
            /\ Forall (valid (Ref.dtype_of o)) (Ref.data o).
Proof.
  intros Hx. unfold unscaled_formula.
  set (x2 := Ref.with_data (Ref.autocast_fp32 w x)
               (Ref.dtype_of (Ref.autocast_fp32 w x))
               (map (lift1 (Ref.dtype_of (Ref.autocast_fp32 w x)) (fpow 2))
                    (Ref.data (Ref.autocast_fp32 w x)))).
  assert (E1 : pow (Torch := ref_torch) x 2 w = (Ok x2, w)) by reflexivity.
  rewrite (bind_Ok _ _ _ _ _ E1).
  destruct (Ref_mean_last_shape x2 w) as (ms & E2 & S2 & _ & D2).
  pose proof (Ref_mean_last_well_formed _ _ _ _ E2) as W2.
  rewrite (bind_Ok (H := ref_torch) _ _ _ _ _ E2).
  set (s := Ref.with_data ms (Ref.dtype_of ms)
              (map (fun a => lift2 (Ref.dtype_of ms) fadd a eps)
                   (Ref.data ms))).
  assert (E3 : add_scalar (Torch := ref_torch) ms eps w = (Ok s, w))
    by reflexivity.
  rewrite (bind_Ok _ _ _ _ _ E3).
  set (r := Ref.with_data (Ref.autocast_fp32 w s)
              (Ref.dtype_of (Ref.autocast_fp32 w s))
              (map (lift1 (Ref.dtype_of (Ref.autocast_fp32 w s)) frsqrt)
                   (Ref.data (Ref.autocast_fp32 w s)))).
  assert (E4 : rsqrt (Torch := ref_torch) s w = (Ok r, w)) by reflexivity.
  rewrite (bind_Ok _ _ _ _ _ E4).
  assert (Sr : Ref.shape r = keepdim_last (Ref.shape x)).
  { unfold r. simpl. rewrite Ref_autocast_fp32_shape. unfold s. simpl.
    rewrite S2. unfold x2. simpl. rewrite Ref_autocast_fp32_shape.
    reflexivity. }
  assert (Dr : Ref.device_type x = Ref.device_type r).
  { unfold r. simpl. rewrite Ref_autocast_fp32_device. unfold s. simpl.
    rewrite D2. unfold x2. simpl. rewrite Ref_autocast_fp32_device.
    reflexivity. }
  assert (Lr : length (Ref.data r) = numel (keepdim_last (Ref.shape x))).
  { unfold r. simpl. rewrite length_map, Ref_autocast_fp32_length.
    unfold s. simpl. rewrite length_map. rewrite W2, S2.
    unfold x2. simpl. rewrite Ref_autocast_fp32_shape. reflexivity. }
  change (mul (Torch := ref_torch) x r w) with (Ref.mul x r w).
  rewrite (Ref_mul_eq x r (Ref.shape x) w Dr)
    by (rewrite Sr; apply broadcast_shapes_keepdim).
  eexists. split; [reflexivity |].
  cbn [Ref.shape Ref.device_type Ref.dtype_of Ref.data].
  split; [reflexivity |]. split; [reflexivity |]. split.
  - unfold well_formed.
    cbn [Ref.shape Ref.device_type Ref.dtype_of Ref.data].
    rewrite length_zip_with.
    unfold expand_to. rewrite Sr, length_keepdim_last, Nat.sub_diag.
    simpl replicate. simpl app.
    rewrite expand_same by exact Hx.
    rewrite (length_expand _ _ _ (keepdim_expands _) Lr), Hx. lia.
  - apply Forall_zip_with_all. intros a b. apply round_to_valid.
Qed.

(** The product with a tensor of ones that has a suffix of the shape: the
    same numbers, in the dtype of the product. *)
Lemma Ref_mul_ones (o wt : Ref.tensor) (w : Ref.world) :
  well_formed o -> Forall (valid (Ref.dtype_of o)) (Ref.data o) ->
  all_ones wt -> Ref.shape wt `suffix_of` Ref.shape o ->
  Ref.device_type o = Ref.device_type wt ->
  exists p, includes (Ref.dtype_of o) p
            /\ Ref.mul o wt w
               = (Ok {| Ref.dtype_of := p;
                        Ref.device_type := Ref.device_type o;
                        Ref.shape := Ref.shape o;
                        Ref.data := map (round_to p) (Ref.data o) |}, w).
Proof.
  intros Ho Hv [dw Hw] Hs Hd.
  exists (result_type (Ref.shape o) (Ref.dtype_of o)
            (Ref.shape wt) (Ref.dtype_of wt)).
  assert (Hi : includes (Ref.dtype_of o)
                 (result_type (Ref.shape o) (Ref.dtype_of o)
                    (Ref.shape wt) (Ref.dtype_of wt))).
  { unfold result_type.
    destruct (Ref.shape o) as [| a so] eqn:Eo,
             (Ref.shape wt) as [| b sw] eqn:Ew;
      try apply includes_promote_l; [| apply includes_refl].
    destruct Hs as [pre Hs]. destruct pre; discriminate Hs. }
  split; [exact Hi |].
  rewrite (Ref_mul_eq o wt (Ref.shape o) w Hd)
    by (apply broadcast_shapes_suffix, Hs).
  do 2 f_equal. f_equal.
  rewrite Hw, (expand_to_constant _ _ _ Hs).
  unfold expand_to. rewrite Nat.sub_diag. simpl replicate. simpl app.
  rewrite expand_same by exact Ho.
  rewrite <- Ho, zip_with_replicate_r.
  apply map_ext_Forall. eapply Forall_impl; [exact Hv |].
  intros v Hvv. apply (lift2_fmul_one _ (Ref.dtype_of o)); assumption.
Qed.

(** Converted to any dtype it is the tensor without the ones converted. *)
Lemma Ref_cast_widened (o : Ref.tensor) (p dx : dtype) :
  Forall (valid (Ref.dtype_of o)) (Ref.data o) ->
  includes (Ref.dtype_of o) p ->
  Ref.cast {| Ref.dtype_of := p; Ref.device_type := Ref.device_type o;
              Ref.shape := Ref.shape o;
              Ref.data := map (round_to p) (Ref.data o) |} dx
  = Ref.cast o dx.
Proof.
  intros Hv Hi. destruct o as [d dev sh data]. simpl in *.
  assert (Hid : map (round_to d) data = data).
  { rewrite <- (map_id data) at 2. apply map_ext_Forall.
    eapply Forall_impl; [exact Hv |]. intros v. apply round_to_id. }
  assert (Hw : forall q, map (round_to q) (map (round_to p) data)
                         = map (round_to q) data).
  { intros q. rewrite map_map. apply map_ext_Forall.
    eapply Forall_impl; [exact Hv |].
    intros v Hvv. apply (round_to_widen d); assumption. }
  unfold Ref.cast, Ref.with_data. simpl.
  destruct (dtype_eqb p dx) eqn:Ep, (dtype_eqb d dx) eqn:Ed;
    try (apply dtype_eqb_eq in Ep; subst p);
    try (apply dtype_eqb_eq in Ed; subst d); simpl.
  - rewrite Hid. reflexivity.
  - reflexivity.
  - rewrite Hw, Hid. reflexivity.
  - rewrite Hw. reflexivity.
Qed.

(** The body of the two [forward]s, with a weight of ones and without. *)
Lemma Ref_ones_body (x wt : Ref.tensor) (eps : pyfloat) (dx : dtype)
    (w : Ref.world) :
  well_formed x -> all_ones wt ->
  Ref.shape wt `suffix_of` Ref.shape x ->
  Ref.device_type wt = Ref.device_type x ->
  (y <- rms_norm (H := ref_torch) x (Some wt) eps ;; to y dx) w
  = (y <- rms_norm (H := ref_torch) x None eps ;; to y dx) w.
Proof.
  intros Hx Hw Hs Hd.
  destruct (Ref_unscaled_good x eps w Hx) as (o & Eo & So & Do & Wo & Vo).
  destruct (Ref_mul_ones o wt w Wo Vo Hw) as (p & Hi & Ey);
    [rewrite So; exact Hs | congruence |].
  assert (E1 : rms_norm (H := ref_torch) x (Some wt) eps w
               = (Ok {| Ref.dtype_of := p;
                        Ref.device_type := Ref.device_type o;
                        Ref.shape := Ref.shape o;
                        Ref.data := map (round_to p) (Ref.data o) |}, w)).
  { rewrite (rms_norm_Some (H := ref_torch)), (bind_Ok _ _ _ _ _ Eo).
    exact Ey. }
  assert (E0 : rms_norm (H := ref_torch) x None eps w = (Ok o, w))
    by (rewrite (rms_norm_None (H := ref_torch)); exact Eo).
  rewrite (bind_Ok _ _ _ _ _ E1), (bind_Ok _ _ _ _ _ E0).
  simpl. unfold Ref.to. rewrite Ref_cast_widened by assumption.
  reflexivity.
Qed.

Lemma Ref_full_ones (sh : shape_arg) (dt : option dtype)
    (dev : option string) :
  all_ones (Ref.full sh 1 dt dev).
Proof. exists (default float32 dt). reflexivity. Qed.

Lemma all_ones_cast (t : Ref.tensor) (d : dtype) :
  all_ones t -> all_ones (Ref.cast t d).
Proof.
  intros [dw Hw]. unfold Ref.cast.
  destruct (dtype_eqb (Ref.dtype_of t) d); [exists dw; exact Hw |].
  exists d. simpl. rewrite Hw.
  change (map (round_to d) (replicate (numel (Ref.shape t)) (of_Z dw 1)))
    with (round_to d <$> replicate (numel (Ref.shape t)) (of_Z dw 1)).
  rewrite fmap_replicate, round_to_one. reflexivity.
Qed.

(** What the helper returns is its argument converted to some dtype, in the
    world it was called in; and it returns for every tensor on the device
    of one it returned for. *)
Lemma Ref_cast_helper_inv (t t' : Ref.tensor) (w w' : Ref.world) :
  _cast_if_autocast_enabled (H := ref_torch) t w = (Ok t', w') ->
  w' = w
  /\ (exists d, t' = Ref.cast t d)
  /\ forall u, Ref.device_type u = Ref.device_type t ->
       exists d, _cast_if_autocast_enabled (H := ref_torch) u w
                 = (Ok (Ref.cast u d), w).
Proof.
  intros E.
  assert (Hu : forall u, Ref.device_type u = Ref.device_type t ->
            exists d, _cast_if_autocast_enabled (H := ref_torch) u w
                      = (Ok (Ref.cast u d), w)).
  { intros u Hu. revert E. unfold _cast_if_autocast_enabled.
    rewrite !gets_bind.
    destruct (@is_autocast_enabled ref_torch w).
    - change (@t_device_type ref_torch t) with (Ref.device_type t).
      change (@t_device_type ref_torch u) with (Ref.device_type u).
      rewrite Hu.
      destruct (String.eqb (Ref.device_type t) "cuda");
        [| destruct (String.eqb (Ref.device_type t) "cpu")].
      + intros _. eexists. reflexivity.
      + intros _. eexists. reflexivity.
      + intros [=].
    - intros _. exists (Ref.dtype_of u). rewrite Ref_cast_same.
      reflexivity. }
  destruct (Hu t eq_refl) as [d Ed]. rewrite Ed in E.
  injection E as <- <-. repeat split; [exists d; reflexivity | exact Hu].
Qed.

Lemma with_autocast_ext `{Torch} {A : Type} (enabled : bool) (dev : string)
    (body body' : M A) (w : world) :
  (forall w1, body w1 = body' w1) ->
  with_autocast enabled dev body w = with_autocast enabled dev body' w.
Proof.
  intros E. unfold with_autocast.
  destruct (autocast_enter enabled dev w) as [ctx w1]. rewrite E.
  reflexivity.
Qed.

(** X11: a weight of ones is no weight.  In the reference runtime, the
    module [RMSNorm(normalized_shape, eps, weight=True, dtype, device)],
    whose weight [__init__] fills with ones, returns on every well-formed
    input on its device whose shape ends with the normalized shape exactly
    what the module built with [weight=False] returns, bit for bit: for
    every dtype of the input and of the weight, in either pjrt mode, with
    autocast on or off, and for [LPRMSNorm.forward] as for
    [RMSNorm.forward]. *)
Theorem ones_weight_is_no_weight (normalized_shape : shape_arg)
    (eps : pyfloat) (dt : option dtype) (dev : option string)
    (x : Ref.tensor) (w0 w : Ref.world) :
  well_formed x ->
  shape_of_arg normalized_shape `suffix_of` Ref.shape x ->
  default "cpu" dev = Ref.device_type x ->
  exists scaled plain : RMSNorm.t,
    RMSNorm.__init__ normalized_shape eps true dt dev w0 = (Ok scaled, w0)
    /\ RMSNorm.__init__ normalized_shape eps false dt dev w0
       = (Ok plain, w0)
    /\ RMSNorm.forward scaled x w = RMSNorm.forward plain x w
    /\ LPRMSNorm.forward scaled x w = LPRMSNorm.forward plain x w.
Proof.
  intros Hx Hs Hd.
  set (wt := Ref.full normalized_shape 1 dt dev).
  exists (@RMSNorm.Build_t ref_torch eps (Some wt)),
         (@RMSNorm.Build_t ref_torch eps None).
  split; [reflexivity |]. split; [reflexivity |].
  assert (Hones : all_ones wt) by apply Ref_full_ones.
  assert (Hbody : forall (cx cw : Ref.tensor) w1,
            well_formed cx -> all_ones cw ->
            Ref.shape cx = Ref.shape x -> Ref.shape cw = Ref.shape wt ->
            Ref.device_type cx = Ref.device_type x ->
            Ref.device_type cw = Ref.device_type wt ->
            (y <- rms_norm (H := ref_torch) cx (Some cw) eps ;;
             to y (Ref.dtype_of x)) w1
            = (y <- rms_norm (H := ref_torch) cx None eps ;;
               to y (Ref.dtype_of x)) w1).
  { intros cx cw w1 Wcx Ocw Scx Scw Dcx Dcw.
    apply Ref_ones_body; try assumption.
    - rewrite Scx, Scw. exact Hs.
    - rewrite Dcx, Dcw. exact Hd. }
  assert (Hpjrt : (y <- rms_norm (H := ref_torch) x (Some wt) eps ;;
                   to y (Ref.dtype_of x)) w
                  = (y <- rms_norm (H := ref_torch) x None eps ;;
                     to y (Ref.dtype_of x)) w)
    by (apply Hbody; auto).
  split.
  - unfold RMSNorm.forward. rewrite !gets_bind.
    cbn [RMSNorm.weight RMSNorm.eps].
    destruct (@using_pjrt ref_torch w); [exact Hpjrt |].
    assert (Exf : float (H := ref_torch) x w = (Ok (Ref.cast x float32), w))
      by reflexivity.
    rewrite !(bind_Ok _ _ _ _ _ Exf).
    apply Hbody; auto using Ref_cast_well_formed, Ref_cast_shape,
      Ref_cast_device.
  - unfold LPRMSNorm.forward. rewrite !gets_bind.
    cbn [RMSNorm.weight RMSNorm.eps].
    destruct (@using_pjrt ref_torch w); [exact Hpjrt |].
    destruct (_cast_if_autocast_enabled (H := ref_torch) x w)
      as [[cx | e] w1] eqn:Ecx.
    2:{ rewrite !(bind_Raise _ _ _ _ _ Ecx). reflexivity. }
    destruct (Ref_cast_helper_inv _ _ _ _ Ecx) as (-> & [dc ->] & Hu).
    destruct (Hu wt Hd) as [dw Ecw].
    rewrite !(bind_Ok _ _ _ _ _ Ecx).
    assert (E1 : if_not_None (H := ref_torch) _cast_if_autocast_enabled
                   (Some wt) w = (Ok (Some (Ref.cast wt dw)), w))
      by (simpl; rewrite (bind_Ok _ _ _ _ _ Ecw); reflexivity).
    assert (E0 : if_not_None (H := ref_torch) _cast_if_autocast_enabled
                   None w = (Ok None, w)) by reflexivity.
    rewrite (bind_Ok _ _ _ _ _ E1), (bind_Ok _ _ _ _ _ E0).
    apply with_autocast_ext. intros w1.
    apply Hbody; auto using Ref_cast_well_formed, Ref_cast_shape,
      Ref_cast_device, all_ones_cast.
Qed.

(** X12: the conversions around the core lose nothing on the way up.  In
    the reference runtime, for a tensor of dtype float16, bfloat16 or
    float32 that holds numbers of its dtype, [x.float()] followed by
    [.to(dtype=x.dtype)], the two conversions [RMSNorm.forward] puts around
    [rms_norm], give back [x] itself, and every number of [x.float()] is
    the number of [x] it came from, rounded to no other.  So what the
    default path changes against the pjrt path is the precision of the
    core, and not the input. *)
Theorem float_round_trip (x : Ref.tensor) (w : Ref.world) :
  Ref.dtype_of x <> float64 ->
  Forall (valid (Ref.dtype_of x)) (Ref.data x) ->
  (xf <- float (H := ref_torch) x ;; to xf (Ref.dtype_of x)) w = (Ok x, w)
  /\ exists xf, float (H := ref_torch) x w = (Ok xf, w)
       /\ Ref.dtype_of xf = float32
       /\ Forall (valid float32) (Ref.data xf)
       /\ forall q, map (round_to q) (Ref.data xf)
                    = map (round_to q) (Ref.data x).
Proof.
  destruct x as [d dev sh data]. simpl. intros Hd Hv.
  assert (Hi : includes d float32)
    by (destruct d; unfold includes; simpl; try lia; congruence).
  set (x := {| Ref.dtype_of := d; Ref.device_type := dev; Ref.shape := sh;
               Ref.data := data |}).
  assert (Exf : float (H := ref_torch) x w = (Ok (Ref.cast x float32), w))
    by reflexivity.
  assert (Hw : forall q, map (round_to q) (map (round_to float32) data)
                         = map (round_to q) data).
  { intros q. rewrite map_map. apply map_ext_Forall.
    eapply Forall_impl; [exact Hv |].
    intros v Hvv. apply (round_to_widen d); assumption. }
  assert (Hid : map (round_to d) data = data).
  { rewrite <- (map_id data) at 2. apply map_ext_Forall.
    eapply Forall_impl; [exact Hv |]. intros v. apply round_to_id. }
  split.
  - rewrite (bind_Ok _ _ _ _ _ Exf). simpl. unfold Ref.to. do 2 f_equal.
    unfold Ref.cast, x. simpl.
    destruct (dtype_eqb d float32) eqn:E32; simpl.
    + apply dtype_eqb_eq in E32. subst d. reflexivity.
    + destruct d; try discriminate E32; try congruence;
        unfold Ref.with_data; simpl; rewrite Hw, Hid; reflexivity.
  - exists (Ref.cast x float32). split; [exact Exf |].
    split; [apply Ref_cast_dtype |].
    unfold Ref.cast, x. simpl.
    destruct (dtype_eqb d float32) eqn:E32; simpl.
    + apply dtype_eqb_eq in E32. split; [| reflexivity].
      rewrite <- E32. exact Hv.
    + split; [| exact Hw].
      apply List.Forall_forall. intros v Hin.
      apply in_map_iff in Hin as (u & <- & _).
      apply round_to_valid.
Qed.

(** ** Rows of zeros *)

(** A positive integer does not round to zero in a format whose smallest
    exponent is not above the one it is written with. *)
Lemma binary_round_not_zero (prec emax : Z) (s : bool) (m : positive)
    (e : Z) :
  0 < prec -> emin prec emax <= e ->
  (exists m' e', binary_round prec emax s m e = S754_finite s m' e')
  \/ binary_round prec emax s m e = S754_infinity s.
Proof.
  intros Hprec Hmin.
  rewrite binary_round_unfold. unfold first_shift.
  set (t := fexp prec emax (Zpos (digits2_pos m) + e)).
  set (M := Nat.iter (Z.to_nat (e - t)) xO m).
  set (a := Z.to_nat (t - Z.min e t)).
  set (mrs := Nat.iter a shr_1 (shr_exact (Zpos M))).
  assert (DM : Zpos (digits2_pos M) + Z.min e t = Zpos (digits2_pos m) + e).
  { unfold M. rewrite digits2_pos_shift. lia. }
  assert (Hm1 : shr_m mrs = Z.shiftr (Zpos M) (Z.of_nat a)).
  { unfold mrs. rewrite shr_iter_m; [reflexivity | simpl; lia]. }
  assert (H1 : 0 < shr_m mrs).
  { rewrite Hm1.
    assert (Hn : Z.shiftr (Zpos M) (Z.of_nat a) <> 0).
    { rewrite Z.shiftr_eq_0_iff. intros [Hz | [_ Hz]]; [discriminate Hz |].
      pose proof (Zdigits2_log2 M) as DL. simpl Zdigits2 in DL.
      pose proof (Z.log2_nonneg (Zpos M)).
      clear Hm1. clearbody mrs. unfold a, t, fexp in *.
      clearbody M. clear a t mrs. lia. }
    pose proof (Z.shiftr_nonneg (Zpos M) (Z.of_nat a)). lia. }
  unfold round_finish.
  set (m2 := round_nearest_even (shr_m mrs) (loc_of_shr_record mrs)).
  pose proof (round_nearest_even_bounds (shr_m mrs) (loc_of_shr_record mrs))
    as Hm2. fold m2 in Hm2.
  assert (Hd1 : Zdigits2 (shr_m mrs) + t = Zpos (digits2_pos m) + e).
  { rewrite Hm1, Zdigits2_shiftr by (rewrite <- ?Hm1; lia).
    simpl Zdigits2. unfold a, t in *. lia. }
  assert (P2 : t <= fexp prec emax (Zdigits2 m2 + t)).
  { pose proof (Zdigits2_mono (shr_m mrs) m2) as Hmono.
    pose proof (fexp_mono prec emax (Zdigits2 (shr_m mrs) + t)
                  (Zdigits2 m2 + t)) as Hf.
    rewrite Hd1 in Hf. fold t in Hf. lia. }
  rewrite shr_fexp_spec by exact P2.
  set (t2 := fexp prec emax (Zdigits2 m2 + t)).
  set (n := Z.to_nat (t2 - t)).
  assert (Hm3 : shr_m (Nat.iter n shr_1 (shr_record_of_loc m2 loc_Exact))
                = Z.shiftr m2 (Z.of_nat n)).
  { rewrite shr_iter_m; [reflexivity | simpl; lia]. }
  rewrite Hm3.
  destruct m2 as [| q | q]; try lia.
  assert (Hn : Z.shiftr (Zpos q) (Z.of_nat n) <> 0).
  { rewrite Z.shiftr_eq_0_iff. intros [Hz | [_ Hz]]; [discriminate Hz |].
    pose proof (Zdigits2_log2 q) as DL.
    assert (Ht : emin prec emax <= t) by (unfold t, fexp; lia).
    pose proof (Z.log2_nonneg (Zpos q)).
    unfold n, t2, fexp in *. lia. }
  pose proof (Z.shiftr_nonneg (Zpos q) (Z.of_nat n)) as Hnn.
  destruct (Z.shiftr (Zpos q) (Z.of_nat n)) as [| p | p]; try lia.
  destruct (Z.leb t2 (emax - prec)); [left; eauto | right; reflexivity].
Qed.

Lemma of_Z_positive (d : dtype) (p : positive) :
  (exists m e, of_Z d (Zpos p) = S754_finite false m e)
  \/ of_Z d (Zpos p) = S754_infinity false.
Proof.
  unfold of_Z. simpl binary_normalize.
  apply binary_round_not_zero; [apply prec_of_pos |].
  destruct d; unfold emin; simpl; lia.
Qed.

Lemma fold_fadd_zeros (d : dtype) (l : list spec_float) :
  Forall (fun v => v = S754_zero false) l ->
  foldl (fadd d) (S754_zero false) l = S754_zero false.
Proof.
  induction 1 as [| v l -> _ IH]; simpl; [reflexivity | exact IH].
Qed.

(** The mean of a row of positive zeros is a positive zero. *)
Lemma fmean_zeros (d : dtype) (l : list spec_float) :
  l <> [] -> Forall (fun v => v = S754_zero false) l ->
  fmean d l = S754_zero false.
Proof.
  intros Hne Hl. unfold fmean. rewrite fold_fadd_zeros by exact Hl.
  destruct l as [| v l]; [congruence |].
  change (Z.of_nat (length (v :: l)))
    with (Zpos (Pos.of_succ_nat (length l))).
  unfold fdiv.
  destruct (of_Z_positive d (Pos.of_succ_nat (length l)))
    as [(m & e & ->) | ->]; reflexivity.
Qed.

Lemma square_zero (d : dtype) (v : spec_float) :
  is_zero v = true -> lift1 d (fpow 2) v = S754_zero false.
Proof.
  destruct v as [s | | |]; try discriminate. intros _.
  destruct d, s; reflexivity.
Qed.

Lemma row_mean_zeros (d : dtype) (row : list spec_float) :
  row <> [] -> Forall (fun v => is_zero v = true) row ->
  row_mean d (map (lift1 d (fpow 2)) row) = S754_zero false.
Proof.
  intros Hne Hz. unfold row_mean. rewrite fmean_zeros; [reflexivity | |].
  - destruct row; [congruence | discriminate].
  - rewrite map_map. apply List.Forall_forall. intros v Hin.
    apply in_map_iff in Hin as (u & <- & Hu).
    rewrite List.Forall_forall in Hz. rewrite square_zero by auto.
    reflexivity.
Qed.

(** With the default [eps] a row of zeros stays as it is, signs included;
    with [eps = 0] it becomes a row of NaN. *)
Lemma rms_row_zeros (d : dtype) (row : list spec_float) :
  Forall (fun v => is_zero v = true) row ->
  rms_row d Examples.eps_default row = row
  /\ rms_row d (S754_zero false) row = replicate (length row) S754_nan.
Proof.
  intros Hz. destruct row as [| v0 row0] eqn:Er; [split; reflexivity |].
  rewrite <- Er in *. assert (Hne : row <> []) by (rewrite Er; discriminate).
  clear Er. unfold rms_row. rewrite row_mean_zeros by assumption.
  split.
  - rewrite <- (map_id row) at 2. apply map_ext_Forall.
    eapply Forall_impl; [exact Hz |].
    intros [s | | |]; try discriminate. intros _.
    destruct d, s; vm_compute; reflexivity.
  - clear Hne. induction Hz as [| v row Hv _ IH]; [reflexivity |].
    simpl. rewrite IH. f_equal.
    destruct v as [s | | |]; try discriminate.
    destruct d, s; vm_compute; reflexivity.
Qed.

(** X13: what eps is for.  In the reference runtime, with autocast off and
    the default [eps = 1e-5], [rms_norm] returns a two-dimensional tensor
    of zeros as it is, for every dtype and size and with the sign of every
    zero kept; with [eps = 0] it returns NaN in every position, since the
    reciprocal square root of the zero mean is infinite. *)
Theorem rms_norm_of_zeros (d : dtype) (dev : string) (n : nat)
    (rows : list (list spec_float)) (w : Ref.world) :
  Forall (fun row => length row = n) rows ->
  Forall (Forall (fun v => is_zero v = true)) rows ->
  Ref.is_autocast_enabled w = false ->
  let x := {| Ref.dtype_of := d; Ref.device_type := dev;
              Ref.shape := [length rows; n]; Ref.data := concat rows |} in
  rms_norm (H := ref_torch) x None Examples.eps_default w = (Ok x, w)
  /\ rms_norm (H := ref_torch) x None (S754_zero false) w
     = (Ok {| Ref.dtype_of := d; Ref.device_type := dev;
              Ref.shape := [length rows; n];
              Ref.data := replicate (length rows * n) S754_nan |}, w).
Proof.
  intros Hlen Hz Hoff x. unfold x.
  rewrite !Ref_rms_norm_rows by assumption.
  split; do 3 f_equal.
  - rewrite <- (map_id rows) at 2. f_equal. apply map_ext_Forall.
    eapply Forall_impl; [exact Hz |].
    intros row Hrow. apply rms_row_zeros, Hrow.
  - clear x. induction Hz as [| row rows Hrow _ IH]; [reflexivity |].
    inversion Hlen as [| ? ? Hr Hrest]; subst.
    simpl. rewrite IH by assumption.
    rewrite (proj2 (rms_row_zeros d row Hrow)), <- replicate_add.
    reflexivity.
Qed.

(** ** What forward does on the inputs a layer is built for *)

Lemma LP_forward_pjrt (ln : LayerNorm.t) (rms : RMSNorm.t) (x : Ref.tensor)
    (w : Ref.world) :
  Ref.pjrt w = true ->
  LPLayerNorm.forward ln x w = LayerNorm.forward ln x w
  /\ LPRMSNorm.forward rms x w = RMSNorm.forward rms x w.
Proof.
  intros Hp.
  unfold LPLayerNorm.forward, LPRMSNorm.forward, RMSNorm.forward,
    LayerNorm.forward.
  rewrite !gets_bind.
  change (@using_pjrt ref_torch w) with (Ref.pjrt w). rewrite Hp.
  split; reflexivity.
Qed.

Lemma LP_forward_not_implemented (ln : LayerNorm.t) (rms : RMSNorm.t)
    (x : Ref.tensor) (w : Ref.world) :
  Ref.pjrt w = false -> Ref.is_autocast_enabled w = true ->
  autocast_device (Ref.device_type x) = false ->
  LPLayerNorm.forward ln x w = (Raise NotImplementedError, w)
  /\ LPRMSNorm.forward rms x w = (Raise NotImplementedError, w).
Proof.
  intros Hp Hon Hdev. unfold autocast_device in Hdev.
  apply orb_false_iff in Hdev as [Hcuda Hcpu].
  apply String.eqb_neq in Hcuda, Hcpu.
  pose proof (cast_unsupported_device (H := ref_torch) x w Hon Hcuda Hcpu)
    as E.
  unfold LPLayerNorm.forward, LPRMSNorm.forward. rewrite !gets_bind.
  change (@using_pjrt ref_torch w) with (Ref.pjrt w). rewrite Hp.
  rewrite !(bind_Raise _ _ _ _ _ E). split; reflexivity.
Qed.

Lemma castable_cases (w : Ref.world) (dev : string) :
  Ref.is_autocast_enabled w && negb (autocast_device dev) = false ->
  castable w dev.
Proof.
  unfold castable, autocast_device.
  destruct (Ref.is_autocast_enabled w); [| auto].
  destruct (String.eqb_spec dev "cuda"); [auto |].
  destruct (String.eqb_spec dev "cpu"); [auto |]. discriminate.
Qed.

(** X14: the whole outcome of [forward] of the two RMS classes on the
    inputs a layer is built for.  In the reference runtime [RMSNorm] and
    [LPRMSNorm] are built without failure, and on an input on the module's
    device whose shape ends with the normalized shape [forward] raises in
    two cases only, both of [LPRMSNorm] outside pjrt mode: with autocast on
    and a device that is neither ['cuda'] nor ['cpu'] the helper raises
    [NotImplementedError]; otherwise, on a device type [torch.autocast] has
    no support for, entering the block raises [RuntimeError].  In every
    other case [forward] returns a tensor of the shape of the input; the
    world is as it was in all three. *)
Theorem forward_outcome (cls : norm_class) (normalized_shape : shape_arg)
    (eps : pyfloat) (affine : bool) (dt : option dtype)
    (dev : option string) (w0 : Ref.world) (x : Ref.tensor)
    (w : Ref.world) :
  cls = class_RMSNorm \/ cls = class_LPRMSNorm ->
  shape_of_arg normalized_shape `suffix_of` Ref.shape x ->
  Ref.device_type x = default "cpu" dev ->
  exists m,
    construct cls normalized_shape eps affine dt dev w0 = (Ok m, w0)
    /\ if low_precision cls && negb (Ref.pjrt w)
       then if Ref.is_autocast_enabled w
                && negb (autocast_device (Ref.device_type x))
            then forward m x w = (Raise NotImplementedError, w)
            else if bool_decide (Ref.device_type x ∈ Ref.autocast_devices w)
                 then exists y, forward m x w = (Ok y, w)
                                /\ Ref.shape y = Ref.shape x
                 else forward m x w = (Raise RuntimeError, w)
       else exists y, forward m x w = (Ok y, w)
                      /\ Ref.shape y = Ref.shape x.
Proof.
  intros Hcls Hx Hd.
  assert (Hfull : forall v, fits (shape_of_arg normalized_shape) x
                              (Some (Ref.full normalized_shape v dt dev))).
  { intros v t [= <-]. split; [reflexivity | symmetry; exact Hd]. }
  assert (Hnone : fits (shape_of_arg normalized_shape) x None)
    by (intros t [=]).
  assert (Hrms : forall self : RMSNorm.t,
            fits (shape_of_arg normalized_shape) x (RMSNorm.weight self) ->
            if negb (Ref.pjrt w)
            then if Ref.is_autocast_enabled w
                    && negb (autocast_device (Ref.device_type x))
                 then LPRMSNorm.forward self x w
                      = (Raise NotImplementedError, w)
                 else if bool_decide
                           (Ref.device_type x ∈ Ref.autocast_devices w)
                      then exists y, LPRMSNorm.forward self x w = (Ok y, w)
                                     /\ Ref.shape y = Ref.shape x
                      else LPRMSNorm.forward self x w
                           = (Raise RuntimeError, w)
            else exists y, LPRMSNorm.forward self x w = (Ok y, w)
                           /\ Ref.shape y = Ref.shape x).
  { intros self Hwt.
    destruct (Ref.pjrt w) eqn:Hp; simpl.
    - rewrite (proj2 (LP_forward_pjrt
                        (LayerNorm.Build_t ref_torch [] eps None None)
                        self x w Hp)).
      destruct (Ref_RMSNorm_forward_returns self x w
                  (fits_suffix _ x _ Hx Hwt)) as (y & E & S & _).
      exists y. split; assumption.
    - destruct (Ref.is_autocast_enabled w
                && negb (autocast_device (Ref.device_type x))) eqn:Hc.
      + apply andb_true_iff in Hc as [Hon Hdev].
        apply negb_true_iff in Hdev.
        exact (proj2 (LP_forward_not_implemented
                        (LayerNorm.Build_t ref_torch [] eps None None)
                        self x w Hp Hon Hdev)).
      + apply castable_cases in Hc.
        destruct (bool_decide_reflect
                    (Ref.device_type x ∈ Ref.autocast_devices w))
          as [Hin | Hout].
        * destruct (Ref_LPRMSNorm_forward_returns
                      (shape_of_arg normalized_shape) self x w Hx Hwt
                      Hc Hin) as (y & E & S & _).
          exists y. split; assumption.
        * unfold LPRMSNorm.forward. rewrite gets_bind.
          change (@using_pjrt ref_torch w) with (Ref.pjrt w). rewrite Hp.
          destruct (Ref_cast_returns x w Hc) as (cx & Ecx & Scx & Dcx).
          rewrite (bind_Ok _ _ _ _ _ Ecx).
          destruct (Ref_if_not_None_cast_returns _ x _ w Hc Hwt)
            as (cw & Ecw & Hcw).
          rewrite (bind_Ok _ _ _ _ _ Ecw).
          apply with_autocast_refused. exact Hout. }
  destruct Hcls as [-> | ->]; destruct affine;
    (eexists; split; [reflexivity |]); cbn [low_precision andb forward].
  - destruct (Ref_RMSNorm_forward_returns
                (@RMSNorm.Build_t ref_torch eps
                   (Some (Ref.full normalized_shape 1 dt dev))) x w
                (fits_suffix _ x _ Hx (Hfull 1))) as (y & E & S & _).
    exists y. split; assumption.
  - destruct (Ref_RMSNorm_forward_returns
                (@RMSNorm.Build_t ref_torch eps None) x w
                (fits_suffix _ x _ Hx Hnone)) as (y & E & S & _).
    exists y. split; assumption.
  - apply Hrms; simpl; auto.
  - apply Hrms; simpl; auto.
Qed.

(** ** The properties at concrete inputs *)

Lemma rms_norm_formula_witness :
  let two := of_Z float32 2 in
  let rows := [[two; two; two; two]; [two; two; two; two]] in
  let g := [of_Z float32 1; two; of_Z float32 3; of_Z float32 4] in
  rms_norm (Examples.x_2x4 float32) None Examples.eps_default
    (Ref.plain false)
  = (Ok {| Ref.dtype_of := float32; Ref.device_type := "cpu";
           Ref.shape := [2; 4]%nat;
           Ref.data := concat (map (rms_row float32 Examples.eps_default)
                                   rows) |}, Ref.plain false)
  /\ rms_norm (Examples.x_2x4 float32)
       (Some {| Ref.dtype_of := float32; Ref.device_type := "cpu";
                Ref.shape := [4%nat]; Ref.data := g |})
       Examples.eps_default (Ref.plain false)
     = (Ok {| Ref.dtype_of := float32; Ref.device_type := "cpu";
              Ref.shape := [2; 4]%nat;
              Ref.data :=
                concat (map (fun row =>
                               zip_with (lift2 float32 fmul)
                                 (rms_row float32 Examples.eps_default row)
                                 g) rows) |}, Ref.plain false).
Proof.
  intros two rows g.
  assert (Hrows : Forall (fun row => length row = 4%nat) rows)
    by (repeat constructor).
  destruct (proj2 rms_norm_formula float32 "cpu" 4%nat rows
              Examples.eps_default (Ref.plain false) Hrows eq_refl)
    as [E F].
  split; [exact E | exact (F float32 g eq_refl)].
Defined.


Lemma forward_keeps_dtype_witness :
  exists y w',
    RMSNorm.forward (Examples.rms_module 4 true None)
      (Examples.x_2x4 float16) (Ref.plain false) = (Ok y, w')
    /\ LPRMSNorm.forward (Examples.rms_module 4 true None)
         (Examples.x_2x4 float16) Examples.autocast_world
       = (Ok y, Examples.autocast_world)
    /\ t_dtype y = float16.
Proof.
  eexists _, _.
  split; [vm_compute; reflexivity |].
  split; [vm_compute; reflexivity |].
  refine (proj1 (forward_keeps_dtype (H := ref_torch)
                   (@to_dtype ref_torch Ref_dtype_laws)
                   (Examples.rms_module 4 true None)
                   (Examples.x_2x4 float16) (Ref.plain false)) _ _ _).
  vm_compute. reflexivity.
Defined.

Lemma cast_if_autocast_enabled_cases_witness :
  _cast_if_autocast_enabled Examples.x_xla (Ref.plain false)
    = (Ok Examples.x_xla, Ref.plain false)
  /\ _cast_if_autocast_enabled Examples.x_cuda Examples.autocast_world
     = to Examples.x_cuda float16 Examples.autocast_world
  /\ _cast_if_autocast_enabled (Examples.x_123 float32 "cpu")
       Examples.autocast_world
     = to (Examples.x_123 float32 "cpu") bfloat16 Examples.autocast_world
  /\ _cast_if_autocast_enabled Examples.x_xla Examples.autocast_world
     = (Raise NotImplementedError, Examples.autocast_world).
Proof.
  split; [| split; [| split]].
  - apply (cast_if_autocast_enabled_cases (H := ref_torch)).
    vm_compute. reflexivity.
  - apply (cast_if_autocast_enabled_cases (H := ref_torch)
             Examples.x_cuda Examples.autocast_world);
      vm_compute; reflexivity.
  - apply (cast_if_autocast_enabled_cases (H := ref_torch)
             (Examples.x_123 float32 "cpu") Examples.autocast_world);
      vm_compute; reflexivity.
  - apply (cast_if_autocast_enabled_cases (H := ref_torch)
             Examples.x_xla Examples.autocast_world).
    + vm_compute. reflexivity.
    + simpl. discriminate.
    + simpl. discriminate.
Defined.

Lemma LPLayerNorm_forward_default_witness :
  (let self := Examples.ln_module 3 true None in
   let x := Examples.x_123 float32 "cpu" in
   let w := Ref.plain false in
   using_pjrt w = false
   /\ exists ctx entered y,
        _cast_if_autocast_enabled x w = (Ok x, w)
        /\ autocast_enter false "cpu" w = (Ok ctx, entered)
        /\ layer_norm x [3%nat] (LayerNorm.weight self) (LayerNorm.bias self)
             Examples.eps_default entered = (Ok y, entered)
        /\ autocast_exit ctx entered = w
        /\ LPLayerNorm.forward self x w = (Ok y, w)
        /\ Ref.shape y = [1; 3]%nat)
  /\ (let self := Examples.ln_module_cuda in
      let x := Examples.x_cuda in
      let w := Examples.autocast_world in
      let half := fun t : Ref.tensor => Ref.cast t float16 in
      using_pjrt w = false
      /\ exists ctx entered y,
           _cast_if_autocast_enabled x w = (Ok (half x), w)
           /\ autocast_enter false "cuda" w = (Ok ctx, entered)
           /\ is_autocast_enabled entered = false
           /\ layer_norm (half x) [3%nat]
                (option_map half (LayerNorm.weight self))
                (option_map half (LayerNorm.bias self))
                Examples.eps_default entered = (Ok y, entered)
           /\ autocast_exit ctx entered = w
           /\ LPLayerNorm.forward self x w = (Ok y, w)
           /\ Ref.dtype_of y = float16).
Proof.
  split.
  - intros self x w. split; [reflexivity |].
    pose proof (LPLayerNorm_forward_default (H := ref_torch) self x w
                  eq_refl) as E.
    eexists _, _, _.
    split; [vm_compute; reflexivity |].
    split; [vm_compute; reflexivity |].
    split; [vm_compute; reflexivity |].
    split; [vm_compute; reflexivity |].
    split; [rewrite E; vm_compute; reflexivity |].
    vm_compute. reflexivity.
  - intros self x w half. split; [reflexivity |].
    pose proof (LPLayerNorm_forward_default (H := ref_torch) self x w
                  eq_refl) as E.
    eexists _, _, _.
    split; [vm_compute; reflexivity |].
    split; [vm_compute; reflexivity |].
    split; [vm_compute; reflexivity |].
    split; [vm_compute; reflexivity |].
    split; [vm_compute; reflexivity |].
    split; [rewrite E; vm_compute; reflexivity |].
    vm_compute. reflexivity.
Defined.


Lemma RMSNorm_default_weight_as_stored_witness :
  let self := Examples.rms_module 4 true (Some bfloat16) in
  let x := Examples.x_2x4 bfloat16 in
  let w := Ref.plain false in
  exists xf wt o y,
    to x float32 w = (Ok xf, w)
    /\ RMSNorm.weight self = Some wt /\ t_dtype wt = bfloat16
    /\ unscaled_formula xf (RMSNorm.eps self) w = (Ok o, w)
    /\ rms_norm xf (RMSNorm.weight self) (RMSNorm.eps self) w = mul o wt w
    /\ mul o wt w = (Ok y, w)
    /\ t_dtype y = float32.
Proof.
  intros self x w.
  pose (xf := Ref.cast x float32).
  pose (wt := Ref.full (ShapeInt 4) 1 (Some bfloat16) None).
  assert (Exf : to x float32 w = (Ok xf, w)) by reflexivity.
  assert (Ewt : RMSNorm.weight self = Some wt) by reflexivity.
  destruct (RMSNorm_default_weight_as_stored (H := ref_torch)
              self x w eq_refl xf w Exf) as [_ F].
  assert (Eo : exists o y,
             unscaled_formula xf (RMSNorm.eps self) w = (Ok o, w)
             /\ mul o wt w = (Ok y, w)
             /\ t_shape o = [2; 4]%nat)
    by (eexists _, _; repeat split; vm_compute; reflexivity).
  destruct Eo as (o & y & Eo & Ey & So).
  destruct (F wt Ewt o w Eo) as (E & Ho & G).
  destruct (G y w Ey) as (_ & Hy & _).
  exists xf, wt, o, y.
  repeat (split; [assumption || reflexivity |]).
  apply Hy.
  - simpl. discriminate.
  - rewrite So. discriminate.
  - simpl. discriminate.
Defined.

Lemma forward_keeps_shape_witness :
  let m := obj_LPRMSNorm (Examples.rms_module 4 true None) in
  let x := Examples.x_2x4 float32 in
  NORM_CLASS_REGISTRY !! "low_precision_rmsnorm" = Some class_LPRMSNorm
  /\ construct class_LPRMSNorm (ShapeInt 4) Examples.eps_default true None
       None (Ref.plain false) = (Ok m, Ref.plain false)
  /\ exists y,
       forward m x Examples.autocast_world = (Ok y, Examples.autocast_world)
       /\ t_shape y = [2; 4]%nat.
Proof.
  intros m x.
  assert (Hreg : NORM_CLASS_REGISTRY !! "low_precision_rmsnorm"
                 = Some class_LPRMSNorm) by (vm_compute; reflexivity).
  assert (Hm : construct class_LPRMSNorm (ShapeInt 4) Examples.eps_default
                 true None None (Ref.plain false) = (Ok m, Ref.plain false))
    by reflexivity.
  assert (Hy : exists y, forward m x Examples.autocast_world
                         = (Ok y, Examples.autocast_world))
    by (eexists; vm_compute; reflexivity).
  destruct Hy as (y & Hy).
  split; [exact Hreg |]. split; [exact Hm |].
  exists y. split; [exact Hy |].
  refine (forward_keeps_shape (H := ref_torch) _ _ _ _ _ _ _ _ _ _
            Hreg Hm x y _ _ _ Hy).
  exists [2%nat]. reflexivity.
Defined.

Lemma unsupported_device_needs_autocast_witness :
  _cast_if_autocast_enabled Examples.x_xla Examples.autocast_world
    = (Raise NotImplementedError, Examples.autocast_world)
  /\ _cast_if_autocast_enabled Examples.x_xla (Ref.plain false)
     = (Ok Examples.x_xla, Ref.plain false).
Proof.
  split.
  - apply (unsupported_device_needs_autocast (H := ref_torch)
             Examples.x_xla Examples.autocast_world).
    + simpl. discriminate.
    + simpl. discriminate.
    + vm_compute. reflexivity.
  - apply (unsupported_device_needs_autocast (H := ref_torch)
             Examples.x_xla (Ref.plain false)).
    + simpl. discriminate.
    + simpl. discriminate.
    + vm_compute. reflexivity.
Defined.

Lemma paths_agree_without_autocast_witness :
  let x := Examples.x_2x4 float32 in
  let rms := Examples.rms_module 4 true None in
  let ln := Examples.ln_module 4 true None in
  (Ref.is_autocast_enabled (Ref.plain false) = false
   /\ Ref.device_type x ∈ Ref.autocast_devices (Ref.plain false)
   /\ (RMSNorm.forward rms x (Ref.plain true)).1
      = (RMSNorm.forward rms x (Ref.plain false)).1
   /\ (LPRMSNorm.forward rms x (Ref.plain true)).1
      = (LPRMSNorm.forward rms x (Ref.plain false)).1
   /\ (LPLayerNorm.forward ln x (Ref.plain true)).1
      = (LPLayerNorm.forward ln x (Ref.plain false)).1)
  /\ ((Ref.device_type Examples.x_meta
       ∉ Ref.autocast_devices (Ref.plain false))
      /\ LPRMSNorm.forward (Examples.rms_module 3 true None) Examples.x_meta
           (Ref.plain false)
         = (Raise RuntimeError, Ref.plain false)
      /\ LPLayerNorm.forward Examples.ln_module_meta Examples.x_meta
           (Ref.plain false)
         = (Raise RuntimeError, Ref.plain false)).
Proof.
  intros x rms ln.
  assert (Hin : Ref.device_type x ∈ Ref.autocast_devices (Ref.plain false))
    by (apply (bool_decide_unpack _); vm_compute; exact I).
  assert (Hout : Ref.device_type Examples.x_meta
                 ∉ Ref.autocast_devices (Ref.plain false))
    by (apply (bool_decide_unpack _); vm_compute; exact I).
  split.
  - destruct (paths_agree_without_autocast (Ref.plain false) x eq_refl)
      as (A & B & _).
    split; [reflexivity | split; [exact Hin |]].
    split; [exact (A rms eq_refl) |].
    split; [exact (proj1 (B Hin) rms) | exact (proj2 (B Hin) ln)].
  - destruct (paths_agree_without_autocast (Ref.plain false)
                Examples.x_meta eq_refl) as (_ & _ & C).
    split; [exact Hout |].
    split; [exact (proj1 (C Hout) _) | exact (proj2 (C Hout) _)].
Defined.

(** ** The further properties at concrete inputs *)

Lemma forward_keeps_world_witness :
  let m := obj_LPRMSNorm (Examples.rms_module 4 true None) in
  let x := Examples.x_2x4 float32 in
  let w := Examples.autocast_world in
  (forward m x w).2 = w
  /\ forward m x (forward m x w).2 = forward m x w.
Proof.
  intros m x w.
  exact (@forward_keeps_world ref_torch Ref_state_laws m x w).
Defined.

Lemma LP_forward_unsupported_device_witness :
  let ln := Examples.ln_module 3 true None in
  let rms := Examples.rms_module 3 true None in
  (LPLayerNorm.forward ln Examples.x_xla Examples.autocast_world
   = (Raise NotImplementedError, Examples.autocast_world)
   /\ LPRMSNorm.forward rms Examples.x_xla Examples.autocast_world
      = (Raise NotImplementedError, Examples.autocast_world))
  /\ (LPLayerNorm.forward ln Examples.x_xla (Ref.plain true)
      = LayerNorm.forward ln Examples.x_xla (Ref.plain true)
      /\ LPRMSNorm.forward rms Examples.x_xla (Ref.plain true)
         = RMSNorm.forward rms Examples.x_xla (Ref.plain true)).
Proof.
  intros ln rms. split.
  - apply (LP_forward_unsupported_device (H := ref_torch) ln rms
             Examples.x_xla Examples.autocast_world).
    + reflexivity.
    + vm_compute. reflexivity.
    + simpl. discriminate.
    + simpl. discriminate.
  - apply (LP_forward_unsupported_device (H := ref_torch) ln rms
             Examples.x_xla (Ref.plain true)).
    reflexivity.
Defined.

Lemma LP_forward_propagates_witness :
  let x := Examples.x_123 float32 "cpu" in
  let w := Ref.plain false in
  (LPLayerNorm.forward (Examples.ln_module 4 true None) x w
   = (Raise RuntimeError, w)
   /\ LPRMSNorm.forward (Examples.rms_module 4 true None) x w
      = (Raise RuntimeError, w))
  /\ (LPLayerNorm.forward Examples.ln_module_meta Examples.x_meta w
      = (Raise RuntimeError, w)
      /\ LPRMSNorm.forward (Examples.rms_module 3 true None)
           Examples.x_meta w
         = (Raise RuntimeError, w)).
Proof.
  intros x w.
  pose (ctx := (("cpu", false) : @autocast_ctx ref_torch)).
  pose (entered := Ref.set_autocast "cpu" false w).
  assert (Ee : autocast_enter (Torch := ref_torch) false
                 (t_device_type (Torch := ref_torch) x) w
               = (Ok ctx, entered))
    by (vm_compute; reflexivity).
  pose proof (Ref_autocast_restore false "cpu" w ctx entered Ee) as Hexit.
  split.
  - destruct (LP_forward_propagates (H := ref_torch)
                (Examples.ln_module 4 true None)
                (Examples.rms_module 4 true None) x w entered RuntimeError
                eq_refl eq_refl) as [A _].
    destruct (A ctx entered Ee) as [A1 A2].
    split.
    + rewrite <- Hexit at 2. apply A1. vm_compute. reflexivity.
    + rewrite <- Hexit at 2. apply A2. vm_compute. reflexivity.
  - destruct (LP_forward_propagates (H := ref_torch)
                Examples.ln_module_meta
                (Examples.rms_module 3 true None) Examples.x_meta w w
                RuntimeError eq_refl eq_refl) as [_ B].
    apply B. vm_compute. reflexivity.
Defined.

Lemma rms_norm_broadcast_shape_witness :
  let wt := Ref.full (ShapeInt 4) 1 None None in
  exists y,
    rms_norm Examples.x_300_half (Some wt) Examples.eps_default
      (Ref.plain false) = (Ok y, Ref.plain false)
    /\ broadcast_shapes [1; 1]%nat [4%nat] = Some (t_shape y)
    /\ t_shape y = [1; 4]%nat
    /\ t_shape y <> t_shape Examples.x_300_half.
Proof.
  intros wt.
  assert (Ey : exists y,
             rms_norm Examples.x_300_half (Some wt) Examples.eps_default
               (Ref.plain false) = (Ok y, Ref.plain false)
             /\ t_shape y = [1; 4]%nat)
    by (eexists; split; vm_compute; reflexivity).
  destruct Ey as (y & Ey & Sy).
  exists y. split; [exact Ey |].
  split; [| split; [exact Sy | rewrite Sy; simpl; discriminate]].
  exact (rms_norm_broadcast_shape (H := ref_torch) Examples.x_300_half
           (Some wt) Examples.eps_default (Ref.plain false)
           (Ref.plain false) y Ey).
Defined.

Lemma LP_is_base_without_autocast_witness :
  let x := Examples.x_2x4 float32 in
  let w := Ref.plain false in
  (Ref.device_type x ∈ Ref.autocast_devices w
   /\ LPLayerNorm.forward (Examples.ln_module 4 true None) x w
      = LayerNorm.forward (Examples.ln_module 4 true None) x w
   /\ LPRMSNorm.forward (Examples.rms_module 4 true None) x w
      = RMSNorm.forward (Examples.rms_module 4 true None) x w)
  /\ ((Ref.device_type Examples.x_meta ∉ Ref.autocast_devices w)
      /\ LPLayerNorm.forward Examples.ln_module_meta Examples.x_meta w
         = (Raise RuntimeError, w)
      /\ LPRMSNorm.forward (Examples.rms_module 3 true None)
           Examples.x_meta w
         = (Raise RuntimeError, w)).
Proof.
  intros x w.
  assert (Hin : Ref.device_type x ∈ Ref.autocast_devices w)
    by (apply (bool_decide_unpack _); vm_compute; exact I).
  assert (Hout : Ref.device_type Examples.x_meta ∉ Ref.autocast_devices w)
    by (apply (bool_decide_unpack _); vm_compute; exact I).
  split.
  - destruct (LP_is_base_without_autocast w x eq_refl) as [A _].
    destruct (A (or_intror Hin)) as [A1 A2].
    split; [exact Hin | split; [apply A1 | apply A2; reflexivity]].
  - destruct (LP_is_base_without_autocast w Examples.x_meta eq_refl)
      as [_ B].
    destruct (B eq_refl Hout) as [B1 B2].
    split; [exact Hout | split; [apply B1 | apply B2]].
Defined.

Lemma cast_if_autocast_enabled_idempotent_witness :
  let t' := Ref.cast Examples.x_cuda float16 in
  _cast_if_autocast_enabled Examples.x_cuda Examples.autocast_world
  = (Ok t', Examples.autocast_world)
  /\ _cast_if_autocast_enabled t' Examples.autocast_world
     = (Ok t', Examples.autocast_world).
Proof.
  intros t'.
  assert (E : _cast_if_autocast_enabled Examples.x_cuda
                Examples.autocast_world = (Ok t', Examples.autocast_world))
    by (vm_compute; reflexivity).
  split; [exact E |].
  exact (proj2 (proj2 (proj2
           (cast_if_autocast_enabled_idempotent _ _ _ _ E)))).
Defined.

Lemma LPLayerNorm_output_dtype_witness :
  (exists y,
     LPLayerNorm.forward Examples.ln_module_cuda Examples.x_cuda
       Examples.autocast_world = (Ok y, Examples.autocast_world)
     /\ Ref.dtype_of y = float16)
  /\ (exists y,
        LPLayerNorm.forward (Examples.ln_module 3 true None)
          (Examples.x_123 bfloat16 "cpu") (Ref.plain false)
        = (Ok y, Ref.plain false)
        /\ Ref.dtype_of y = bfloat16).
Proof.
  split.
  - assert (Ey : exists y,
               LPLayerNorm.forward Examples.ln_module_cuda Examples.x_cuda
                 Examples.autocast_world = (Ok y, Examples.autocast_world))
      by (eexists; vm_compute; reflexivity).
    destruct Ey as (y & Ey). exists y. split; [exact Ey |].
    destruct (LPLayerNorm_output_dtype Examples.ln_module_cuda
                Examples.x_cuda y Examples.autocast_world
                Examples.autocast_world eq_refl Ey) as (_ & A & _).
    apply A; vm_compute; reflexivity.
  - assert (Ey : exists y,
               LPLayerNorm.forward (Examples.ln_module 3 true None)
                 (Examples.x_123 bfloat16 "cpu") (Ref.plain false)
               = (Ok y, Ref.plain false))
      by (eexists; vm_compute; reflexivity).
    destruct Ey as (y & Ey). exists y. split; [exact Ey |].
    destruct (LPLayerNorm_output_dtype (Examples.ln_module 3 true None)
                (Examples.x_123 bfloat16 "cpu") y (Ref.plain false)
                (Ref.plain false) eq_refl Ey) as (A & _).
    apply A. vm_compute. reflexivity.
Defined.

Lemma rms_norm_row_by_row_witness :
  let two := of_Z float32 2 in
  let rows := [[two; two; two; two]; [two; S754_nan; two; two]] in
  exists out,
    rms_norm
      {| Ref.dtype_of := float32; Ref.device_type := "cpu";
         Ref.shape := [2; 4]%nat; Ref.data := concat rows |}
      None Examples.eps_default (Ref.plain false)
    = (Ok {| Ref.dtype_of := float32; Ref.device_type := "cpu";
             Ref.shape := [2; 4]%nat; Ref.data := concat out |},
       Ref.plain false)
    /\ out !! 0%nat
       = Some (rms_row float32 Examples.eps_default [two; two; two; two])
    /\ out !! 1%nat = Some (replicate 4 S754_nan).
Proof.
  intros two rows.
  assert (Hrows : Forall (fun row => length row = 4%nat) rows)
    by (repeat constructor).
  destruct (rms_norm_row_by_row float32 "cpu" 4%nat rows
              Examples.eps_default (Ref.plain false) Hrows eq_refl)
    as (out & E & _ & R & _).
  exists out. split; [exact E |]. split.
  - exact (proj1 (R 0%nat _ eq_refl)).
  - apply (R 1%nat [two; S754_nan; two; two] eq_refl).
    simpl. tauto.
Defined.

Lemma ones_weight_is_no_weight_witness :
  let x := Examples.x_2x4 float16 in
  RMSNorm.forward (Examples.rms_module 4 true None) x (Ref.plain false)
  = RMSNorm.forward (Examples.rms_module 4 false None) x (Ref.plain false)
  /\ LPRMSNorm.forward (Examples.rms_module 4 true None) x
       Examples.autocast_world
     = LPRMSNorm.forward (Examples.rms_module 4 false None) x
         Examples.autocast_world.
Proof.
  intros x.
  assert (Hx : well_formed x) by reflexivity.
  assert (Hs : shape_of_arg (ShapeInt 4) `suffix_of` Ref.shape x)
    by (exists [2%nat]; reflexivity).
  split.
  - destruct (ones_weight_is_no_weight (ShapeInt 4) Examples.eps_default
                None None x (Ref.plain false) (Ref.plain false) Hx Hs
                eq_refl) as (scaled & plain & E1 & E0 & F & _).
    injection E1 as <-. injection E0 as <-. exact F.
  - destruct (ones_weight_is_no_weight (ShapeInt 4) Examples.eps_default
                None None x (Ref.plain false) Examples.autocast_world Hx Hs
                eq_refl) as (scaled & plain & E1 & E0 & _ & G).
    injection E1 as <-. injection E0 as <-. exact G.
Defined.

Lemma float_round_trip_witness :
  let x := Examples.x_2x4 bfloat16 in
  (xf <- float x ;; to xf bfloat16) (Ref.plain false)
  = (Ok x, Ref.plain false).
Proof.
  intros x.
  refine (proj1 (float_round_trip x (Ref.plain false) _ _)).
  - simpl. discriminate.
  - apply Forall_replicate. reflexivity.
Defined.

Lemma rms_norm_of_zeros_witness :
  let x := {| Ref.dtype_of := float16; Ref.device_type := "cpu";
              Ref.shape := [2; 2]%nat;
              Ref.data := [S754_zero false; S754_zero true;
                           S754_zero false; S754_zero false] |} in
  rms_norm x None Examples.eps_default (Ref.plain false)
  = (Ok x, Ref.plain false)
  /\ rms_norm x None (S754_zero false) (Ref.plain false)
     = (Ok {| Ref.dtype_of := float16; Ref.device_type := "cpu";
              Ref.shape := [2; 2]%nat;
              Ref.data := replicate 4 S754_nan |}, Ref.plain false).
Proof.
  intros x.
  apply (rms_norm_of_zeros float16 "cpu" 2%nat
           [[S754_zero false; S754_zero true];
            [S754_zero false; S754_zero false]] (Ref.plain false)).
  - repeat constructor.
  - repeat constructor.
  - reflexivity.
Defined.

Lemma forward_outcome_witness :
  (exists m,
     construct class_LPRMSNorm (ShapeInt 3) Examples.eps_default true None
       (Some "xla") (Ref.plain false) = (Ok m, Ref.plain false)
     /\ forward m Examples.x_xla Examples.autocast_world
        = (Raise NotImplementedError, Examples.autocast_world))
  /\ (exists m,
        construct class_LPRMSNorm (ShapeInt 3) Examples.eps_default true None
          (Some "meta") (Ref.plain false) = (Ok m, Ref.plain false)
        /\ forward m Examples.x_meta (Ref.plain false)
           = (Raise RuntimeError, Ref.plain false))
  /\ (exists m y,
        construct class_LPRMSNorm (ShapeInt 3) Examples.eps_default true None
          None (Ref.plain false) = (Ok m, Ref.plain false)
        /\ forward m (Examples.x_123 float32 "cpu") Examples.autocast_world
           = (Ok y, Examples.autocast_world)
        /\ Ref.shape y = [1; 3]%nat)
  /\ (exists m y,
        construct class_RMSNorm (ShapeInt 3) Examples.eps_default true None
          (Some "meta") (Ref.plain false) = (Ok m, Ref.plain false)
        /\ forward m Examples.x_meta (Ref.plain false)
           = (Ok y, Ref.plain false)
        /\ Ref.shape y = [1; 3]%nat).
Proof.
  assert (Hs : forall dev,
            shape_of_arg (ShapeInt 3)
              `suffix_of` Ref.shape (Examples.x_123 float32 dev))
    by (intros dev; exists [1%nat]; reflexivity).
  split; [| split; [| split]].
  - destruct (forward_outcome class_LPRMSNorm (ShapeInt 3)
                Examples.eps_default true None (Some "xla")
                (Ref.plain false) Examples.x_xla Examples.autocast_world
                (or_intror eq_refl) (Hs "xla") eq_refl) as (m & Em & F).
    exists m. split; [exact Em |].
    assert (Hc : Ref.is_autocast_enabled Examples.autocast_world
                 && negb (autocast_device (Ref.device_type Examples.x_xla))
                 = true)
      by (vm_compute; reflexivity).
    change (low_precision class_LPRMSNorm
            && negb (Ref.pjrt Examples.autocast_world)) with true in F.
    rewrite Hc in F. exact F.
  - destruct (forward_outcome class_LPRMSNorm (ShapeInt 3)
                Examples.eps_default true None (Some "meta")
                (Ref.plain false) Examples.x_meta (Ref.plain false)
                (or_intror eq_refl) (Hs "meta") eq_refl) as (m & Em & F).
    exists m. split; [exact Em |].
    assert (Hc : Ref.is_autocast_enabled (Ref.plain false)
                 && negb (autocast_device (Ref.device_type Examples.x_meta))
                 = false)
      by (vm_compute; reflexivity).
    change (low_precision class_LPRMSNorm
            && negb (Ref.pjrt (Ref.plain false))) with true in F.
    rewrite Hc in F.
    match type of F with
    | if ?b then _ else _ =>
        assert (Hd : b = false) by (vm_compute; reflexivity);
        rewrite Hd in F
    end.
    exact F.
  - destruct (forward_outcome class_LPRMSNorm (ShapeInt 3)
                Examples.eps_default true None None
                (Ref.plain false) (Examples.x_123 float32 "cpu")
                Examples.autocast_world
                (or_intror eq_refl) (Hs "cpu") eq_refl) as (m & Em & F).
    assert (Hc : Ref.is_autocast_enabled Examples.autocast_world
                 && negb (autocast_device
                            (Ref.device_type (Examples.x_123 float32 "cpu")))
                 = false)
      by (vm_compute; reflexivity).
    change (low_precision class_LPRMSNorm
            && negb (Ref.pjrt Examples.autocast_world)) with true in F.
    rewrite Hc in F.
    match type of F with
    | if ?b then _ else _ =>
        assert (Hd : b = true) by (vm_compute; reflexivity);
        rewrite Hd in F
    end.
    destruct F as (y & Ey & Sy).
    exists m, y. split; [exact Em |]. split; [exact Ey | exact Sy].
  - destruct (forward_outcome class_RMSNorm (ShapeInt 3)
                Examples.eps_default true None (Some "meta")
                (Ref.plain false) Examples.x_meta (Ref.plain false)
                (or_introl eq_refl) (Hs "meta") eq_refl) as (m & Em & F).
    cbn [low_precision andb] in F. destruct F as (y & Ey & Sy).
    exists m, y. split; [exact Em |]. split; [exact Ey | exact Sy].
Defined.

(** ** Where the specification and the code part *)

(** C4 at a tensor on the ['meta'] device, autocast off, outside pjrt mode:
    the helper returns [x], the weight and the bias as they are, and
    [layer_norm] on the three would return, but [torch.autocast] has no
    support for the device type: [forward] raises [RuntimeError] and
    [layer_norm] is not called. *)
Lemma LPLayerNorm_autocast_refused_counterexample :
  let self := Examples.ln_module_meta in
  let x := Examples.x_meta in
  let w := Ref.plain false in
  using_pjrt w = false
  /\ _cast_if_autocast_enabled x w = (Ok x, w)
  /\ if_not_None _cast_if_autocast_enabled (LayerNorm.weight self) w
     = (Ok (LayerNorm.weight self), w)
  /\ if_not_None _cast_if_autocast_enabled (LayerNorm.bias self) w
     = (Ok (LayerNorm.bias self), w)
  /\ (exists y,
        layer_norm x (LayerNorm.normalized_shape self)
          (LayerNorm.weight self) (LayerNorm.bias self)
          (LayerNorm.eps self) w = (Ok y, w))
  /\ autocast_enter false (t_device_type x) w = (Raise RuntimeError, w)
  /\ LPLayerNorm.forward self x w = (Raise RuntimeError, w)
  /\ LPLayerNorm.forward self x w
     <> layer_norm x (LayerNorm.normalized_shape self)
          (LayerNorm.weight self) (LayerNorm.bias self)
          (LayerNorm.eps self) w.
Proof.
  intros self x w.
  split; [reflexivity |].
  split; [vm_compute; reflexivity |].
  split; [vm_compute; reflexivity |].
  split; [vm_compute; reflexivity |].
  split; [eexists; vm_compute; reflexivity |].
  split; [vm_compute; reflexivity |].
  split; [vm_compute; reflexivity |].
  vm_compute. discriminate.
Qed.


(** C10 at a float64 weight and a bfloat16 input: the weight reaches the
    last product as it is stored, the other operand is float32, and the
    product is float64: promotion does not make the final multiply a 32-bit
    one. *)
Lemma RMSNorm_weight_promotes_counterexample :
  let self := Examples.rms_module 4 true (Some float64) in
  let x := Examples.x_2x4 bfloat16 in
  let w := Ref.plain false in
  using_pjrt w = false
  /\ exists xf wt o y,
       to x float32 w = (Ok xf, w)
       /\ RMSNorm.weight self = Some wt /\ t_dtype wt = float64
       /\ unscaled_formula xf (RMSNorm.eps self) w = (Ok o, w)
       /\ t_dtype o = float32
       /\ rms_norm xf (RMSNorm.weight self) (RMSNorm.eps self) w
          = mul o wt w
       /\ mul o wt w = (Ok y, w)
       /\ t_dtype y = float64
       /\ t_dtype y <> float32.
Proof.
  intros self x w. split; [reflexivity |].
  eexists _, _, _, _.
  split; [vm_compute; reflexivity |].
  split; [vm_compute; reflexivity |].
  split; [vm_compute; reflexivity |].
  split; [vm_compute; reflexivity |].
  split; [vm_compute; reflexivity |].
  split; [vm_compute; reflexivity |].
  split; [vm_compute; reflexivity |].
  split; [vm_compute; reflexivity |].
  vm_compute. discriminate.
Qed.

(** C6 at a float16 input of 300.0, autocast off: the square overflows
    float16 on the pjrt path, which returns 0.0, while the default path
    returns 1.0.  The two are not within a tenth of each other, relative or
    absolute. *)
Lemma RMSNorm_paths_differ_counterexample :
  let self := Examples.rms_module 1 true None in
  let x := Examples.x_300_half in
  is_autocast_enabled (Ref.plain true) = false
  /\ is_autocast_enabled (Ref.plain false) = false
  /\ exists fast slow,
       RMSNorm.forward self x (Ref.plain true) = (Ok fast, Ref.plain true)
       /\ RMSNorm.forward self x (Ref.plain false)
          = (Ok slow, Ref.plain false)
       /\ Ref.data fast = [S754_zero false]
       /\ Ref.data slow = [of_Z float16 1]
       /\ allclose (1 # 10) (1 # 10) (Ref.data fast) (Ref.data slow) = false.
Proof.
  intros self x.
  split; [vm_compute; reflexivity |].
  split; [vm_compute; reflexivity |].
  eexists _, _.
  split; [vm_compute; reflexivity |].
  split; [vm_compute; reflexivity |].
  split; [vm_compute; reflexivity |].
  split; vm_compute; reflexivity.
Qed.

(** C8 at a tensor on an ['xla'] device with autocast disabled: the helper
    returns the tensor and raises nothing. *)
Lemma autocast_disabled_returns_counterexample :
  let t := Examples.x_xla in
  let w := Ref.plain false in
  t_device_type t <> "cuda" /\ t_device_type t <> "cpu"
  /\ is_autocast_enabled w = false
  /\ _cast_if_autocast_enabled t w = (Ok t, w)
  /\ _cast_if_autocast_enabled t w <> (Raise NotImplementedError, w).
Proof.
  intros t w.
  split; [simpl; discriminate |].
  split; [simpl; discriminate |].
  split; [vm_compute; reflexivity |].
  split; [vm_compute; reflexivity |].
  vm_compute. discriminate.
Qed.
